(** * agentic_rag: the Oracle vector-store adapter and the operator menu

    A shallow embedding of [src/OraDBVectorStore.py] and [agent_cli.py].
    Both files are glue around libraries that live outside the repository
    (the Python runtime, [yaml], [oracledb], [langchain_oracledb], [rich],
    [subprocess]).  The embedding keeps the repository's own control flow
    and data handling as written and puts everything external behind an
    interface: every call that leaves the repository is recorded in a trace
    and answered by an environment the theorems quantify over. *)

From Stdlib Require Import Ascii String List ZArith Bool Lia DecimalString.
Import ListNotations.
Open Scope string_scope.

(** ** Python values *)

(** The values that reach the code: what [json.load] and [yaml.safe_load]
    produce, what the database driver puts in a fetched row, and opaque
    objects.  A float is kept as its binary64 bit pattern; a dict keeps its
    items in insertion order. *)
#[warnings="-register-all"]
Inductive PyVal : Type :=
| VNone
| VBool (b : bool)
| VInt (n : Z)
| VFloat (bits : Z)
| VStr (s : string)
| VList (items : list PyVal)
| VDict (items : list (string * PyVal))
| VLob (data : string)
| VObject (cls : string) (ident : Z).

(** [isinstance(value, (str, int, float, bool))]; [bool] is a subclass of
    [int], so the tuple accepts it twice over. *)
Definition is_scalar (value : PyVal) : bool :=
  match value with
  | VStr _ | VInt _ | VFloat _ | VBool _ => true
  | _ => false
  end.

(** [isinstance(value, list)] *)
Definition is_list (value : PyVal) : bool :=
  match value with
  | VList _ => true
  | _ => false
  end.

(** Bit patterns of [0.0] and [-0.0]. *)
Definition float_is_zero (bits : Z) : bool :=
  (bits =? 0)%Z || (bits =? 2 ^ 63)%Z.

(** Python truth value, as [if x:] and [not x] test it. *)
Definition truthy (v : PyVal) : bool :=
  match v with
  | VNone => false
  | VBool b => b
  | VInt n => negb (n =? 0)%Z
  | VFloat bits => negb (float_is_zero bits)
  | VStr s => negb (s =? "")
  | VList items => match items with [] => false | _ => true end
  | VDict items => match items with [] => false | _ => true end
  | VLob _ => true
  | VObject _ _ => true
  end.

(** ** Dictionaries with string keys, in insertion order *)

Definition Dict (V : Type) : Type := list (string * V).

Fixpoint dict_get {V : Type} (key : string) (d : Dict V) : option V :=
  match d with
  | [] => None
  | (k, v) :: rest => if k =? key then Some v else dict_get key rest
  end.

(** [d[key] = value]: overwrite in place when the key is there, append
    otherwise. *)
Fixpoint dict_set {V : Type} (key : string) (value : V) (d : Dict V) : Dict V :=
  match d with
  | [] => [(key, value)]
  | (k, v) :: rest =>
      if k =? key then (k, value) :: rest else (k, v) :: dict_set key value rest
  end.

Definition dict_keys {V : Type} (d : Dict V) : list string := map fst d.

(** ** Exceptions and outcomes *)

Inductive ExnClass : Type :=
| ValueError
| KeyError
| IndexError
| AttributeError
| TypeError
| EOFError
| LibraryError (cls : string).

(** An exception object: its class and [str(e)]. *)
Record Exn : Type := mkExn { exn_class : ExnClass; exn_str : string }.

Inductive Result (A : Type) : Type :=
| Ok (a : A)
| Raised (e : Exn).
Arguments Ok {A} a.
Arguments Raised {A} e.

Definition raised_class {A : Type} (r : Result A) : option ExnClass :=
  match r with Ok _ => None | Raised e => Some (exn_class e) end.

(** ** Programs: state, exceptions and a trace of external calls *)

Section Program.
Context {St E : Type}.

(** A program runs from an environment state to an outcome, the next
    state, and the external calls it made, oldest first. *)
Definition M (A : Type) : Type := St -> Result A * St * list E.

Definition ret {A : Type} (a : A) : M A := fun s => (Ok a, s, []).

Definition raise {A : Type} (e : Exn) : M A := fun s => (Raised e, s, []).

Definition bind {A B : Type} (m : M A) (f : A -> M B) : M B :=
  fun s =>
    match m s with
    | (Ok a, s1, t1) => let '(r, s2, t2) := f a s1 in (r, s2, (t1 ++ t2)%list)
    | (Raised e, s1, t1) => (Raised e, s1, t1)
    end.

(** [try: m except Exception as e: handler e] *)
Definition try_except {A : Type} (m : M A) (handler : Exn -> M A) : M A :=
  fun s =>
    match m s with
    | (Ok a, s1, t1) => (Ok a, s1, t1)
    | (Raised e, s1, t1) => let '(r, s2, t2) := handler e s1 in (r, s2, (t1 ++ t2)%list)
    end.

(** An external call: record it, let the environment answer. *)
Definition call {A : Type} (ev : E) (answer : St -> Result A * St) : M A :=
  fun s => let '(r, s1) := answer s in (r, s1, [ev]).

Definition lift {A : Type} (r : Result A) : M A :=
  match r with Ok a => ret a | Raised e => raise e end.

(** A list comprehension whose element expression may raise. *)
Fixpoint mapM {A B : Type} (f : A -> M B) (xs : list A) : M (list B) :=
  match xs with
  | [] => ret []
  | x :: rest =>
      bind (f x) (fun y => bind (mapM f rest) (fun ys => ret (y :: ys)))
  end.

Definition outcome {A : Type} (x : Result A * St * list E) : Result A := fst (fst x).
Definition final {A : Type} (x : Result A * St * list E) : St := snd (fst x).
Definition calls {A : Type} (x : Result A * St * list E) : list E := snd x.

(** Every call a program can make satisfies [P], whatever the state. *)
Definition emits (P : E -> Prop) {A : Type} (m : M A) : Prop :=
  forall s, Forall P (calls (m s)).

(** A program that neither calls out nor touches the state. *)
Definition silent {A : Type} (m : M A) : Prop :=
  forall s, exists r, m s = (r, s, []).
End Program.

Arguments M St E A : clear implicits.

Declare Scope prog_scope.
Delimit Scope prog_scope with prog.
Notation "x <- m ;; k" := (bind m (fun x => k))
  (at level 61, m at next level, right associativity) : prog_scope.
Notation "m ;;; k" := (bind m (fun _ => k))
  (at level 61, right associativity) : prog_scope.
Open Scope prog_scope.

(** Subscript with a string key, [v[key]]: only a dict accepts one. *)
Definition py_getitem (v : PyVal) (key : string) : Result PyVal :=
  match v with
  | VDict items =>
      match dict_get key items with
      | Some x => Ok x
      | None => Raised (mkExn KeyError ("'" ++ key ++ "'"))
      end
  | _ => Raised (mkExn TypeError "subscript with a string key on a value that is not a dict")
  end.

(** [d.get(key, default)] on a dict. *)
Definition dict_get_or {V : Type} (default : V) (key : string) (d : Dict V) : V :=
  match dict_get key d with
  | Some x => x
  | None => default
  end.

Definition no_get_attribute : Exn :=
  mkExn AttributeError "object has no attribute 'get'".

(** [v.get(key, default)]: a method of dicts alone. *)
Definition py_get (v : PyVal) (key : string) (default : PyVal) : Result PyVal :=
  match v with
  | VDict items => Ok (dict_get_or default key items)
  | _ => Raised no_get_attribute
  end.

(** [row[i]] on a fetched tuple. *)
Definition tuple_item (row : list PyVal) (i : nat) : Result PyVal :=
  match nth_error row i with
  | Some x => Ok x
  | None => Raised (mkExn IndexError "tuple index out of range")
  end.

(** A positive binary64 that is not a NaN. *)
Definition float_gt_zero (bits : Z) : bool :=
  (0 <? bits)%Z && (bits <=? 2047 * 2 ^ 52)%Z.

(** [v > 0] *)
Definition py_gt_zero (v : PyVal) : Result bool :=
  match v with
  | VInt n => Ok (0 <? n)%Z
  | VBool b => Ok b
  | VFloat bits => Ok (float_gt_zero bits)
  | _ => Raised (mkExn TypeError "'>' not supported between these operands")
  end.

(** * OraDBVectorStore.py *)

Module OraDB.

(** ** Objects handed out by [oracledb] and [langchain_oracledb] *)

Inductive Conn : Type := Connection (ident : Z).

Inductive Cursor : Type := CursorOf (conn : Conn) (ident : Z).

Inductive Embedding : Type :=
| ProvidedEmbedding (embedding_function : PyVal)
| OracleEmbeddings (conn : Conn) (params : PyVal).

(** An [OracleVS] instance is known by the arguments it was built with.
    It defines neither [__bool__] nor [__len__], so it is always true. *)
Record OracleVS : Type := mkOracleVS {
  client : Conn;
  embedding_function : Embedding;
  table_name : string;
  distance_strategy : string
}.

(** [langchain_core.documents.Document] *)
Record Document : Type := mkDocument {
  page_content : string;
  metadata : Dict PyVal
}.

(** ** The calls that leave the repository *)

Inductive Event : Type :=
| EPrint (msg : string)
| EPathExists (path : string)
| EYamlSafeLoad (path : string)
| EConnect (kwargs : Dict PyVal)
| ENewOracleEmbeddings (conn : Conn) (params : PyVal)
| ENewOracleVS (store : OracleVS)
| EAddTexts (store : OracleVS) (texts : list PyVal) (metadatas : list (Dict PyVal))
| ESimilaritySearch (store : OracleVS) (query : string) (k : Z)
| EDelete (store : OracleVS) (ids : list string)
| ECursor (conn : Conn)
| EExecute (cur : Cursor) (sql : string) (binds : list PyVal)
| EFetchone (cur : Cursor)
| ECursorClose (cur : Cursor)
| ECommit (conn : Conn).

(** Everything outside the repository, over a state [B] of the file system
    and the database: the builtin [str], [json.loads], the config file,
    the driver and the vector-store client.  Each operation may raise. *)
Class External (B : Type) : Type := {
  py_str : PyVal -> string;
  json_loads : string -> Result PyVal;
  path_exists : string -> B -> Result bool * B;
  yaml_safe_load : string -> B -> Result PyVal * B;
  oracledb_connect : Dict PyVal -> B -> Result Conn * B;
  new_OracleEmbeddings : Conn -> PyVal -> B -> Result unit * B;
  new_OracleVS : OracleVS -> B -> Result unit * B;
  add_texts : OracleVS -> list PyVal -> list (Dict PyVal) -> B -> Result unit * B;
  similarity_search : OracleVS -> string -> Z -> B -> Result (list Document) * B;
  vs_delete : OracleVS -> list string -> B -> Result unit * B;
  connection_cursor : Conn -> B -> Result Cursor * B;
  cursor_execute : Cursor -> string -> list PyVal -> B -> Result unit * B;
  cursor_fetchone : Cursor -> B -> Result (option (list PyVal)) * B;
  cursor_close : Cursor -> B -> Result unit * B;
  connection_commit : Conn -> B -> Result unit * B
}.

(** The instance under construction and in use: [self]. *)
Record OraDBVectorStore : Type := mkSelf {
  connection : Conn;
  embeddings : Embedding;
  collections : Dict string;
  vector_stores : Dict OracleVS
}.

Section Code.
Context {B : Type} `{External B}.

Abbreviation Prog := (M B Event).

Definition print (msg : string) : Prog unit :=
  call (EPrint msg) (fun b => (Ok tt, b)).

Definition len {A : Type} (xs : list A) : string :=
  py_str (VInt (Z.of_nat (length xs))).

Definition _load_config : Prog PyVal :=
  try_except
    (let config_path := "config.yaml" in
     found <- call (EPathExists config_path) (path_exists config_path) ;;
     if negb found then
       print "Warning: config.yaml not found. Using empty configuration." ;;;
       ret (VDict [])
     else
       config <- call (EYamlSafeLoad config_path) (yaml_safe_load config_path) ;;
       ret (if truthy config then config else VDict []))
    (fun e =>
       print ("Warning: Error loading config: " ++ exn_str e) ;;;
       ret (VDict [])).

Definition credentials_missing : Exn :=
  mkExn ValueError "Oracle DB credentials not found in config.yaml. Please set ORACLE_DB_USERNAME, ORACLE_DB_PASSWORD, and ORACLE_DB_DSN.".

Definition connect_kwargs_no_wallet (username password dsn : PyVal) : Dict PyVal :=
  [("user", username); ("password", password); ("dsn", dsn)].

Definition connect_kwargs_wallet (username password dsn wallet_path wallet_password : PyVal)
  : Dict PyVal :=
  [("user", username); ("password", password); ("dsn", dsn);
   ("config_dir", wallet_path); ("wallet_location", wallet_path);
   ("wallet_password", wallet_password)].

(** Lines 31-43: the [try] block around [oracledb.connect]. *)
Definition connect_to_database (username password dsn wallet_path wallet_password : PyVal)
  : Prog Conn :=
  try_except
    (conn <-
       (if negb (truthy wallet_path) then
          print ("Connecting (no wallet) to dsn " ++ py_str dsn ++ " and user " ++ py_str username) ;;;
          let kwargs := connect_kwargs_no_wallet username password dsn in
          call (EConnect kwargs) (oracledb_connect kwargs)
        else
          print ("Connecting (with wallet) to dsn " ++ py_str dsn ++ " and user " ++ py_str username) ;;;
          let kwargs := connect_kwargs_wallet username password dsn wallet_path wallet_password in
          call (EConnect kwargs) (oracledb_connect kwargs)) ;;
     print "Oracle DB Connection successful!" ;;;
     ret conn)
    (fun e =>
       print ("Oracle DB Connection failed! " ++ exn_str e) ;;;
       raise e).

Definition default_embed_params : PyVal :=
  VDict [("provider", VStr "database"); ("model", VStr "ALL_MINILM_L12_V2")].

(** Lines 45-60. *)
Definition choose_embeddings (credentials : PyVal) (conn : Conn) (embedding_function : PyVal)
  : Prog Embedding :=
  if truthy embedding_function then
    print "Using provided custom embedding function." ;;;
    ret (ProvidedEmbedding embedding_function)
  else
    embed_params <- lift (py_get credentials "ORACLE_EMBEDDINGS_PARAMS" default_embed_params) ;;
    let embed_params :=
      match embed_params with
      | VStr text =>
          match json_loads text with
          | Ok parsed => parsed
          | Raised _ => embed_params
          end
      | _ => embed_params
      end in
    call (ENewOracleEmbeddings conn embed_params) (new_OracleEmbeddings conn embed_params) ;;;
    ret (OracleEmbeddings conn embed_params).

Definition the_collections : Dict string :=
  [("pdf_documents", "PDFCollection");
   ("web_documents", "WebCollection");
   ("repository_documents", "RepoCollection");
   ("general_knowledge", "GeneralCollection")].

(** Lines 71-78: [for name, table in self.collections.items()]. *)
Fixpoint register_stores (conn : Conn) (emb : Embedding) (items : list (string * string))
    (vector_stores : Dict OracleVS) : Prog (Dict OracleVS) :=
  match items with
  | [] => ret vector_stores
  | (name, table) :: rest =>
      let store := mkOracleVS conn emb table "EUCLIDEAN_DISTANCE" in
      call (ENewOracleVS store) (new_OracleVS store) ;;;
      register_stores conn emb rest (dict_set name store vector_stores)
  end.

Definition __init__ (persist_directory : string) (embedding_function : PyVal)
  : Prog OraDBVectorStore :=
  credentials <- _load_config ;;
  username <- lift (py_get credentials "ORACLE_DB_USERNAME" (VStr "ADMIN")) ;;
  password <- lift (py_get credentials "ORACLE_DB_PASSWORD" (VStr "")) ;;
  dsn <- lift (py_get credentials "ORACLE_DB_DSN" (VStr "")) ;;
  wallet_path <- lift (py_get credentials "ORACLE_DB_WALLET_LOCATION" VNone) ;;
  wallet_password <- lift (py_get credentials "ORACLE_DB_WALLET_PASSWORD" VNone) ;;
  if negb (truthy password) || negb (truthy dsn) then
    raise credentials_missing
  else
    conn <- connect_to_database username password dsn wallet_path wallet_password ;;
    emb <- choose_embeddings credentials conn embedding_function ;;
    stores <- register_stores conn emb the_collections [] ;;
    ret (mkSelf conn emb the_collections stores).

(** Lines 106-113: the branch taken for one value. *)
Definition sanitize_value (value : PyVal) : PyVal :=
  if is_scalar value then value
  else if is_list value then VStr (py_str value)
  else match value with
       | VNone => VStr ""
       | _ => VStr (py_str value)
       end.

(** [metadata.items()] exists on a dict only. *)
Definition _sanitize_metadata (metadata : PyVal) : Result (Dict PyVal) :=
  match metadata with
  | VDict items =>
      Ok (fold_left
            (fun sanitized '(key, value) => dict_set key (sanitize_value value) sanitized)
            items [])
  | _ => Raised (mkExn AttributeError "object has no attribute 'items'")
  end.

Definition collection_not_found (collection_name : string) : Exn :=
  mkExn ValueError ("Collection " ++ collection_name ++ " not found").

Definition _add_chunks_to_collection (self : OraDBVectorStore) (chunks : list PyVal)
    (collection_name : string) : Prog unit :=
  match chunks with
  | [] => ret tt
  | _ :: _ =>
      match dict_get collection_name (vector_stores self) with
      | None => raise (collection_not_found collection_name)
      | Some store =>
          texts <- mapM (fun chunk => lift (py_getitem chunk "text")) chunks ;;
          metadatas <-
            mapM (fun chunk =>
                    m <- lift (py_getitem chunk "metadata") ;;
                    lift (_sanitize_metadata m)) chunks ;;
          print ("🔄 [OraDB] Inserting " ++ len chunks ++ " chunks into " ++ collection_name ++ "...") ;;;
          call (EAddTexts store texts metadatas) (add_texts store texts metadatas) ;;;
          print ("✅ [OraDB] Successfully inserted " ++ len chunks ++ " chunks.")
      end
  end.

Definition add_pdf_chunks (self : OraDBVectorStore) (chunks : list PyVal) (document_id : string)
  : Prog unit :=
  _add_chunks_to_collection self chunks "pdf_documents".

Definition add_web_chunks (self : OraDBVectorStore) (chunks : list PyVal) (source_id : string)
  : Prog unit :=
  _add_chunks_to_collection self chunks "web_documents".

Definition add_general_knowledge (self : OraDBVectorStore) (chunks : list PyVal)
    (source_id : string) : Prog unit :=
  _add_chunks_to_collection self chunks "general_knowledge".

Definition add_repo_chunks (self : OraDBVectorStore) (chunks : list PyVal) (document_id : string)
  : Prog unit :=
  _add_chunks_to_collection self chunks "repository_documents".

(** Lines 160-163: one formatted result. *)
Definition format_result (doc : Document) : Dict PyVal :=
  [("content", VStr (page_content doc)); ("metadata", VDict (metadata doc))].

Definition _query_collection (self : OraDBVectorStore) (collection_name query : string)
    (n_results : Z) : Prog (list (Dict PyVal)) :=
  print ("🔍 [OracleVS] Querying " ++ collection_name) ;;;
  match dict_get collection_name (vector_stores self) with
  | None => ret []
  | Some store =>
      docs <- call (ESimilaritySearch store query n_results)
                   (similarity_search store query n_results) ;;
      let formatted_results := map format_result docs in
      print ("🔍 [OracleVS] Retrieved " ++ len formatted_results ++ " chunks from " ++ collection_name) ;;;
      ret formatted_results
  end.

(** The default of [n_results]. *)
Definition n_results_default : Z := 3.

Definition query_pdf_collection (self : OraDBVectorStore) (query : string) (n_results : Z)
  : Prog (list (Dict PyVal)) :=
  _query_collection self "pdf_documents" query n_results.

Definition query_web_collection (self : OraDBVectorStore) (query : string) (n_results : Z)
  : Prog (list (Dict PyVal)) :=
  _query_collection self "web_documents" query n_results.

Definition query_general_collection (self : OraDBVectorStore) (query : string) (n_results : Z)
  : Prog (list (Dict PyVal)) :=
  _query_collection self "general_knowledge" query n_results.

Definition query_repo_collection (self : OraDBVectorStore) (query : string) (n_results : Z)
  : Prog (list (Dict PyVal)) :=
  _query_collection self "repository_documents" query n_results.

(** [if table_name:] on a value of the [collections] dict. *)
Definition bound_table (self : OraDBVectorStore) (collection_name : string) : option string :=
  match dict_get collection_name (collections self) with
  | Some table => if table =? "" then None else Some table
  | None => None
  end.

Definition truncate_sql (table : string) : string := "TRUNCATE TABLE " ++ table.

Definition delete_documents (self : OraDBVectorStore) (collection_name : string)
    (ids : option (list string)) (delete_all : bool) : Prog unit :=
  match dict_get collection_name (vector_stores self) with
  | None => raise (collection_not_found collection_name)
  | Some store =>
      if delete_all then
        match bound_table self collection_name with
        | Some table =>
            cursor <- call (ECursor (connection self)) (connection_cursor (connection self)) ;;
            call (EExecute cursor (truncate_sql table) []) (cursor_execute cursor (truncate_sql table) []) ;;;
            call (ECommit (connection self)) (connection_commit (connection self)) ;;;
            print ("🗑️ [OraDBVectorStore] Truncated collection " ++ collection_name)
        | None => ret tt
        end
      else
        match ids with
        | Some ((_ :: _) as ids) =>
            call (EDelete store ids) (vs_delete store ids) ;;;
            print ("🗑️ [OraDBVectorStore] Deleted " ++ len ids ++ " documents from " ++ collection_name)
        | _ => ret tt
        end
  end.

Definition count_sql (table : string) : string := "SELECT COUNT(*) FROM " ++ table.

Definition get_collection_count (self : OraDBVectorStore) (collection_name : string)
  : Prog PyVal :=
  match bound_table self collection_name with
  | None => ret (VInt 0)
  | Some table =>
      try_except
        (cursor <- call (ECursor (connection self)) (connection_cursor (connection self)) ;;
         call (EExecute cursor (count_sql table) []) (cursor_execute cursor (count_sql table) []) ;;;
         result <- call (EFetchone cursor) (cursor_fetchone cursor) ;;
         call (ECursorClose cursor) (cursor_close cursor) ;;;
         match result with
         | Some ((_ :: _) as row) => lift (tuple_item row 0)
         | _ => ret (VInt 0)
         end)
        (fun e => ret (VInt 0))
  end.

Definition latest_sql (table : string) : string :=
  "SELECT text, metadata FROM " ++ table ++ " WHERE ROWNUM <= 1".

(** Lines 245-247: [if hasattr(metadata, 'read'): metadata = metadata.read()]. *)
Definition read_if_lob (metadata : PyVal) : PyVal :=
  match metadata with
  | VLob data => VStr data
  | _ => metadata
  end.

Definition get_latest_chunk (self : OraDBVectorStore) (collection_name : string)
  : Prog (Dict PyVal) :=
  match bound_table self collection_name with
  | None => ret []
  | Some table =>
      try_except
        (cursor <- call (ECursor (connection self)) (connection_cursor (connection self)) ;;
         call (EExecute cursor (latest_sql table) []) (cursor_execute cursor (latest_sql table) []) ;;;
         row <- call (EFetchone cursor) (cursor_fetchone cursor) ;;
         call (ECursorClose cursor) (cursor_close cursor) ;;;
         match row with
         | Some ((_ :: _) as row) =>
             text <- lift (tuple_item row 0) ;;
             metadata <- lift (tuple_item row 1) ;;
             let metadata := read_if_lob metadata in
             ret [("content", text); ("metadata", metadata)]
         | _ => ret []
         end)
        (fun e =>
           print ("Error getting chunk from " ++ collection_name ++ ": " ++ exn_str e) ;;;
           ret [])
  end.

Definition model_sql : string :=
  "SELECT COUNT(*) FROM user_mining_models WHERE model_name = :1".

Definition check_embedding_model_exists (self : OraDBVectorStore) (model_name : string)
  : Prog bool :=
  try_except
    (cursor <- call (ECursor (connection self)) (connection_cursor (connection self)) ;;
     call (EExecute cursor model_sql [VStr model_name]) (cursor_execute cursor model_sql [VStr model_name]) ;;;
     result <- call (EFetchone cursor) (cursor_fetchone cursor) ;;
     call (ECursorClose cursor) (cursor_close cursor) ;;;
     match result with
     | Some ((_ :: _) as row) =>
         count <- lift (tuple_item row 0) ;;
         positive <- lift (py_gt_zero count) ;;
         ret positive
     | _ => ret false
     end)
    (fun e =>
       print ("Error checking model " ++ model_name ++ ": " ++ exn_str e) ;;;
       ret false).
End Code.

(** ** Vocabulary for stating properties *)

(** The four collections the public methods name. *)
Inductive PublicCollection : Type := Pdf | Web | General | Repo.

Definition name_of (c : PublicCollection) : string :=
  match c with
  | Pdf => "pdf_documents"
  | Web => "web_documents"
  | General => "general_knowledge"
  | Repo => "repository_documents"
  end.

Section Vocabulary.
Context {B : Type} `{External B}.

Definition query_of (c : PublicCollection)
  : OraDBVectorStore -> string -> Z -> M B Event (list (Dict PyVal)) :=
  match c with
  | Pdf => query_pdf_collection
  | Web => query_web_collection
  | General => query_general_collection
  | Repo => query_repo_collection
  end.

Definition adder_of (c : PublicCollection)
  : OraDBVectorStore -> list PyVal -> string -> M B Event unit :=
  match c with
  | Pdf => add_pdf_chunks
  | Web => add_web_chunks
  | General => add_general_knowledge
  | Repo => add_repo_chunks
  end.

(** A call of any method of an instance, its result dropped. *)
Inductive Operation : Type :=
| OpAdd (c : PublicCollection) (chunks : list PyVal) (ident : string)
| OpAddTo (chunks : list PyVal) (collection_name : string)
| OpQuery (c : PublicCollection) (query : string) (n_results : Z)
| OpQueryIn (collection_name query : string) (n_results : Z)
| OpDelete (collection_name : string) (ids : option (list string)) (delete_all : bool)
| OpCount (collection_name : string)
| OpLatest (collection_name : string)
| OpCheckModel (model_name : string).

Definition perform (self : OraDBVectorStore) (op : Operation) : M B Event unit :=
  match op with
  | OpAdd c chunks ident => adder_of c self chunks ident
  | OpAddTo chunks collection_name => _add_chunks_to_collection self chunks collection_name
  | OpQuery c query n_results => query_of c self query n_results ;;; ret tt
  | OpQueryIn collection_name query n_results =>
      _query_collection self collection_name query n_results ;;; ret tt
  | OpDelete collection_name ids delete_all =>
      delete_documents self collection_name ids delete_all
  | OpCount collection_name => get_collection_count self collection_name ;;; ret tt
  | OpLatest collection_name => get_latest_chunk self collection_name ;;; ret tt
  | OpCheckModel model_name => check_embedding_model_exists self model_name ;;; ret tt
  end.

(** One item of a metadata dict after the loop of [_sanitize_metadata]. *)
Definition sanitize_item (item : string * PyVal) : string * PyVal :=
  (fst item, sanitize_value (snd item)).

(** The store the constructor builds on a table. *)
Definition new_store (conn : Conn) (emb : Embedding) (table : string) : OracleVS :=
  mkOracleVS conn emb table "EUCLIDEAN_DISTANCE".

(** Lines 45-86 of the constructor, once connected. *)
Definition finish_init (credentials : PyVal) (conn : Conn) (embedding_function : PyVal)
  : M B Event OraDBVectorStore :=
  emb <- choose_embeddings credentials conn embedding_function ;;
  stores <- register_stores conn emb the_collections [] ;;
  ret (mkSelf conn emb the_collections stores).
End Vocabulary.

Definition is_print (ev : Event) : bool :=
  match ev with
  | EPrint _ => true
  | _ => false
  end.

(** A trace without its console output. *)
Definition database_calls (trace : list Event) : list Event :=
  filter (fun ev => negb (is_print ev)) trace.

Definition connect_of (ev : Event) : list (Dict PyVal) :=
  match ev with
  | EConnect kwargs => [kwargs]
  | _ => []
  end.

(** The keyword arguments of the [oracledb.connect] calls in a trace. *)
Definition connects (trace : list Event) : list (Dict PyVal) :=
  flat_map connect_of trace.



Definition search_of (ev : Event) : list (OracleVS * string * Z) :=
  match ev with
  | ESimilaritySearch store query k => [(store, query, k)]
  | _ => []
  end.

(** The similarity searches in a trace. *)
Definition searches (trace : list Event) : list (OracleVS * string * Z) :=
  flat_map search_of trace.

(** A statement that rewrites rows where they are. *)
Definition is_update_statement (sql : string) : bool :=
  String.prefix "UPDATE" sql || String.prefix "MERGE" sql.

Definition updates_in_place (ev : Event) : bool :=
  match ev with
  | EExecute _ sql _ => is_update_statement sql
  | _ => false
  end.

Definition is_statement (ev : Event) : bool :=
  match ev with
  | EExecute _ _ _ => true
  | _ => false
  end.

(** A credential the config does not give, or gives as a false value
    (the empty string, [None], ...). *)
Definition missing_or_empty (key : string) (config : Dict PyVal) : bool :=
  match dict_get key config with
  | None => true
  | Some value => negb (truthy value)
  end.


(** ** A reference environment

    An in-memory stand-in for the runtime and the database, used to run the
    code on concrete inputs.  Tables are heaps: rows stay in the order they
    were inserted and an unordered query scans them in that order, as a
    full scan of a heap table that has seen no deletes does. *)

Fixpoint demo_repr (v : PyVal) : string :=
  match v with
  | VNone => "None"
  | VBool true => "True"
  | VBool false => "False"
  | VInt n => NilZero.string_of_int (Z.to_int n)
  | VFloat _ => "<float>"
  | VStr s => "'" ++ s ++ "'"
  | VList items => "[" ++ String.concat ", " (map demo_repr items) ++ "]"
  | VDict items =>
      "{" ++ String.concat ", " (map (fun kv => "'" ++ fst kv ++ "': " ++ demo_repr (snd kv)) items) ++ "}"
  | VLob _ => "<LOB>"
  | VObject cls _ => "<" ++ cls ++ " object>"
  end.

(** [str] agrees with [repr] except on strings; exact on [None], booleans,
    integers, strings, and lists and dicts of these whose strings need no
    escaping. *)
Definition demo_str (v : PyVal) : string :=
  match v with
  | VStr s => s
  | _ => demo_repr v
  end.

Record Row : Type := mkRow {
  row_id : string;
  row_text : PyVal;
  row_metadata : Dict PyVal
}.

Record HeapDb : Type := mkHeapDb {
  config_yaml : option PyVal;
  tables : Dict (list Row);
  fetch_queue : list (list PyVal);
  next_ident : Z
}.

Definition with_tables (b : HeapDb) (t : Dict (list Row)) : HeapDb :=
  mkHeapDb (config_yaml b) t (fetch_queue b) (next_ident b).

Definition with_queue (b : HeapDb) (q : list (list PyVal)) : HeapDb :=
  mkHeapDb (config_yaml b) (tables b) q (next_ident b).

Definition fresh_ident (b : HeapDb) : Z * HeapDb :=
  (next_ident b, mkHeapDb (config_yaml b) (tables b) (fetch_queue b) (next_ident b + 1)).

Definition no_such_table : Exn :=
  mkExn (LibraryError "DatabaseError") "ORA-00942: table or view does not exist".

Fixpoint new_rows (ident : Z) (texts : list PyVal) (metadatas : list (Dict PyVal)) : list Row :=
  match texts, metadatas with
  | text :: texts', m :: metadatas' =>
      mkRow (demo_str (VInt ident)) text m :: new_rows (ident + 1) texts' metadatas'
  | _, _ => []
  end.

Definition heap_add_texts (store : OracleVS) (texts : list PyVal)
    (metadatas : list (Dict PyVal)) (b : HeapDb) : Result unit * HeapDb :=
  match dict_get (table_name store) (tables b) with
  | None => (Raised no_such_table, b)
  | Some rows =>
      let added := new_rows (next_ident b) texts metadatas in
      (Ok tt,
       mkHeapDb (config_yaml b)
                (dict_set (table_name store) (rows ++ added)%list (tables b))
                (fetch_queue b)
                (next_ident b + Z.of_nat (length added)))
  end.

Definition heap_similarity_search (store : OracleVS) (query : string) (k : Z) (b : HeapDb)
    : Result (list Document) * HeapDb :=
  match dict_get (table_name store) (tables b) with
  | None => (Raised no_such_table, b)
  | Some rows =>
      (Ok (map (fun r => mkDocument (demo_str (row_text r)) (row_metadata r))
               (firstn (Z.to_nat k) rows)), b)
  end.

Definition heap_delete (store : OracleVS) (ids : list string) (b : HeapDb)
    : Result unit * HeapDb :=
  match dict_get (table_name store) (tables b) with
  | None => (Raised no_such_table, b)
  | Some rows =>
      let kept := filter (fun r => negb (existsb (String.eqb (row_id r)) ids)) rows in
      (Ok tt, with_tables b (dict_set (table_name store) kept (tables b)))
  end.

Definition statement_table (statement : string -> string) (sql : string) (b : HeapDb)
    : option (string * list Row) :=
  find (fun entry => sql =? statement (fst entry)) (tables b).

Definition heap_execute (cur : Cursor) (sql : string) (binds : list PyVal) (b : HeapDb)
    : Result unit * HeapDb :=
  match statement_table truncate_sql sql b with
  | Some (t, _) => (Ok tt, with_queue (with_tables b (dict_set t [] (tables b))) [])
  | None =>
      match statement_table count_sql sql b with
      | Some (_, rows) => (Ok tt, with_queue b [[VInt (Z.of_nat (length rows))]])
      | None =>
          match statement_table latest_sql sql b with
          | Some (_, rows) =>
              (Ok tt, with_queue b (map (fun r => [row_text r; VDict (row_metadata r)]) (firstn 1 rows)))
          | None =>
              if sql =? model_sql then (Ok tt, with_queue b [[VInt 0]])
              else (Raised no_such_table, b)
          end
      end
  end.

Definition heap_fetchone (cur : Cursor) (b : HeapDb) : Result (option (list PyVal)) * HeapDb :=
  match fetch_queue b with
  | [] => (Ok None, b)
  | row :: rest => (Ok (Some row), with_queue b rest)
  end.

(** [OracleVS(...)]: the client creates the table of a handle when the
    database does not have it yet. *)
Definition heap_new_OracleVS (store : OracleVS) (b : HeapDb) : Result unit * HeapDb :=
  match dict_get (table_name store) (tables b) with
  | Some _ => (Ok tt, b)
  | None => (Ok tt, with_tables b (dict_set (table_name store) [] (tables b)))
  end.

#[export] Instance heap_external : External HeapDb := {
  py_str := demo_str;
  json_loads := fun _ => Raised (mkExn ValueError "Expecting value");
  path_exists := fun path b =>
    (Ok (match config_yaml b with Some _ => path =? "config.yaml" | None => false end), b);
  yaml_safe_load := fun path b =>
    (match config_yaml b with
     | Some doc => Ok doc
     | None => Raised (mkExn (LibraryError "FileNotFoundError") path)
     end, b);
  oracledb_connect := fun kwargs b =>
    let '(ident, b') := fresh_ident b in (Ok (Connection ident), b');
  new_OracleEmbeddings := fun conn params b => (Ok tt, b);
  new_OracleVS := heap_new_OracleVS;
  add_texts := heap_add_texts;
  similarity_search := heap_similarity_search;
  vs_delete := heap_delete;
  connection_cursor := fun conn b =>
    let '(ident, b') := fresh_ident b in (Ok (CursorOf conn ident), b');
  cursor_execute := heap_execute;
  cursor_fetchone := heap_fetchone;
  cursor_close := fun cur b => (Ok tt, b);
  connection_commit := fun conn b => (Ok tt, b)
}.

(** A config file with credentials and no wallet, and an empty database. *)
Definition demo_credentials : Dict PyVal :=
  [("ORACLE_DB_USERNAME", VStr "RAG");
   ("ORACLE_DB_PASSWORD", VStr "secret");
   ("ORACLE_DB_DSN", VStr "localhost/FREEPDB1")].

Definition demo_db : HeapDb := mkHeapDb (Some (VDict demo_credentials)) [] [] 1.

(** The same with a wallet, and one whose config names no password. *)
Definition wallet_credentials : Dict PyVal :=
  (demo_credentials ++
   [("ORACLE_DB_WALLET_LOCATION", VStr "/opt/wallet");
    ("ORACLE_DB_WALLET_PASSWORD", VStr "walletpw")])%list.

Definition wallet_db : HeapDb := mkHeapDb (Some (VDict wallet_credentials)) [] [] 1.



(** A [config.yaml] that holds a YAML list instead of a mapping. *)
Definition list_config_db : HeapDb :=
  mkHeapDb (Some (VList [VStr "ORACLE_DB_USERNAME: RAG"])) [] [] 1.

Definition demo_metadata (source : string) : Dict PyVal :=
  [("source", VStr source); ("page_numbers", VList [VInt 1; VInt 2]); ("title", VNone);
   ("score", VFloat 4602678819172646912); ("extra", VDict [("lang", VStr "en")])].

Definition demo_chunk (text source : string) : PyVal :=
  VDict [("text", VStr text); ("metadata", VDict (demo_metadata source))].

(** An instance constructed on the empty database. *)
Definition demo_start := __init__ "embeddings" VNone demo_db.

Definition demo_self : OraDBVectorStore :=
  match outcome demo_start with
  | Ok self => self
  | Raised _ => mkSelf (Connection 0) (ProvidedEmbedding VNone) [] []
  end.

Definition demo_pdf_store : OracleVS :=
  mkOracleVS (connection demo_self) (embeddings demo_self) "PDFCollection" "EUCLIDEAN_DISTANCE".

(** Two PDF chunks added one after the other: ["first"], then ["second"]. *)
Definition two_adds : M HeapDb Event unit :=
  add_pdf_chunks demo_self [demo_chunk "first" "a.pdf"] "a.pdf" ;;;
  add_pdf_chunks demo_self [demo_chunk "second" "b.pdf"] "b.pdf".

Definition demo_loaded : HeapDb := final (two_adds (final demo_start)).

End OraDB.

(** * agent_cli.py *)

Module AgentCli.

(** What [console.print] is given. *)
Inductive Renderable : Type :=
| Markup (text : string)
| Panel (content : string) (title border_style style : option string).

(** [subprocess.CompletedProcess] with captured text output. *)
Record CompletedProcess : Type := mkCompleted {
  returncode : Z;
  stdout : string;
  stderr : string
}.

(** The terminal session the menu runs in.  [answers] are the values the
    coming [Prompt.ask] and [input] calls return, in order (the prompt
    library has applied defaults and choices by then); [files] and
    [directories] are the paths that exist; [run] is what launching a
    command yields. *)
Record World : Type := mkWorld {
  answers : list string;
  files : list string;
  directories : list string;
  cwd : string;
  os_name : string;
  run : list string -> Result CompletedProcess
}.

Inductive Event : Type :=
| EOsSystem (command : string)
| EConsolePrint (what : Renderable)
| EPromptAsk (prompt : string) (choices : option (list string)) (default : option string)
| EInput (prompt : string)
| EProgress (description : string)
| ESubprocessRun (command : list string).

Abbreviation Prog := (M World Event).

Definition nl : string := String (Ascii.ascii_of_nat 10) "".

Definition member (x : string) (xs : list string) : bool := existsb (String.eqb x) xs.

(** [os.path.exists] *)
Definition path_exists (w : World) (path : string) : bool :=
  member path (files w) || member path (directories w).

(** [os.path.isdir] *)
Definition path_isdir (w : World) (path : string) : bool :=
  member path (directories w).

Definition next_answer (w : World) : Result string * World :=
  match answers w with
  | [] => (Raised (mkExn EOFError "EOF when reading a line"), w)
  | a :: rest =>
      (Ok a, mkWorld rest (files w) (directories w) (cwd w) (os_name w) (run w))
  end.

(** [rich.errors.MarkupError] *)
Definition MarkupError (message : string) : Exn :=
  mkExn (LibraryError "MarkupError") message.

(** The console reads every text it is given as markup.  [markup_error]
    is what its reader says of a text: [None] when the text reads as
    markup, or the message of the [MarkupError] it raises (for a closing
    tag that closes nothing). *)
Class Console : Type := {
  markup_error : string -> option string
}.

(** The text of a renderable that is read as markup: a string as it is,
    a panel's content. *)
Definition markup_of (what : Renderable) : string :=
  match what with
  | Markup text => text
  | Panel content _ _ _ => content
  end.

Section Menus.
Context `{Console}.

Definition render (what : Renderable) : Result unit :=
  match markup_error (markup_of what) with
  | None => Ok tt
  | Some message => Raised (MarkupError message)
  end.

(** [console.print(what)]: the call is made, and raises when the text
    does not read as markup. *)
Definition console_print (what : Renderable) : Prog unit :=
  call (EConsolePrint what) (fun w => (render what, w)).

Definition Prompt_ask (prompt : string) (choices : option (list string))
    (default : option string) : Prog string :=
  call (EPromptAsk prompt choices default) next_answer.

Definition input (prompt : string) : Prog string :=
  call (EInput prompt) next_answer.

Definition read (f : World -> bool) : Prog bool := fun w => (Ok (f w), w, []).

Definition clear_screen : Prog unit :=
  fun w =>
    call (EOsSystem (if os_name w =? "nt" then "cls" else "clear"))
         (fun w' => (Ok tt, w')) w.

Definition Textwrap (text justify : string) : string := text.

Definition title : string := "
    ╔════════════════════════════════════════════════════════════════╗
    ║                 AGENTIC RAG SYSTEM CLI                         ║
    ║         Oracle AI Vector Search + Ollama (Gemma 3)             ║
    ╚════════════════════════════════════════════════════════════════╝
    ".

Definition print_header : Prog unit :=
  clear_screen ;;;
  console_print (Panel (Textwrap title "center") None None (Some "bold cyan")) ;;;
  fun w => console_print (Markup ("[dim]Working Directory: " ++ cwd w ++ "[/dim]" ++ nl)) w.

Definition run_command (command : list string) (description : string) : Prog bool :=
  console_print (Markup ("[bold green]Running command:[/bold green] " ++ String.concat " " command)) ;;;
  try_except
    (call (EProgress description) (fun w => (Ok tt, w)) ;;;
     result <- call (ESubprocessRun command) (fun w => (run w command, w)) ;;
     if (returncode result =? 0)%Z then
       console_print (Markup "[bold green]Success![/bold green]") ;;;
       (if negb (stdout result =? "") then
          console_print (Panel (stdout result) (Some "Output") (Some "green") None)
        else ret tt) ;;;
       ret true
     else
       console_print (Markup "[bold red]Error![/bold red]") ;;;
       (if negb (stderr result =? "") then
          console_print (Panel (stderr result) (Some "Error Details") (Some "red") None)
        else ret tt) ;;;
       (if negb (stdout result =? "") then
          console_print (Panel (stdout result) (Some "Standard Output") (Some "dim") None)
        else ret tt) ;;;
       ret false)
    (fun e =>
       console_print (Markup ("[bold red]Exception occurred:[/bold red] " ++ exn_str e)) ;;;
       ret false).

Definition pdf_processor (input output_file : string) : list string :=
  ["python"; "-m"; "src.pdf_processor"; "--input"; input; "--output"; output_file].

(** How an [if]/[elif] arm of a menu ends: by its own [return], or by
    falling through to the statement after the chain. *)
Inductive Flow : Type :=
| Returned
| FellThrough.

(** The [input("\nPress Enter to continue...")] that closes each menu. *)
Definition after_branches (flow : Flow) : Prog unit :=
  match flow with
  | Returned => ret tt
  | FellThrough => input (nl ++ "Press Enter to continue...") ;;; ret tt
  end.

Definition menu_process_pdfs : Prog unit :=
  print_header ;;;
  console_print (Markup "[bold yellow]PDF Processor[/bold yellow]") ;;;
  console_print (Markup "1. Process a single PDF file") ;;;
  console_print (Markup "2. Process all PDFs in a directory") ;;;
  console_print (Markup "3. Process a PDF from URL") ;;;
  console_print (Markup "0. Back to Main Menu") ;;;
  choice <- Prompt_ask "Select option" (Some ["1"; "2"; "3"; "0"]) (Some "0") ;;
  if choice =? "0" then ret tt
  else
    output_file <- Prompt_ask "Output JSON file path" None (Some "chunks.json") ;;
    flow <-
      (if choice =? "1" then
         input_path <- Prompt_ask "Enter path to PDF file" None None ;;
         found <- read (fun w => path_exists w input_path) ;;
         if negb found then
           console_print (Markup ("[red]File not found: " ++ input_path ++ "[/red]")) ;;;
           input "Press Enter to continue..." ;;;
           ret Returned
         else
           run_command (pdf_processor input_path output_file) "Processing PDF..." ;;;
           ret FellThrough
       else if choice =? "2" then
         input_path <- Prompt_ask "Enter directory path" None None ;;
         found <- read (fun w => path_isdir w input_path) ;;
         if negb found then
           console_print (Markup ("[red]Directory not found: " ++ input_path ++ "[/red]")) ;;;
           input "Press Enter to continue..." ;;;
           ret Returned
         else
           run_command (pdf_processor input_path output_file) "Processing Directory..." ;;;
           ret FellThrough
       else if choice =? "3" then
         input_url <- Prompt_ask "Enter PDF URL" None None ;;
         run_command (pdf_processor input_url output_file) "Downloading and Processing PDF..." ;;;
         ret FellThrough
       else ret FellThrough) ;;
    after_branches flow.

Definition web_processor (input output_file : string) : list string :=
  ["python"; "-m"; "src.web_processor"; "--input"; input; "--output"; output_file].

Definition menu_process_websites : Prog unit :=
  print_header ;;;
  console_print (Markup "[bold yellow]Website Processor[/bold yellow]") ;;;
  console_print (Markup "1. Process a single website URL") ;;;
  console_print (Markup "2. Process multiple URLs from a file") ;;;
  console_print (Markup "0. Back to Main Menu") ;;;
  choice <- Prompt_ask "Select option" (Some ["1"; "2"; "0"]) (Some "0") ;;
  if choice =? "0" then ret tt
  else
    output_file <- Prompt_ask "Output JSON file path" None (Some "docs/web_content.json") ;;
    flow <-
      (if choice =? "1" then
         url <- Prompt_ask "Enter website URL" None None ;;
         run_command (web_processor url output_file) "Processing Website..." ;;;
         ret FellThrough
       else if choice =? "2" then
         input_file <- Prompt_ask "Enter URLs file path" None (Some "urls.txt") ;;
         found <- read (fun w => path_exists w input_file) ;;
         if negb found then
           console_print (Markup ("[red]File not found: " ++ input_file ++ "[/red]")) ;;;
           input "Press Enter to continue..." ;;;
           ret Returned
         else
           run_command (web_processor input_file output_file) "Processing URLs from file..." ;;;
           ret FellThrough
       else ret FellThrough) ;;
    after_branches flow.

Definition store_command (flag argument : string) : list string :=
  ["python"; "-m"; "src.store"; flag; argument].

Definition menu_manage_vector_store : Prog unit :=
  print_header ;;;
  console_print (Markup "[bold yellow]Manage Vector Store[/bold yellow]") ;;;
  console_print (Markup "1. Add PDF chunks to vector store") ;;;
  console_print (Markup "2. Add Web chunks to vector store") ;;;
  console_print (Markup "3. Query vector store directly") ;;;
  console_print (Markup "0. Back to Main Menu") ;;;
  choice <- Prompt_ask "Select option" (Some ["1"; "2"; "3"; "0"]) (Some "0") ;;
  if choice =? "0" then ret tt
  else
    flow <-
      (if choice =? "1" then
         input_file <- Prompt_ask "Enter chunks JSON file" None (Some "chunks.json") ;;
         found <- read (fun w => path_exists w input_file) ;;
         if negb found then
           console_print (Markup ("[red]File not found: " ++ input_file ++ "[/red]")) ;;;
           input "Press Enter to continue..." ;;;
           ret Returned
         else
           run_command (store_command "--add" input_file) "Adding PDF chunks..." ;;;
           ret FellThrough
       else if choice =? "2" then
         input_file <- Prompt_ask "Enter web content JSON file" None (Some "docs/web_content.json") ;;
         found <- read (fun w => path_exists w input_file) ;;
         if negb found then
           console_print (Markup ("[red]File not found: " ++ input_file ++ "[/red]")) ;;;
           input "Press Enter to continue..." ;;;
           ret Returned
         else
           run_command (store_command "--add-web" input_file) "Adding Web chunks..." ;;;
           ret FellThrough
       else if choice =? "3" then
         query <- Prompt_ask "Enter search query" None None ;;
         run_command (store_command "--query" query) "Querying Vector Store..." ;;;
         ret FellThrough
       else ret FellThrough) ;;
    after_branches flow.

Definition test_oradb (arguments : list string) : list string :=
  "python" :: "tests/test_oradb.py" :: arguments.

Definition menu_test_oradb : Prog unit :=
  print_header ;;;
  console_print (Markup "[bold yellow]Test Oracle DB Connection[/bold yellow]") ;;;
  console_print (Markup "1. Run basic connection tests") ;;;
  console_print (Markup "2. Show collection statistics only") ;;;
  console_print (Markup "3. Run text similarity search") ;;;
  console_print (Markup "0. Back to Main Menu") ;;;
  choice <- Prompt_ask "Select option" (Some ["1"; "2"; "3"; "0"]) (Some "0") ;;
  if choice =? "0" then ret tt
  else
    flow <-
      (if choice =? "1" then
         run_command (test_oradb []) "Testing Oracle DB..." ;;;
         ret FellThrough
       else if choice =? "2" then
         run_command (test_oradb ["--stats-only"]) "Fetching Stats..." ;;;
         ret FellThrough
       else if choice =? "3" then
         query <- Prompt_ask "Enter test query" None (Some "artificial intelligence") ;;
         run_command (test_oradb ["--query"; query]) "Running Vector Search..." ;;;
         ret FellThrough
       else ret FellThrough) ;;
    after_branches flow.

(** The subprocess launches in a trace. *)
Definition launches (trace : list Event) : list (list string) :=
  flat_map (fun ev => match ev with ESubprocessRun command => [command] | _ => [] end) trace.



(** The menu options that take a path on the local disk. *)
Inductive PathOption : Type :=
| PdfFile
| PdfDirectory
| UrlsFile
| ChunksJson
| WebContentJson.

Definition menu_of (option : PathOption) : Prog unit :=
  match option with
  | PdfFile | PdfDirectory => menu_process_pdfs
  | UrlsFile => menu_process_websites
  | ChunksJson | WebContentJson => menu_manage_vector_store
  end.

(** What the operator answers to reach the option and enter a path. *)
Definition keystrokes (option : PathOption) (output_file path : string) : list string :=
  match option with
  | PdfFile => ["1"; output_file; path]
  | PdfDirectory => ["2"; output_file; path]
  | UrlsFile => ["2"; output_file; path]
  | ChunksJson => ["1"; path]
  | WebContentJson => ["2"; path]
  end.


(** Whether the console accepts a renderable, and whether it accepted
    everything a trace asked it to print. *)
Definition shown (what : Renderable) : bool :=
  match markup_error (markup_of what) with
  | None => true
  | Some _ => false
  end.

Definition printed_ok (trace : list Event) : bool :=
  forallb (fun ev => match ev with EConsolePrint what => shown what | _ => true end) trace.

End Menus.

(** ** A reference console

    The tag rule of [rich.markup]: a tag is a bracket pair whose text
    starts with a lower-case letter, [#], [/] or [@] and holds no [[]; an
    odd number of backslashes before it makes it plain text.  An opening
    tag goes on a stack; [[/name]] takes the nearest open [name] off it
    and [[/]] the top, and either raises when there is none.  Names are
    compared as written, less the blanks around them (rich compares them
    as styles), and positions count bytes. *)

Definition is_tag_start (c : Ascii.ascii) : bool :=
  let n := Ascii.nat_of_ascii c in
  ((97 <=? n)%nat && (n <=? 122)%nat)
  || Ascii.eqb c "#"%char || Ascii.eqb c "/"%char || Ascii.eqb c "@"%char.

(** The text of a tag up to its closing bracket, and what follows it. *)
Fixpoint tag_body (s : string) : option (string * string) :=
  match s with
  | EmptyString => None
  | String c rest =>
      if Ascii.eqb c "]"%char then Some ("", rest)
      else if Ascii.eqb c "["%char then None
      else match tag_body rest with
           | Some (body, after) => Some (String c body, after)
           | None => None
           end
  end.

Fixpoint strip_left (s : string) : string :=
  match s with
  | String " "%char rest => strip_left rest
  | _ => s
  end.

Fixpoint rev_string (s acc : string) : string :=
  match s with
  | EmptyString => acc
  | String c rest => rev_string rest (String c acc)
  end.

(** [str.strip] for blanks. *)
Definition strip (s : string) : string :=
  rev_string (strip_left (rev_string (strip_left s) "")) "".

(** [text.partition("=")[0]] *)
Fixpoint before_equals (s : string) : string :=
  match s with
  | EmptyString => EmptyString
  | String c rest => if Ascii.eqb c "="%char then EmptyString else String c (before_equals rest)
  end.

(** Take the nearest open tag of that name off the stack. *)
Fixpoint pop_style (name : string) (stack : list string) : option (list string) :=
  match stack with
  | [] => None
  | top :: below =>
      if top =? name then Some below
      else option_map (cons top) (pop_style name below)
  end.

Definition decimal (n : nat) : string := NilZero.string_of_uint (Nat.to_uint n).

Fixpoint scan_markup (fuel : nat) (s : string) (position backslashes : nat)
    (stack : list string) : option string :=
  match fuel, s with
  | S fuel', String c rest =>
      if Ascii.eqb c "\"%char then scan_markup fuel' rest (S position) (S backslashes) stack
      else if Ascii.eqb c "["%char then
        match rest with
        | String first _ =>
            match (if is_tag_start first then tag_body rest else None) with
            | Some (body, after) =>
                let next := position + 2 + String.length body in
                let name := before_equals body in
                if Nat.odd backslashes then scan_markup fuel' after next 0 stack
                else
                  match name with
                  | String "/"%char closed =>
                      if strip closed =? "" then
                        match stack with
                        | [] => Some ("closing tag '[/]' at position " ++ decimal position
                                      ++ " has nothing to close")
                        | _ :: below => scan_markup fuel' after next 0 below
                        end
                      else
                        match pop_style (strip closed) stack with
                        | Some remaining => scan_markup fuel' after next 0 remaining
                        | None => Some ("closing tag '[" ++ body ++ "]' at position "
                                        ++ decimal position ++ " doesn't match any open tag")
                        end
                  | _ => scan_markup fuel' after next 0 (strip name :: stack)
                  end
            | None => scan_markup fuel' rest (S position) 0 stack
            end
        | EmptyString => None
        end
      else scan_markup fuel' rest (S position) 0 stack
  | _, _ => None
  end.

Definition rich_markup (text : string) : option string :=
  scan_markup (String.length text) text 0 0 [].

Definition rich_console : Console := {| markup_error := rich_markup |}.

(** A session for examples: nothing exists on disk but [urls.txt], and
    every command succeeds silently. *)
Definition demo_world (typed : list string) : World :=
  mkWorld typed ["urls.txt"] ["docs"] "/home/operator/agentic_rag" "posix"
          (fun _ => Ok (mkCompleted 0 "" "")).

End AgentCli.

(** * More of the code, and the vocabulary to state what it does *)

Section Outcomes.
Context {St E : Type}.

(** A program that ends normally from every state. *)
Definition never_raises {A : Type} (m : M St E A) : Prop :=
  forall s, exists a, outcome (m s) = Ok a.

(** A list comprehension over an element expression with no effect but
    a possible exception: the first exception wins. *)
Fixpoint traverse {A B : Type} (f : A -> Result B) (xs : list A) : Result (list B) :=
  match xs with
  | [] => Ok []
  | x :: rest =>
      match f x with
      | Raised e => Raised e
      | Ok y =>
          match traverse f rest with
          | Raised e => Raised e
          | Ok ys => Ok (y :: ys)
          end
      end
  end.
End Outcomes.

Module OraDBMore.
Import OraDB.

(** [chunk["text"]] *)
Definition chunk_text (chunk : PyVal) : Result PyVal := py_getitem chunk "text".

Section More.
Context {B : Type} `{External B}.

(** [self._sanitize_metadata(chunk["metadata"])] *)
Definition chunk_metadata (chunk : PyVal) : Result (Dict PyVal) :=
  match py_getitem chunk "metadata" with
  | Ok m => _sanitize_metadata m
  | Raised e => Raised e
  end.

(** From state [b], the count statement for [table] goes through: a
    cursor of the instance's connection is opened, executes the
    statement, gives [row] and is closed, each without an error. *)
Definition count_fetched (self : OraDBVectorStore) (table : string) (b : B)
    (row : list PyVal) : Prop :=
  exists cursor b1 b2 b3 b4,
    connection_cursor (connection self) b = (Ok cursor, b1) /\
    cursor_execute cursor (count_sql table) [] b1 = (Ok tt, b2) /\
    cursor_fetchone cursor b2 = (Ok (Some row), b3) /\
    cursor_close cursor b3 = (Ok tt, b4).
End More.

(** A chunk the two comprehensions of [_add_chunks_to_collection] accept:
    a dict with a [text] entry and a [metadata] entry that is a dict. *)
Definition chunk_ok (chunk : PyVal) : bool :=
  match py_getitem chunk "text", py_getitem chunk "metadata" with
  | Ok _, Ok (VDict _) => true
  | _, _ => false
  end.

(** The exceptions a malformed chunk list can cause. *)
Definition is_shape_error (cls : ExnClass) : bool :=
  match cls with
  | KeyError | TypeError | AttributeError => true
  | _ => false
  end.

(** The environment of [demo_db] with the database unreachable. *)
Definition unreachable : Exn :=
  mkExn (LibraryError "OperationalError") "DPY-6005: cannot connect to database".

Definition offline_external : External HeapDb := {|
  py_str := demo_str;
  json_loads := fun _ => Raised (mkExn ValueError "Expecting value");
  path_exists := path_exists (External := heap_external);
  yaml_safe_load := yaml_safe_load (External := heap_external);
  oracledb_connect := fun kwargs b => (Raised unreachable, b);
  new_OracleEmbeddings := fun conn params b => (Ok tt, b);
  new_OracleVS := heap_new_OracleVS;
  add_texts := heap_add_texts;
  similarity_search := heap_similarity_search;
  vs_delete := heap_delete;
  connection_cursor := connection_cursor (External := heap_external);
  cursor_execute := heap_execute;
  cursor_fetchone := heap_fetchone;
  cursor_close := fun cur b => (Ok tt, b);
  connection_commit := fun conn b => (Ok tt, b)
|}.

(** The collection an operation is aimed at. *)
Definition op_target (op : Operation) : option string :=
  match op with
  | OpAdd c _ _ | OpQuery c _ _ => Some (name_of c)
  | OpAddTo _ collection_name
  | OpQueryIn collection_name _ _
  | OpDelete collection_name _ _
  | OpCount collection_name
  | OpLatest collection_name => Some collection_name
  | OpCheckModel _ => None
  end.

(** A call that concerns no table but [table]: a store call goes to the
    store built on it, a statement is one of the three the class writes
    for it. *)
Definition stays_in (table : string) (ev : Event) : Prop :=
  match ev with
  | EPrint _ | ECursor _ | EFetchone _ | ECursorClose _ | ECommit _ => True
  | EAddTexts store _ _ | ESimilaritySearch store _ _ | EDelete store _ =>
      table_name store = table
  | EExecute _ sql _ =>
      sql = truncate_sql table \/ sql = count_sql table \/ sql = latest_sql table
  | _ => False
  end.

(** The methods that are meant to read. *)
Definition reads_only (op : Operation) : bool :=
  match op with
  | OpQuery _ _ _ | OpQueryIn _ _ _ | OpCount _ | OpLatest _ | OpCheckModel _ => true
  | _ => false
  end.

(** A call that changes nothing in the database: output, a search, cursor
    handling, or a [SELECT]. *)
Definition is_read (ev : Event) : bool :=
  match ev with
  | EPrint _ | ESimilaritySearch _ _ _ | ECursor _ | EFetchone _ | ECursorClose _ => true
  | EExecute _ sql _ => String.prefix "SELECT" sql
  | _ => false
  end.

(** The one call that builds a database-side embedder (line 60). *)
Definition builds_embeddings (ev : Event) : bool :=
  match ev with
  | ENewOracleEmbeddings _ _ => true
  | _ => false
  end.

(** A caller that brings its own embedder. *)
Definition custom_embedder : PyVal := VObject "HuggingFaceEmbeddings" 7.

Definition custom_start := __init__ "embeddings" custom_embedder demo_db.

Definition custom_self : OraDBVectorStore :=
  match outcome custom_start with
  | Ok self => self
  | Raised _ => mkSelf (Connection 0) (ProvidedEmbedding VNone) [] []
  end.

(** An empty database next to no config file at all. *)
Definition no_config_db : HeapDb := mkHeapDb None [] [] 1.

(** A chunk list whose second chunk has no metadata. *)
Definition half_good_chunks : list PyVal :=
  [demo_chunk "third" "c.pdf"; VDict [("text", VStr "no metadata here")]].

End OraDBMore.

(** ** The command line of OraDBVectorStore.py *)

Module OraDBMain.
Import OraDB.

(** What [parser.parse_args()] returns: each option is [None] or a string. *)
Record Args : Type := mkArgs {
  args_add : option string;
  args_add_web : option string;
  args_query : option string
}.

(** [if args.x:] *)
Definition given (value : option string) : bool :=
  match value with
  | Some text => negb (text =? "")
  | None => false
  end.

(** [main] makes one call the class does not: it loads a JSON file. *)
Inductive MainCall : Type :=
| InStore (ev : Event)
| EJsonLoad (path : string).

(** What [main] needs besides the environment of the class: [open] with
    [json.load], and the builtins [len] and [v[:n]]. *)
Class Runtime (B : Type) : Type := {
  json_load : string -> B -> Result PyVal * B;
  py_len : PyVal -> Result Z;
  py_slice : PyVal -> nat -> Result PyVal
}.

(** [for chunk in chunks]: what iterating over a loaded JSON value gives.
    A dict yields its keys and a string its characters (here its bytes;
    either way every item is a string); numbers, booleans and [None] are
    not iterable. *)
Definition py_iter (v : PyVal) : Result (list PyVal) :=
  match v with
  | VList items => Ok items
  | VDict items => Ok (map (fun item => VStr (fst item)) items)
  | VStr s => Ok (map (fun c => VStr (String c "")) (list_ascii_of_string s))
  | _ => Raised (mkExn TypeError "object is not iterable")
  end.

(** ["-" * 50] *)
Definition dashes : string :=
  Eval compute in String.concat "" (repeat "-" 50).

Section Script.
Context {B : Type} `{External B} `{Runtime B}.

Definition through {A : Type} (m : M B Event A) : M B MainCall A :=
  fun b => let '(r, b', t) := m b in (r, b', map InStore t).

(** [_add_chunks_to_collection] on whatever [json.load] returned: the
    same statements, with [chunks] not known to be a list. *)
Definition add_loaded (self : OraDBVectorStore) (chunks : PyVal) (collection_name : string)
  : M B Event unit :=
  if negb (truthy chunks) then ret tt
  else
    match dict_get collection_name (vector_stores self) with
    | None => raise (collection_not_found collection_name)
    | Some _ =>
        match py_iter chunks with
        | Raised e => raise e
        | Ok items => _add_chunks_to_collection self items collection_name
        end
    end.

(** Lines 284-287 and 290-293. *)
Definition add_file (self : OraDBVectorStore) (path collection_name kind : string)
  : M B MainCall unit :=
  chunks <- call (EJsonLoad path) (json_load path) ;;
  through (add_loaded self chunks collection_name) ;;;
  count <- lift (py_len chunks) ;;
  through (print ("✓ Added " ++ py_str (VInt count) ++ " " ++ kind
                  ++ " chunks to Oracle DB vector store")).

(** The body of the two [for result in ...] loops. *)
Definition show_result (label key : string) (default : PyVal) (result : Dict PyVal)
  : M B Event unit :=
  content <- lift (py_getitem (VDict result) "content") ;;
  shown <- lift (py_slice content 200) ;;
  print ("Content: " ++ py_str shown ++ "...") ;;;
  m <- lift (py_getitem (VDict result) "metadata") ;;
  source <- lift (py_get m "source" (VStr "Unknown")) ;;
  print ("Source: " ++ py_str source) ;;;
  m <- lift (py_getitem (VDict result) "metadata") ;;
  value <- lift (py_get m key default) ;;
  print (label ++ py_str value) ;;;
  print dashes.

Definition newline : string := String (Ascii.ascii_of_nat 10) "".

(** Lines 295-314. *)
Definition run_query (self : OraDBVectorStore) (query : string) : M B Event unit :=
  pdf_results <- query_pdf_collection self query n_results_default ;;
  web_results <- query_web_collection self query n_results_default ;;
  print (newline ++ "PDF Results:") ;;;
  print dashes ;;;
  mapM (show_result "Pages: " "page_numbers" (VList [])) pdf_results ;;;
  print (newline ++ "Web Results:") ;;;
  print dashes ;;;
  mapM (show_result "Title: " "title" (VStr "Unknown")) web_results ;;;
  ret tt.

Definition when {E : Type} (value : option string) (action : string -> M B E unit)
  : M B E unit :=
  match value with
  | Some text => if negb (text =? "") then action text else ret tt
  | None => ret tt
  end.

(** [main], once the arguments are parsed. *)
Definition main (args : Args) : M B MainCall unit :=
  try_except
    (store <- through (__init__ "embeddings" VNone) ;;
     when (args_add args) (fun path => add_file store path "pdf_documents" "PDF") ;;;
     when (args_add_web args) (fun path => add_file store path "web_documents" "web") ;;;
     when (args_query args) (fun query => through (run_query store query)))
    (fun e => through (print ("Error: " ++ exn_str e))).
End Script.

(** The calls of the class in a trace of [main]. *)
Definition store_calls (trace : list MainCall) : list Event :=
  flat_map (fun ev => match ev with InStore ev' => [ev'] | EJsonLoad _ => [] end) trace.

(** The files loaded in a trace of [main]. *)
Definition loads (trace : list MainCall) : list string :=
  flat_map (fun ev => match ev with EJsonLoad path => [path] | InStore _ => [] end) trace.

(** A call a run with nothing but [--query] may make: building the
    instance, output, and searches for that query with three results. *)
Definition query_run_call (query : string) (ev : MainCall) : Prop :=
  match ev with
  | EJsonLoad _ => False
  | InStore (EAddTexts _ _ _) | InStore (EDelete _ _)
  | InStore (EExecute _ _ _) | InStore (ECommit _) => False
  | InStore (ESimilaritySearch _ asked k) => asked = query /\ k = 3%Z
  | InStore _ => True
  end.

(** A reference runtime: two files on disk, [chunks.json] with one
    well-formed chunk and [null.json] holding [null]. *)
Definition demo_runtime : Runtime HeapDb := {|
  json_load := fun path b =>
    (if path =? "chunks.json" then Ok (VList [demo_chunk "first" "a.pdf"])
     else if path =? "null.json" then Ok VNone
     else Raised (mkExn (LibraryError "FileNotFoundError") path), b);
  py_len := fun v =>
    match v with
    | VList items => Ok (Z.of_nat (length items))
    | VDict items => Ok (Z.of_nat (length items))
    | VStr s => Ok (Z.of_nat (String.length s))
    | _ => Raised (mkExn TypeError "object has no len()")
    end;
  py_slice := fun v n =>
    match v with
    | VStr s => Ok (VStr (substring 0 n s))
    | VList items => Ok (VList (firstn n items))
    | _ => Raised (mkExn TypeError "object is not subscriptable")
    end
|}.

End OraDBMain.

Module AgentCliMore.
Import AgentCli.

Section MoreMenus.
Context `{Console}.

(** The four menus that ask once and come back. *)
Inductive Menu : Type :=
| ProcessPdfs
| ProcessWebsites
| ManageVectorStore
| TestOradb.

Definition submenu (menu : Menu) : Prog unit :=
  match menu with
  | ProcessPdfs => menu_process_pdfs
  | ProcessWebsites => menu_process_websites
  | ManageVectorStore => menu_manage_vector_store
  | TestOradb => menu_test_oradb
  end.

(** The command a path option builds from what the operator entered. *)
Definition command_for (option : PathOption) (output_file path : string) : list string :=
  match option with
  | PdfFile | PdfDirectory => pdf_processor path output_file
  | UrlsFile => web_processor path output_file
  | ChunksJson => store_command "--add" path
  | WebContentJson => store_command "--add-web" path
  end.

(** The check the option makes on the path: [os.path.isdir] for the
    directory option, [os.path.exists] for the others. *)
Definition path_accepted (w : World) (option : PathOption) (path : string) : bool :=
  match option with
  | PdfDirectory => path_isdir w path
  | _ => path_exists w path
  end.

(** The interpreter on a module of the project or on its test script. *)
Definition is_project_command (command : list string) : bool :=
  match command with
  | "python" :: "-m" :: module :: _ =>
      member module ["src.pdf_processor"; "src.web_processor"; "src.store";
                     "src.local_rag_agent"]
  | "python" :: "tests/test_oradb.py" :: _ => true
  | _ => false
  end.

(** What the menus may start: the screen clear and project commands. *)
Definition is_expected_process (ev : Event) : bool :=
  match ev with
  | EOsSystem command => (command =? "cls") || (command =? "clear")
  | ESubprocessRun command => is_project_command command
  | _ => true
  end.

(** Line 43: what [run_command] prints before it tries anything. *)
Definition running_line (command : list string) : Renderable :=
  Markup ("[bold green]Running command:[/bold green] " ++ String.concat " " command).

(** The prompts and [input] calls in a trace. *)
Definition questions (trace : list Event) : list Event :=
  filter (fun ev => match ev with
                    | EPromptAsk _ _ _ | EInput _ => true
                    | _ => false
                    end) trace.

(** A program that launches at most [n] subprocesses, whatever happens. *)
Definition launches_at_most (n : nat) {A : Type} (m : Prog A) : Prop :=
  forall w, length (launches (calls (m w))) <= n.

(** ** The agent chat loop *)

(** [str.lower] on the ASCII letters.  The loop compares the result with
    ['exit'], ['quit'] and ['0'] only, and no string with a character
    outside ASCII lowers to one of these, so the bytes above 127 can stay
    as they are. *)
Definition lower_ascii (c : Ascii.ascii) : Ascii.ascii :=
  let n := Ascii.nat_of_ascii c in
  if (65 <=? n)%nat && (n <=? 90)%nat then Ascii.ascii_of_nat (n + 32) else c.

Fixpoint lower (s : string) : string :=
  match s with
  | EmptyString => EmptyString
  | String c rest => String (lower_ascii c) (lower rest)
  end.

(** [Confirm.ask(prompt, default=False)]: the yes/no form of the prompt,
    answered ["y"] for [True]. *)
Definition Confirm_ask (prompt : string) : Prog bool :=
  answer <- call (EPromptAsk prompt (Some ["y"; "n"]) (Some "n")) next_answer ;;
  ret (answer =? "y").

Definition rag_agent_command (query : string) (use_cot : bool) : list string :=
  (["python"; "-m"; "src.local_rag_agent"; "--query"; query]
   ++ (if use_cot then ["--use-cot"] else []))%list.

(** How a pass through a [while True] body ends. *)
Inductive Turn : Type :=
| Break
| Again.

(** One pass through the body of the loop in [menu_rag_agent]. *)
Definition rag_agent_turn : Prog Turn :=
  print_header ;;;
  console_print (Markup "[bold yellow]RAG Agent Chat (Gemma 3)[/bold yellow]") ;;;
  console_print (Markup "Enter your query to chat with the agent.") ;;;
  console_print (Markup "Type 'exit' or '0' to return to main menu.") ;;;
  query <- Prompt_ask (nl ++ "[bold green]Query[/bold green]") None None ;;
  if member (lower query) ["exit"; "quit"; "0"] then ret Break
  else
    use_cot <- Confirm_ask "Use Chain of Thought reasoning?" ;;
    run_command (rag_agent_command query use_cot) "Generating Answer..." ;;;
    input (nl ++ "Press Enter to continue...") ;;;
    ret Again.

(** How a bounded run of a loop ends: the loop was left, or the bound on
    the number of passes was reached first. *)
Inductive LoopEnd : Type :=
| Left
| OutOfFuel.

(** [menu_rag_agent], for at most [fuel] passes. *)
Fixpoint menu_rag_agent (fuel : nat) : Prog LoopEnd :=
  match fuel with
  | O => ret OutOfFuel
  | S fuel' =>
      turn <- rag_agent_turn ;;
      match turn with
      | Break => ret Left
      | Again => menu_rag_agent fuel'
      end
  end.


(** ** The main menu *)

(** The main menu prints one thing the other menus do not: a table. *)
Inductive MainEvent : Type :=
| InMenu (ev : Event)
| EPrintTable (rows : list (string * string * string)).

(** A program of the menus, run from the main menu. *)
Definition within {A : Type} (m : Prog A) : M World MainEvent A :=
  fun w => let '(r, w', t) := m w in (r, w', map InMenu t).

(** The rows added to the table: label, text, style. *)
Definition task_table : list (string * string * string) :=
  [("[1]", "Process PDFs", "cyan");
   ("[2]", "Process Websites", "cyan");
   ("[3]", "Manage Vector Store", "cyan");
   ("[4]", "Test Oracle DB", "cyan");
   ("[5]", "Chat with Agent (RAG)", "magenta");
   ("[0]", "Exit", "red")].

(** [sys.exit(0)] *)
Definition SystemExit (code : string) : Exn := mkExn (LibraryError "SystemExit") code.

(** [main_menu], for at most [fuel] passes; the chat loop entered from it
    gets the passes that are left. *)
Fixpoint main_menu (fuel : nat) : M World MainEvent LoopEnd :=
  match fuel with
  | O => ret OutOfFuel
  | S fuel' =>
      within print_header ;;;
      within (console_print (Markup "[bold]Select a Task:[/bold]")) ;;;
      call (EPrintTable task_table) (fun w => (Ok tt, w)) ;;;
      choice <- within (Prompt_ask (nl ++ "Enter choice")
                                   (Some ["1"; "2"; "3"; "4"; "5"; "0"]) (Some "5")) ;;
      visit <-
        (if choice =? "1" then within menu_process_pdfs ;;; ret Left
         else if choice =? "2" then within menu_process_websites ;;; ret Left
         else if choice =? "3" then within menu_manage_vector_store ;;; ret Left
         else if choice =? "4" then within menu_test_oradb ;;; ret Left
         else if choice =? "5" then within (menu_rag_agent fuel')
         else if choice =? "0" then
           within (console_print (Markup "[bold]Goodbye![/bold]")) ;;;
           raise (SystemExit "0")
         else ret Left) ;;
      match visit with
      | Left => main_menu fuel'
      | OutOfFuel => ret OutOfFuel
      end
  end.

(** The subprocess launches in a trace of the main menu. *)
Definition main_launches (trace : list MainEvent) : list (list string) :=
  flat_map (fun ev => match ev with
                      | InMenu (ESubprocessRun command) => [command]
                      | _ => []
                      end) trace.

(** The calls of the menus in a trace of the main menu. *)
Definition menu_calls (trace : list MainEvent) : list Event :=
  flat_map (fun ev => match ev with InMenu ev' => [ev'] | EPrintTable _ => [] end) trace.

End MoreMenus.

End AgentCliMore.

(** * Facts about programs and dictionaries *)

Section ProgramFacts.
Context {St E : Type}.

Lemma bind_ok {A B : Type} (m : M St E A) (f : A -> M St E B) s a s1 t1 :
  m s = (Ok a, s1, t1) ->
  bind m f s = (outcome (f a s1), final (f a s1), (t1 ++ calls (f a s1))%list).
Proof.
  intros Hm. unfold bind. rewrite Hm.
  destruct (f a s1) as [[r s2] t2]. reflexivity.
Qed.

Lemma bind_raised {A B : Type} (m : M St E A) (f : A -> M St E B) s e s1 t1 :
  m s = (Raised e, s1, t1) -> bind m f s = (Raised e, s1, t1).
Proof. intros Hm. unfold bind. rewrite Hm. reflexivity. Qed.

(** The calls of a sequence start with the calls of its first part. *)
Lemma calls_bind {A B : Type} (m : M St E A) (f : A -> M St E B) s :
  calls (bind m f s) =
  (calls (m s) ++
   match outcome (m s) with
   | Ok a => calls (f a (final (m s)))
   | Raised _ => []
   end)%list.
Proof.
  unfold bind, calls, outcome, final.
  destruct (m s) as [[[a | e] s1] t1]; simpl.
  - destruct (f a s1) as [[r s2] t2]. reflexivity.
  - now rewrite app_nil_r.
Qed.

Lemma calls_try_except {A : Type} (m : M St E A) (h : Exn -> M St E A) s :
  calls (try_except m h s) =
  (calls (m s) ++
   match outcome (m s) with
   | Ok _ => []
   | Raised e => calls (h e (final (m s)))
   end)%list.
Proof.
  unfold try_except, calls, outcome, final.
  destruct (m s) as [[[a | e] s1] t1]; simpl.
  - now rewrite app_nil_r.
  - destruct (h e s1) as [[r s2] t2]. reflexivity.
Qed.

Lemma bind_ret {A B : Type} (a : A) (f : A -> M St E B) s :
  bind (ret a) f s = f a s.
Proof. unfold bind, ret. destruct (f a s) as [[r s2] t2]. reflexivity. Qed.

Lemma bind_lift_ok {A B : Type} (a : A) (f : A -> M St E B) s :
  bind (lift (Ok a)) f s = f a s.
Proof. apply bind_ret. Qed.

Lemma emits_ret (P : E -> Prop) {A : Type} (a : A) : emits (St := St) P (ret a).
Proof. intros s. constructor. Qed.

Lemma emits_raise (P : E -> Prop) {A : Type} (e : Exn) : emits P (@raise St E A e).
Proof. intros s. constructor. Qed.

Lemma emits_lift (P : E -> Prop) {A : Type} (r : Result A) : emits (St := St) P (lift r).
Proof. destruct r; [apply emits_ret | apply emits_raise]. Qed.

Lemma emits_call (P : E -> Prop) {A : Type} (ev : E) (answer : St -> Result A * St) :
  P ev -> emits P (call ev answer).
Proof.
  intros Hev s. unfold call, calls. destruct (answer s). simpl. now constructor.
Qed.

Lemma emits_bind (P : E -> Prop) {A B : Type} (m : M St E A) (f : A -> M St E B) :
  emits P m -> (forall a, emits P (f a)) -> emits P (bind m f).
Proof.
  intros Hm Hf s. rewrite calls_bind. apply Forall_app. split; [apply Hm |].
  destruct (outcome (m s)); [apply Hf | constructor].
Qed.

Lemma emits_try_except (P : E -> Prop) {A : Type} (m : M St E A) (h : Exn -> M St E A) :
  emits P m -> (forall e, emits P (h e)) -> emits P (try_except m h).
Proof.
  intros Hm Hh s. rewrite calls_try_except. apply Forall_app. split; [apply Hm |].
  destruct (outcome (m s)); [constructor | apply Hh].
Qed.

Lemma emits_mapM (P : E -> Prop) {A B : Type} (f : A -> M St E B) (xs : list A) :
  (forall x, emits P (f x)) -> emits P (mapM f xs).
Proof.
  intros Hf. induction xs as [| x rest IH]; simpl.
  - apply emits_ret.
  - apply emits_bind; [apply Hf |]. intros y.
    apply emits_bind; [apply IH |]. intros ys. apply emits_ret.
Qed.

Lemma silent_lift {A : Type} (r : Result A) : silent (@lift St E A r).
Proof. intros s. exists r. destruct r; reflexivity. Qed.

Lemma silent_bind {A B : Type} (m : M St E A) (f : A -> M St E B) :
  silent m -> (forall a, silent (f a)) -> silent (bind m f).
Proof.
  intros Hm Hf s. destruct (Hm s) as [[a | e] Hr].
  - destruct (Hf a s) as [r' Hr']. exists r'.
    rewrite (bind_ok _ _ _ _ _ _ Hr), Hr'. reflexivity.
  - exists (Raised e). now apply bind_raised.
Qed.

(** A comprehension over silent element programs is silent, and when it
    succeeds each element program succeeded with the matching item. *)
Lemma mapM_silent {A B : Type} (f : A -> M St E B) (xs : list A) :
  (forall x, silent (f x)) ->
  forall s, exists r,
    mapM f xs s = (r, s, []) /\
    forall ys, r = Ok ys -> Forall2 (fun x y => f x s = (Ok y, s, [])) xs ys.
Proof.
  intros Hf s. induction xs as [| x rest IH]; simpl.
  - exists (Ok []). split; [reflexivity |]. intros ys Hys.
    injection Hys as <-. constructor.
  - destruct (Hf x s) as [[y | e] Hx].
    + destruct IH as [[ys | e] [Hrest Hall]].
      * exists (Ok (y :: ys)). split.
        -- rewrite (bind_ok _ _ _ _ _ _ Hx). simpl.
           rewrite (bind_ok _ _ _ _ _ _ Hrest). reflexivity.
        -- intros zs Hzs. injection Hzs as <-. constructor; auto.
      * exists (Raised e). split.
        -- rewrite (bind_ok _ _ _ _ _ _ Hx). simpl.
           rewrite (bind_raised _ _ _ _ _ _ Hrest). reflexivity.
        -- discriminate.
    + exists (Raised e). split; [now apply bind_raised | discriminate].
Qed.

Lemma bind_inv_ok {A B : Type} (m : M St E A) (f : A -> M St E B) s x s' t :
  bind m f s = (Ok x, s', t) ->
  exists a s1 t1 t2,
    m s = (Ok a, s1, t1) /\ f a s1 = (Ok x, s', t2) /\ t = (t1 ++ t2)%list.
Proof.
  unfold bind. destruct (m s) as [[[a | e] s1] t1]; [| discriminate].
  destruct (f a s1) as [[r s2] t2] eqn:Hf. intros Heq. injection Heq as -> -> <-.
  now exists a, s1, t1, t2.
Qed.


Lemma flat_map_none {X : Type} (f : E -> list X) (t : list E) :
  Forall (fun ev => f ev = []) t -> flat_map f t = [].
Proof.
  induction 1 as [| ev rest Hev _ IH]; [reflexivity |].
  simpl. now rewrite Hev, IH.
Qed.
End ProgramFacts.

Ltac emits_step :=
  first
    [ apply emits_ret
    | apply emits_raise
    | apply emits_lift
    | apply emits_call; first [reflexivity | solve [auto]]
    | apply emits_bind; [| intros ?]
    | apply emits_try_except; [| intros ?]
    | apply emits_mapM; intros ?
    | match goal with
      | |- emits _ (match ?x with _ => _ end) => destruct x
      | |- emits _ (if ?c then _ else _) => destruct c
      end ].

Section DictFacts.
Context {V : Type}.

Lemma dict_get_in (key : string) (value : V) (d : Dict V) :
  NoDup (dict_keys d) -> In (key, value) d -> dict_get key d = Some value.
Proof.
  induction d as [| [k v] rest IH]; simpl; intros Hnd Hin; [tauto |].
  inversion Hnd as [| ? ? Hfresh Hrest]; subst.
  destruct Hin as [Heq | Hin].
  - injection Heq as -> ->. now rewrite String.eqb_refl.
  - destruct (String.eqb_spec k key) as [-> | Hne]; [| now apply IH].
    exfalso. apply Hfresh. change key with (fst (key, value)).
    now apply in_map.
Qed.

(** Setting a key that is not there appends it. *)
Lemma dict_set_fresh (key : string) (value : V) (d : Dict V) :
  ~ In key (dict_keys d) -> dict_set key value d = (d ++ [(key, value)])%list.
Proof.
  induction d as [| [k v] rest IH]; simpl; intros Hnot; [reflexivity |].
  destruct (String.eqb_spec k key) as [-> | Hne]; [tauto |].
  f_equal. apply IH. tauto.
Qed.
End DictFacts.

Section OutcomeFacts.
Context {St E : Type}.

Lemma never_raises_ret {A : Type} (a : A) : never_raises (St := St) (E := E) (ret a).
Proof. intros s. now exists a. Qed.

Lemma never_raises_try_except {A : Type} (m : M St E A) (h : Exn -> M St E A) :
  (forall e, never_raises (h e)) -> never_raises (try_except m h).
Proof.
  intros Hh s. unfold try_except, outcome.
  destruct (m s) as [[[a | e] s1] t1]; simpl; [now exists a |].
  destruct (Hh e s1) as [a Ha]. unfold outcome in Ha.
  destruct (h e s1) as [[r s2] t2]. simpl in *. now exists a.
Qed.

Lemma never_raises_bind {A B : Type} (m : M St E A) (f : A -> M St E B) :
  never_raises m -> (forall a, never_raises (f a)) -> never_raises (bind m f).
Proof.
  intros Hm Hf s. destruct (Hm s) as [a Ha]. unfold bind, outcome in *.
  destruct (m s) as [[r s1] t1]. simpl in Ha. subst r.
  destruct (Hf a s1) as [c Hc]. unfold outcome in Hc.
  destruct (f a s1) as [[r s2] t2]. simpl in *. now exists c.
Qed.

(** A comprehension over pure element expressions runs as [traverse]. *)
Lemma mapM_traverse {A B : Type} (f : A -> M St E B) (g : A -> Result B) (xs : list A) s :
  (forall x, f x s = (g x, s, [])) ->
  mapM f xs s = (traverse g xs, s, []).
Proof.
  intros Hf. induction xs as [| x rest IH]; [reflexivity |].
  simpl. unfold bind at 1. rewrite Hf.
  destruct (g x) as [y | e]; [| reflexivity].
  unfold bind. rewrite IH. destruct (traverse g rest); reflexivity.
Qed.

Lemma traverse_ok {A B : Type} (g : A -> Result B) (xs : list A) (ys : list B) :
  traverse g xs = Ok ys -> Forall2 (fun x y => g x = Ok y) xs ys.
Proof.
  revert ys. induction xs as [| x rest IH]; simpl; intros ys Hrun.
  - injection Hrun as <-. constructor.
  - destruct (g x) as [y | e] eqn:Hx; [| discriminate].
    destruct (traverse g rest) as [zs | e]; [| discriminate].
    injection Hrun as <-. constructor; auto.
Qed.

Lemma traverse_raised {A B : Type} (g : A -> Result B) (xs : list A) (e : Exn) :
  traverse g xs = Raised e -> exists x, In x xs /\ g x = Raised e.
Proof.
  induction xs as [| x rest IH]; simpl; [discriminate |].
  destruct (g x) as [y | e'] eqn:Hx.
  - destruct (traverse g rest) as [zs | e'']; [discriminate |].
    intros Heq. injection Heq as ->. destruct (IH eq_refl) as (x' & Hin & Hx').
    exists x'. auto.
  - intros Heq. injection Heq as ->. exists x. auto.
Qed.
End OutcomeFacts.

(** * The vector-store adapter: properties *)

Module OraDBSpec.
Import OraDB OraDBMore.

Ltac emits_auto := unfold print; repeat emits_step.

Section Sanitizing.
Context {B : Type} `{External B}.

(** On distinct keys the loop of [_sanitize_metadata] never overwrites:
    it rebuilds the items one by one, in order. *)
Lemma sanitize_loop (items acc : Dict PyVal) :
  NoDup (dict_keys (acc ++ items)%list) ->
  fold_left (fun sanitized '(key, value) => dict_set key (sanitize_value value) sanitized)
            items acc
  = (acc ++ map sanitize_item items)%list.
Proof.
  revert acc. induction items as [| [k v] rest IH]; simpl; intros acc Hnd.
  - now rewrite app_nil_r.
  - assert (Hfresh : ~ In k (dict_keys acc)).
    { unfold dict_keys in *. rewrite map_app in Hnd. simpl in Hnd.
      apply NoDup_remove_2 in Hnd. intros Hin. apply Hnd.
      apply in_or_app. now left. }
    rewrite dict_set_fresh by exact Hfresh.
    rewrite IH.
    + rewrite <- app_assoc. reflexivity.
    + rewrite <- app_assoc. unfold dict_keys in *.
      rewrite !map_app in *. exact Hnd.
Qed.

Lemma sanitize_metadata_map (items : Dict PyVal) :
  NoDup (dict_keys items) ->
  _sanitize_metadata (VDict items) = Ok (map sanitize_item items).
Proof.
  intros Hnd. unfold _sanitize_metadata. f_equal.
  now rewrite (sanitize_loop items []).
Qed.

Lemma sanitize_keys (items : Dict PyVal) :
  dict_keys (map sanitize_item items) = dict_keys items.
Proof.
  unfold dict_keys. rewrite map_map. apply map_ext. now intros [k v].
Qed.

(** The element program of the [metadatas] comprehension. *)
Lemma chunk_metadata_silent (chunk : PyVal) :
  silent (St := B) (E := Event)
         (m <- lift (py_getitem chunk "metadata") ;; lift (_sanitize_metadata m)).
Proof. apply silent_bind; intros; apply silent_lift. Qed.

Lemma chunk_metadata_ok (chunk : PyVal) (stored : Dict PyVal) (b : B) :
  (m <- lift (py_getitem chunk "metadata") ;; lift (_sanitize_metadata m)) b
    = (Ok stored, b, @nil Event) ->
  exists raw, py_getitem chunk "metadata" = Ok raw /\ _sanitize_metadata raw = Ok stored.
Proof.
  unfold bind, lift, ret, raise.
  destruct (py_getitem chunk "metadata") as [raw | e]; [| discriminate].
  destruct (_sanitize_metadata raw) as [m | e] eqn:Hsan; intros Heq; [| discriminate].
  exists raw. split; [reflexivity |]. rewrite Hsan. congruence.
Qed.

Lemma traverse_all_ok {A C : Type} (g : A -> Result C) (xs : list A) :
  Forall (fun x => exists y, g x = Ok y) xs -> exists ys, traverse g xs = Ok ys.
Proof.
  induction 1 as [| x rest [y Hx] _ [ys IH]]; simpl; [now exists [] |].
  rewrite Hx, IH. now exists (y :: ys).
Qed.

(** How [_add_chunks_to_collection] runs on a registered collection. *)
Lemma add_chunks_run (self : OraDBVectorStore) (chunk : PyVal) (more : list PyVal)
    (collection_name : string) (store : OracleVS) (b : B) :
  dict_get collection_name (vector_stores self) = Some store ->
  _add_chunks_to_collection self (chunk :: more) collection_name b =
  match traverse chunk_text (chunk :: more) with
  | Raised e => (Raised e, b, [])
  | Ok texts =>
      match traverse chunk_metadata (chunk :: more) with
      | Raised e => (Raised e, b, [])
      | Ok metadatas =>
          let announce :=
            EPrint ("🔄 [OraDB] Inserting " ++ len (chunk :: more) ++ " chunks into "
                    ++ collection_name ++ "...") in
          match add_texts store texts metadatas b with
          | (Ok _, b') =>
              (Ok tt, b',
               [announce; EAddTexts store texts metadatas;
                EPrint ("✅ [OraDB] Successfully inserted " ++ len (chunk :: more) ++ " chunks.")])
          | (Raised e, b') => (Raised e, b', [announce; EAddTexts store texts metadatas])
          end
      end
  end.
Proof.
  intros Hstore. unfold _add_chunks_to_collection. rewrite Hstore.
  set (chunks := chunk :: more).
  unfold bind at 1.
  rewrite (mapM_traverse _ chunk_text chunks b)
    by (intros x; unfold chunk_text; now destruct (py_getitem x "text")).
  destruct (traverse chunk_text chunks) as [texts | e]; [| reflexivity].
  unfold bind at 1.
  rewrite (mapM_traverse _ chunk_metadata chunks b).
  2: { intros x. unfold chunk_metadata, bind, lift, ret, raise.
       destruct (py_getitem x "metadata") as [m | e]; [| reflexivity].
       now destruct (_sanitize_metadata m). }
  destruct (traverse chunk_metadata chunks) as [metadatas | e]; [| reflexivity].
  unfold bind, call, print. simpl.
  destruct (add_texts store texts metadatas b) as [[[] | e] b']; reflexivity.
Qed.

Lemma chunk_ok_runs (chunk : PyVal) :
  chunk_ok chunk = true ->
  exists text m, chunk_text chunk = Ok text /\ chunk_metadata chunk = Ok m.
Proof.
  unfold chunk_ok, chunk_text, chunk_metadata.
  destruct (py_getitem chunk "text") as [text | e]; [| discriminate].
  destruct (py_getitem chunk "metadata") as [[] | e]; try discriminate.
  intros _. eexists. eexists. split; reflexivity.
Qed.

(** Well-formed chunks of a registered collection: the texts and the
    sanitized metadata of all of them go to the store in one call. *)
Lemma well_formed_chunks_run (self : OraDBVectorStore) (chunk : PyVal) (more : list PyVal)
    (collection_name : string) (store : OracleVS) (b : B) :
  dict_get collection_name (vector_stores self) = Some store ->
  forallb chunk_ok (chunk :: more) = true ->
  exists texts metadatas,
    Forall2 (fun c text => py_getitem c "text" = Ok text) (chunk :: more) texts /\
    Forall2 (fun c m => exists raw, py_getitem c "metadata" = Ok (VDict raw) /\
                                    _sanitize_metadata (VDict raw) = Ok m)
            (chunk :: more) metadatas /\
    database_calls (calls (_add_chunks_to_collection self (chunk :: more) collection_name b))
      = [EAddTexts store texts metadatas] /\
    outcome (_add_chunks_to_collection self (chunk :: more) collection_name b)
      = fst (add_texts store texts metadatas b) /\
    final (_add_chunks_to_collection self (chunk :: more) collection_name b)
      = snd (add_texts store texts metadatas b).
Proof.
  intros Hstore Hok.
  assert (Hall : Forall (fun c => chunk_ok c = true) (chunk :: more))
    by (apply Forall_forall; apply forallb_forall; exact Hok).
  destruct (traverse_all_ok chunk_text (chunk :: more)) as [texts Htexts].
  { eapply Forall_impl; [| exact Hall]. intros c Hc.
    destruct (chunk_ok_runs c Hc) as (text & _ & Ht & _). now exists text. }
  destruct (traverse_all_ok chunk_metadata (chunk :: more)) as [metadatas Hmetas].
  { eapply Forall_impl; [| exact Hall]. intros c Hc.
    destruct (chunk_ok_runs c Hc) as (_ & m & _ & Hm). now exists m. }
  exists texts, metadatas.
  rewrite (add_chunks_run _ _ _ _ _ _ Hstore), Htexts, Hmetas.
  split; [exact (traverse_ok _ _ _ Htexts) |].
  split.
  - apply traverse_ok in Hmetas.
    clear -Hmetas Hall. induction Hmetas as [| c m rest ms Hc _ IH]; constructor.
    + inversion Hall as [| ? ? Hcok _]; subst.
      unfold chunk_ok in Hcok. unfold chunk_metadata in Hc.
      destruct (py_getitem c "text"); [| discriminate].
      destruct (py_getitem c "metadata") as [[] | e]; try discriminate.
      now exists items.
    + apply IH. now inversion Hall.
  - cbv zeta.
    destruct (add_texts store texts metadatas b) as [[[] | e] b']; repeat split.
Qed.

(** C1. [_sanitize_metadata] keeps the keys of a metadata mapping and
    rewrites each value by type: strings, ints, floats and bools stay as
    they are, a list becomes its [str], [None] becomes the empty string,
    and anything else becomes its [str].  [_add_chunks_to_collection]
    applies it before storage: given chunks that each hold a text and a
    metadata mapping, for a registered collection, it makes exactly one
    call to the store and hands it the sanitized metadata of the chunks,
    chunk by chunk; and whatever metadata it ever hands to the store is
    the sanitized metadata of the chunks. *)
Theorem sanitize_metadata_rule (items : Dict PyVal) :
  NoDup (dict_keys items) ->
  exists sanitized,
    _sanitize_metadata (VDict items) = Ok sanitized /\
    dict_keys sanitized = dict_keys items /\
    (forall key value, In (key, value) items ->
       exists value',
         dict_get key sanitized = Some value' /\
         (is_scalar value = true -> value' = value) /\
         (is_list value = true -> value' = VStr (py_str value)) /\
         (value = VNone -> value' = VStr "") /\
         (is_scalar value = false -> is_list value = false -> value <> VNone ->
          value' = VStr (py_str value))) /\
    (forall (self : OraDBVectorStore) chunk more collection_name store (b : B),
       dict_get collection_name (vector_stores self) = Some store ->
       forallb chunk_ok (chunk :: more) = true ->
       exists texts metadatas,
         database_calls
           (calls (_add_chunks_to_collection self (chunk :: more) collection_name b))
         = [EAddTexts store texts metadatas] /\
         Forall2 (fun c stored =>
                    exists raw, py_getitem c "metadata" = Ok (VDict raw) /\
                                _sanitize_metadata (VDict raw) = Ok stored)
                 (chunk :: more) metadatas) /\
    (forall (self : OraDBVectorStore) chunks collection_name (b : B) store texts metadatas,
       In (EAddTexts store texts metadatas)
          (calls (_add_chunks_to_collection self chunks collection_name b)) ->
       Forall2 (fun chunk stored =>
                  exists raw, py_getitem chunk "metadata" = Ok raw /\
                              _sanitize_metadata raw = Ok stored)
               chunks metadatas).
Proof.
  intros Hnd. exists (map sanitize_item items).
  split; [now apply sanitize_metadata_map |].
  split; [apply sanitize_keys |].
  split; [| split].
  - intros key value Hin. exists (sanitize_value value). split.
    + apply dict_get_in; [now rewrite sanitize_keys |].
      change (key, sanitize_value value) with (sanitize_item (key, value)).
      now apply in_map.
    + unfold sanitize_value.
      repeat split; intros; subst; try reflexivity;
        destruct value; simpl in *; try discriminate; try reflexivity; congruence.
  - intros self chunk more name store b Hstore Hok.
    destruct (well_formed_chunks_run self chunk more name store b Hstore Hok)
      as (texts & metadatas & _ & Hsanitized & Hcalls & _).
    exists texts, metadatas. split; assumption.
  - intros self chunks name b store texts metadatas.
    unfold _add_chunks_to_collection.
    destruct chunks as [| chunk0 more]; [intros [] |].
    destruct (dict_get name (vector_stores self)) as [store' |]; [| intros []].
    set (chunks := chunk0 :: more).
    destruct (mapM_silent (St := B) (E := Event)
                (fun chunk => lift (py_getitem chunk "text")) chunks
                (fun chunk => silent_lift _) b) as [[texts' | e] [Htexts _]].
    2: { rewrite (bind_raised _ _ _ _ _ _ Htexts). intros []. }
    rewrite (bind_ok _ _ _ _ _ _ Htexts); simpl.
    destruct (mapM_silent (St := B) (E := Event) _ chunks chunk_metadata_silent b)
      as [[metas | e] [Hmetas Hall]].
    2: { rewrite (bind_raised _ _ _ _ _ _ Hmetas). intros []. }
    rewrite (bind_ok _ _ _ _ _ _ Hmetas); simpl.
    unfold bind, call, print; simpl.
    destruct (add_texts store' texts' metas b) as [[[] | e] b']; simpl;
      intros Hin;
      repeat (destruct Hin as [Hin | Hin]; try discriminate; try contradiction);
      injection Hin as <- <- <-;
      (eapply Forall2_impl; [| apply Hall; reflexivity]);
      intros chunk stored Hrun; now apply chunk_metadata_ok with (b := b).
Qed.

(** C9. With an empty chunk list [_add_chunks_to_collection] and the four
    public adders return at once, for every collection name: no
    exception, no call, the environment as it was. *)
Theorem add_empty_is_noop (self : OraDBVectorStore) (collection_name ident : string) (b : B) :
  _add_chunks_to_collection self [] collection_name b = (Ok tt, b, []) /\
  add_pdf_chunks self [] ident b = (Ok tt, b, []) /\
  add_web_chunks self [] ident b = (Ok tt, b, []) /\
  add_general_knowledge self [] ident b = (Ok tt, b, []) /\
  add_repo_chunks self [] ident b = (Ok tt, b, []).
Proof. repeat split. Qed.
End Sanitizing.

Section Operations.
Context {B : Type} `{External B}.

Lemma query_of_name (c : PublicCollection) (self : OraDBVectorStore) query k :
  query_of c self query k = _query_collection self (name_of c) query k.
Proof. now destruct c. Qed.

Lemma adder_of_name (c : PublicCollection) (self : OraDBVectorStore) chunks ident :
  adder_of c self chunks ident = _add_chunks_to_collection self chunks (name_of c).
Proof. now destruct c. Qed.

Lemma bound_table_unknown (self : OraDBVectorStore) (collection_name : string) :
  dict_get collection_name (collections self) = None ->
  bound_table self collection_name = None.
Proof. intros Hnone. unfold bound_table. now rewrite Hnone. Qed.

(** C8. A collection name that neither dict knows is treated in two
    ways.  The readers give in quietly: [_query_collection] (and any
    public query method whose collection is not registered) returns the
    empty list, [get_collection_count] returns 0 and [get_latest_chunk]
    the empty dict, none of them touching the database.  The writers
    refuse: [_add_chunks_to_collection] on a non-empty chunk list and
    [delete_documents] raise a [ValueError] whose message names the
    collection. *)
Theorem unknown_collection_asymmetry (self : OraDBVectorStore)
    (collection_name query : string) (n_results : Z) (chunk : PyVal) (chunks : list PyVal)
    (ids : option (list string)) (delete_all : bool) (b : B) :
  dict_get collection_name (vector_stores self) = None ->
  dict_get collection_name (collections self) = None ->
  _query_collection self collection_name query n_results b
    = (Ok [], b, [EPrint ("🔍 [OracleVS] Querying " ++ collection_name)]) /\
  (forall c, dict_get (name_of c) (vector_stores self) = None ->
     outcome (query_of c self query n_results b) = Ok [] /\
     database_calls (calls (query_of c self query n_results b)) = []) /\
  get_collection_count self collection_name b = (Ok (VInt 0), b, []) /\
  get_latest_chunk self collection_name b = (Ok [], b, []) /\
  _add_chunks_to_collection self (chunk :: chunks) collection_name b
    = (Raised (mkExn ValueError ("Collection " ++ collection_name ++ " not found")), b, []) /\
  delete_documents self collection_name ids delete_all b
    = (Raised (mkExn ValueError ("Collection " ++ collection_name ++ " not found")), b, []).
Proof.
  intros Hstore Htable.
  pose proof (bound_table_unknown self collection_name Htable) as Hbound.
  split; [| split; [| repeat split]].
  - unfold _query_collection, bind, print, call. simpl. now rewrite Hstore.
  - intros c Hc. rewrite query_of_name.
    unfold _query_collection, bind, print, call. simpl.
    rewrite Hc. split; reflexivity.
  - unfold get_collection_count. now rewrite Hbound.
  - unfold get_latest_chunk. now rewrite Hbound.
  - unfold _add_chunks_to_collection. now rewrite Hstore.
  - unfold delete_documents. now rewrite Hstore.
Qed.

Lemma format_result_keys (doc : Document) :
  dict_keys (format_result doc) = ["content"; "metadata"].
Proof. reflexivity. Qed.

(** What [_query_collection] does with a registered collection. *)
Lemma query_collection_run (self : OraDBVectorStore) (collection_name query : string)
    (n_results : Z) (store : OracleVS) (b : B) :
  dict_get collection_name (vector_stores self) = Some store ->
  _query_collection self collection_name query n_results b =
  match similarity_search store query n_results b with
  | (Ok docs, b') =>
      (Ok (map format_result docs), b',
       [EPrint ("🔍 [OracleVS] Querying " ++ collection_name);
        ESimilaritySearch store query n_results;
        EPrint ("🔍 [OracleVS] Retrieved " ++ len (map format_result docs)
                ++ " chunks from " ++ collection_name)])
  | (Raised e, b') =>
      (Raised e, b',
       [EPrint ("🔍 [OracleVS] Querying " ++ collection_name);
        ESimilaritySearch store query n_results])
  end.
Proof.
  intros Hstore. unfold _query_collection, bind, print, call. simpl.
  rewrite Hstore.
  destruct (similarity_search store query n_results b) as [[docs | e] b']; reflexivity.
Qed.

(** C5. Each public query method asks the one store of its collection
    for the [n_results] nearest documents and returns them in order,
    every one as a dict with exactly the keys [content] and [metadata],
    holding the document's text and metadata. *)
Theorem query_returns_content_metadata_pairs (c : PublicCollection)
    (self : OraDBVectorStore) (query : string) (n_results : Z)
    (store : OracleVS) (docs : list Document) (b b' : B) :
  dict_get (name_of c) (vector_stores self) = Some store ->
  similarity_search store query n_results b = (Ok docs, b') ->
  exists results,
    outcome (query_of c self query n_results b) = Ok results /\
    searches (calls (query_of c self query n_results b)) = [(store, query, n_results)] /\
    database_calls (calls (query_of c self query n_results b))
      = [ESimilaritySearch store query n_results] /\
    Forall (fun result => dict_keys result = ["content"; "metadata"]) results /\
    Forall2 (fun doc result =>
               dict_get "content" result = Some (VStr (page_content doc)) /\
               dict_get "metadata" result = Some (VDict (metadata doc)))
            docs results.
Proof.
  intros Hstore Hsearch. exists (map format_result docs).
  rewrite query_of_name, (query_collection_run _ _ _ _ _ _ Hstore), Hsearch.
  repeat split.
  - apply Forall_map. apply Forall_forall. intros doc _. apply format_result_keys.
  - clear Hsearch. induction docs as [| doc rest IH]; simpl; constructor; auto.
Qed.

Lemma truncate_is_no_update (table : string) :
  is_update_statement (truncate_sql table) = false.
Proof. reflexivity. Qed.

Lemma count_is_no_update (table : string) :
  is_update_statement (count_sql table) = false.
Proof. reflexivity. Qed.

Lemma latest_is_no_update (table : string) :
  is_update_statement (latest_sql table) = false.
Proof. reflexivity. Qed.

Lemma add_chunks_no_update (self : OraDBVectorStore) chunks collection_name :
  emits (fun ev => updates_in_place ev = false)
        (_add_chunks_to_collection (B := B) self chunks collection_name).
Proof. unfold _add_chunks_to_collection. emits_auto. Qed.

Lemma query_collection_no_update (self : OraDBVectorStore) collection_name query k :
  emits (fun ev => updates_in_place ev = false)
        (_query_collection (B := B) self collection_name query k).
Proof. unfold _query_collection. emits_auto. Qed.

(** No method of an instance sends a statement that rewrites rows. *)
Lemma perform_no_update (self : OraDBVectorStore) (op : Operation) :
  emits (fun ev => updates_in_place ev = false) (perform (B := B) self op).
Proof.
  destruct op as [c chunks ident | chunks name | c query k | name query k
                 | name ids delete_all | name | name | model]; simpl.
  - rewrite adder_of_name. apply add_chunks_no_update.
  - apply add_chunks_no_update.
  - rewrite query_of_name. apply emits_bind; [apply query_collection_no_update |].
    intros ?. apply emits_ret.
  - apply emits_bind; [apply query_collection_no_update |]. intros ?. apply emits_ret.
  - unfold delete_documents. emits_auto.
  - unfold get_collection_count. emits_auto.
  - unfold get_latest_chunk. emits_auto.
  - unfold check_embedding_model_exists. emits_auto.
Qed.

(** C4. On a registered collection [delete_documents] removes documents
    in two ways only.  With [delete_all] it sends [TRUNCATE TABLE] for
    the collection's table and commits, whatever [ids] holds and without
    calling the store's [delete].  Without it, a non-empty [ids] goes to
    the store's [delete] as given and nothing else reaches the database;
    with no ids nothing happens at all.  And no method of the class sends
    a statement that updates rows in place. *)
Theorem delete_documents_two_ways (self : OraDBVectorStore) (collection_name : string)
    (store : OracleVS) (table : string) (ids : option (list string)) (b : B) :
  dict_get collection_name (vector_stores self) = Some store ->
  bound_table self collection_name = Some table ->
  delete_documents self collection_name ids true b
    = delete_documents self collection_name None true b /\
  Forall (fun ev => match ev with
                    | EDelete _ _ => False
                    | EExecute _ sql binds => sql = truncate_sql table /\ binds = []
                    | _ => True
                    end)
         (calls (delete_documents self collection_name ids true b)) /\
  (outcome (delete_documents self collection_name ids true b) = Ok tt ->
   exists cursor,
     database_calls (calls (delete_documents self collection_name ids true b))
     = [ECursor (connection self); EExecute cursor (truncate_sql table) [];
        ECommit (connection self)]) /\
  (forall id more,
     database_calls (calls (delete_documents self collection_name (Some (id :: more)) false b))
       = [EDelete store (id :: more)] /\
     outcome (delete_documents self collection_name (Some (id :: more)) false b)
       = fst (vs_delete store (id :: more) b) /\
     final (delete_documents self collection_name (Some (id :: more)) false b)
       = snd (vs_delete store (id :: more) b)) /\
  delete_documents self collection_name None false b = (Ok tt, b, []) /\
  delete_documents self collection_name (Some []) false b = (Ok tt, b, []) /\
  (forall op, emits (fun ev => updates_in_place ev = false) (perform (B := B) self op)).
Proof.
  intros Hstore Htable.
  unfold delete_documents. rewrite Hstore, Htable.
  split; [reflexivity |].
  split; [| split; [| split; [| repeat split]]].
  - unfold bind, call, print.
    destruct (connection_cursor (connection self) b) as [[cursor | e] b1]; simpl;
      [| repeat constructor].
    destruct (cursor_execute cursor (truncate_sql table) [] b1) as [[[] | e] b2]; simpl;
      [| repeat constructor].
    destruct (connection_commit (connection self) b2) as [[[] | e] b3]; simpl;
      repeat constructor.
  - unfold bind, call, print.
    destruct (connection_cursor (connection self) b) as [[cursor | e] b1]; simpl;
      [| discriminate].
    destruct (cursor_execute cursor (truncate_sql table) [] b1) as [[[] | e] b2]; simpl;
      [| discriminate].
    destruct (connection_commit (connection self) b2) as [[[] | e] b3]; simpl;
      [| discriminate].
    intros _. now exists cursor.
  - intros id more. unfold bind, call, print.
    destruct (vs_delete store (id :: more) b) as [[[] | e] b1]; simpl; repeat split.
  - apply perform_no_update.
Qed.
End Operations.

Section Construction.
Context {B : Type} `{External B}.

Lemma connects_app (t1 t2 : list Event) :
  connects (t1 ++ t2) = (connects t1 ++ connects t2)%list.
Proof. apply flat_map_app. Qed.



Lemma register_stores_emits (P : Event -> Prop) conn emb items acc :
  (forall store, P (ENewOracleVS store)) ->
  emits P (register_stores (B := B) conn emb items acc).
Proof.
  intros HP. revert acc. induction items as [| [name table] rest IH]; intros acc; simpl.
  - apply emits_ret.
  - apply emits_bind; [apply emits_call, HP | intros ?; apply IH].
Qed.

(** When the loop of the constructor completes it has built one store
    per item, in order, and bound each under its name. *)
Lemma register_stores_ok conn emb items acc (b b' : B) stores t :
  register_stores conn emb items acc b = (Ok stores, b', t) ->
  stores = fold_left (fun d item => dict_set (fst item) (new_store conn emb (snd item)) d)
                     items acc /\
  t = map (fun item => ENewOracleVS (new_store conn emb (snd item))) items.
Proof.
  revert acc b t. induction items as [| [name table] rest IH]; intros acc b t; simpl.
  - unfold ret. intros Heq. injection Heq as <- _ <-. auto.
  - intros Hrun. apply bind_inv_ok in Hrun.
    destruct Hrun as ([] & b1 & t1 & t2 & Hnew & Hrest & ->).
    unfold call in Hnew. destruct (new_OracleVS _ b) as [r b0].
    injection Hnew as _ _ <-.
    apply IH in Hrest. destruct Hrest as [-> ->]. auto.
Qed.

Lemma load_config_emits (P : Event -> Prop) :
  (forall msg, P (EPrint msg)) ->
  (forall path, P (EPathExists path)) ->
  (forall path, P (EYamlSafeLoad path)) ->
  emits P (_load_config (B := B)).
Proof. intros. unfold _load_config. emits_auto. Qed.

Lemma connect_to_database_emits (P : Event -> Prop) u p d w wp :
  (forall msg, P (EPrint msg)) ->
  (forall kwargs, P (EConnect kwargs)) ->
  emits P (connect_to_database (B := B) u p d w wp).
Proof. intros. unfold connect_to_database. emits_auto. Qed.

Lemma choose_embeddings_emits (P : Event -> Prop) credentials conn ef :
  (forall msg, P (EPrint msg)) ->
  (forall c params, P (ENewOracleEmbeddings c params)) ->
  emits P (choose_embeddings (B := B) credentials conn ef).
Proof. intros. unfold choose_embeddings. emits_auto. Qed.

(** The constructor after [_load_config] returned a mapping. *)
Lemma init_run (persist_directory : string) (embedding_function : PyVal)
    (config : Dict PyVal) (b b1 : B) (t0 : list Event) :
  _load_config b = (Ok (VDict config), b1, t0) ->
  let username := dict_get_or (VStr "ADMIN") "ORACLE_DB_USERNAME" config in
  let password := dict_get_or (VStr "") "ORACLE_DB_PASSWORD" config in
  let dsn := dict_get_or (VStr "") "ORACLE_DB_DSN" config in
  let wallet_path := dict_get_or VNone "ORACLE_DB_WALLET_LOCATION" config in
  let wallet_password := dict_get_or VNone "ORACLE_DB_WALLET_PASSWORD" config in
  let rest :=
    (conn <- connect_to_database username password dsn wallet_path wallet_password ;;
     finish_init (VDict config) conn embedding_function) b1 in
  __init__ persist_directory embedding_function b =
  if negb (truthy password) || negb (truthy dsn)
  then (Raised credentials_missing, b1, t0)
  else (outcome rest, final rest, (t0 ++ calls rest)%list).
Proof.
  intros Hload. cbv zeta. unfold __init__.
  rewrite (bind_ok _ _ _ _ _ _ Hload). cbn [py_get].
  rewrite !bind_lift_ok.
  destruct (negb (truthy (dict_get_or (VStr "") "ORACLE_DB_PASSWORD" config))
            || negb (truthy (dict_get_or (VStr "") "ORACLE_DB_DSN" config))).
  - unfold raise, outcome, final, calls. simpl. now rewrite app_nil_r.
  - reflexivity.
Qed.

Lemma load_config_from_file (config : Dict PyVal) (b b1 b2 : B) :
  path_exists "config.yaml" b = (Ok true, b1) ->
  yaml_safe_load "config.yaml" b1 = (Ok (VDict config), b2) ->
  _load_config b
    = (Ok (VDict config), b2, [EPathExists "config.yaml"; EYamlSafeLoad "config.yaml"]).
Proof.
  intros Hexists Hload. unfold _load_config, try_except, bind, call.
  rewrite Hexists. simpl. rewrite Hload. simpl. now destruct config.
Qed.

(** The defaults of password, DSN and wallet are false values, so a
    credential read with its default is false exactly when the config
    misses it or gives it empty. *)
Lemma missing_or_empty_default (default : PyVal) (key : string) (config : Dict PyVal) :
  truthy default = false ->
  negb (truthy (dict_get_or default key config)) = missing_or_empty key config.
Proof.
  intros Hdefault. unfold dict_get_or, missing_or_empty.
  destruct (dict_get key config); [reflexivity | now rewrite Hdefault].
Qed.

Lemma missing_or_empty_string (key : string) (config : Dict PyVal) (text : string) :
  dict_get key config = Some (VStr text) ->
  (missing_or_empty key config = true <-> text = "").
Proof.
  intros Hget. unfold missing_or_empty. rewrite Hget. simpl.
  rewrite negb_involutive. apply String.eqb_eq.
Qed.

Lemma connect_to_database_connects u p d w wp (b : B) :
  connects (calls (connect_to_database u p d w wp b)) =
  [if truthy w then connect_kwargs_wallet u p d w wp else connect_kwargs_no_wallet u p d].
Proof.
  unfold connect_to_database, try_except, bind, call, print.
  destruct (truthy w); simpl;
    destruct (oracledb_connect _ b) as [[conn | e] b1]; reflexivity.
Qed.

Lemma finish_init_emits (P : Event -> Prop) credentials conn ef :
  (forall msg, P (EPrint msg)) ->
  (forall c params, P (ENewOracleEmbeddings c params)) ->
  (forall store, P (ENewOracleVS store)) ->
  emits P (finish_init credentials conn ef).
Proof.
  intros Hprint Hemb Hstore. unfold finish_init.
  apply emits_bind; [now apply choose_embeddings_emits |]. intros emb.
  apply emits_bind; [now apply register_stores_emits |]. intros stores.
  apply emits_ret.
Qed.

(** The constructor connects once, if it gets that far. *)
Lemma init_connects (persist_directory : string) (embedding_function : PyVal)
    (config : Dict PyVal) (b b1 : B) (t0 : list Event) :
  _load_config b = (Ok (VDict config), b1, t0) ->
  connects (calls (__init__ persist_directory embedding_function b)) =
  if missing_or_empty "ORACLE_DB_PASSWORD" config || missing_or_empty "ORACLE_DB_DSN" config
  then []
  else [if missing_or_empty "ORACLE_DB_WALLET_LOCATION" config
        then connect_kwargs_no_wallet
               (dict_get_or (VStr "ADMIN") "ORACLE_DB_USERNAME" config)
               (dict_get_or (VStr "") "ORACLE_DB_PASSWORD" config)
               (dict_get_or (VStr "") "ORACLE_DB_DSN" config)
        else connect_kwargs_wallet
               (dict_get_or (VStr "ADMIN") "ORACLE_DB_USERNAME" config)
               (dict_get_or (VStr "") "ORACLE_DB_PASSWORD" config)
               (dict_get_or (VStr "") "ORACLE_DB_DSN" config)
               (dict_get_or VNone "ORACLE_DB_WALLET_LOCATION" config)
               (dict_get_or VNone "ORACLE_DB_WALLET_PASSWORD" config)].
Proof.
  intros Hload.
  assert (Hquiet : connects t0 = []).
  { apply flat_map_none.
    pose proof (load_config_emits (fun ev => connect_of ev = [])
                  (fun _ => eq_refl) (fun _ => eq_refl) (fun _ => eq_refl) b) as Hemits.
    now rewrite Hload in Hemits. }
  rewrite (init_run _ _ _ _ _ _ Hload).
  rewrite !missing_or_empty_default by reflexivity.
  destruct (missing_or_empty "ORACLE_DB_PASSWORD" config
            || missing_or_empty "ORACLE_DB_DSN" config); [exact Hquiet |].
  unfold calls at 1. simpl snd. rewrite connects_app, Hquiet, calls_bind, connects_app.
  rewrite connect_to_database_connects.
  rewrite <- (missing_or_empty_default VNone) by reflexivity.
  simpl app.
  replace (connects _) with (@nil (Dict PyVal)).
  - now destruct (truthy (dict_get_or VNone "ORACLE_DB_WALLET_LOCATION" config)).
  - symmetry. apply flat_map_none.
    destruct (outcome _); [| constructor].
    apply (finish_init_emits (fun ev => connect_of ev = [])); reflexivity.
Qed.

(** C2. With credentials in [config.yaml], the constructor reads user,
    password, DSN and wallet location from that file and makes exactly
    one [oracledb.connect] call, in one of two shapes: with no wallet
    location (absent or empty) the call carries [user], [password] and
    [dsn] and nothing else; with one it carries [config_dir],
    [wallet_location] and [wallet_password] as well. *)
Theorem init_connects_with_or_without_wallet (persist_directory : string)
    (embedding_function : PyVal) (config : Dict PyVal) (b b1 b2 : B) :
  path_exists "config.yaml" b = (Ok true, b1) ->
  yaml_safe_load "config.yaml" b1 = (Ok (VDict config), b2) ->
  missing_or_empty "ORACLE_DB_PASSWORD" config = false ->
  missing_or_empty "ORACLE_DB_DSN" config = false ->
  let username := dict_get_or (VStr "ADMIN") "ORACLE_DB_USERNAME" config in
  let password := dict_get_or (VStr "") "ORACLE_DB_PASSWORD" config in
  let dsn := dict_get_or (VStr "") "ORACLE_DB_DSN" config in
  let wallet_path := dict_get_or VNone "ORACLE_DB_WALLET_LOCATION" config in
  let wallet_password := dict_get_or VNone "ORACLE_DB_WALLET_PASSWORD" config in
  (missing_or_empty "ORACLE_DB_WALLET_LOCATION" config = true ->
   connects (calls (__init__ persist_directory embedding_function b))
     = [[("user", username); ("password", password); ("dsn", dsn)]]) /\
  (missing_or_empty "ORACLE_DB_WALLET_LOCATION" config = false ->
   connects (calls (__init__ persist_directory embedding_function b))
     = [[("user", username); ("password", password); ("dsn", dsn);
         ("config_dir", wallet_path); ("wallet_location", wallet_path);
         ("wallet_password", wallet_password)]]).
Proof.
  intros Hexists Hyaml Hpassword Hdsn. cbv zeta.
  pose proof (load_config_from_file _ _ _ _ Hexists Hyaml) as Hload.
  rewrite (init_connects _ _ _ _ _ _ Hload), Hpassword, Hdsn. simpl orb.
  split; intros ->; reflexivity.
Qed.





End Construction.

Section LatestChunk.
Context {B : Type} `{External B}.

(** What [get_latest_chunk] returns when the database answers: the row
    fetched for an unordered [ROWNUM <= 1] query, whichever row the
    database picks. *)
Lemma get_latest_chunk_returns_fetched_row (self : OraDBVectorStore)
    (collection_name table : string) (cursor : Cursor) (text metadata : PyVal)
    (more : list PyVal) (b b1 b2 b3 b4 : B) :
  bound_table self collection_name = Some table ->
  connection_cursor (connection self) b = (Ok cursor, b1) ->
  cursor_execute cursor ("SELECT text, metadata FROM " ++ table ++ " WHERE ROWNUM <= 1") [] b1
    = (Ok tt, b2) ->
  cursor_fetchone cursor b2 = (Ok (Some (text :: metadata :: more)), b3) ->
  cursor_close cursor b3 = (Ok tt, b4) ->
  get_latest_chunk self collection_name b
    = (Ok [("content", text); ("metadata", read_if_lob metadata)], b4,
       [ECursor (connection self); EExecute cursor (latest_sql table) [];
        EFetchone cursor; ECursorClose cursor]).
Proof.
  intros Htable Hcursor Hexecute Hfetch Hclose.
  unfold get_latest_chunk, try_except, bind, call. rewrite Htable, Hcursor.
  unfold latest_sql. rewrite Hexecute. simpl. rewrite Hfetch. simpl.
  rewrite Hclose. reflexivity.
Qed.
End LatestChunk.

(** C6. On a heap table holding the chunk ["first"] and, added after it,
    the chunk ["second"], [get_latest_chunk] returns ["first"]: the
    unordered [ROWNUM <= 1] query yields the first row of the scan, not the
    most recently added one. *)
Theorem latest_chunk_is_the_oldest_row :
  map row_text (dict_get_or [] "PDFCollection" (tables demo_loaded))
    = [VStr "first"; VStr "second"] /\
  outcome (get_latest_chunk demo_self "pdf_documents" demo_loaded)
    = Ok [("content", VStr "first"); ("metadata", VDict (map sanitize_item (demo_metadata "a.pdf")))] /\
  database_calls (calls (get_latest_chunk demo_self "pdf_documents" demo_loaded))
    = [ECursor (Connection 1);
       EExecute (CursorOf (Connection 1) 4)
                "SELECT text, metadata FROM PDFCollection WHERE ROWNUM <= 1" [];
       EFetchone (CursorOf (Connection 1) 4);
       ECursorClose (CursorOf (Connection 1) 4)].
Proof. repeat split. Qed.

(** ** The theorems at work on the reference environment *)

Example sanitize_demo :
  _sanitize_metadata (VDict (demo_metadata "a.pdf"))
  = Ok [("source", VStr "a.pdf"); ("page_numbers", VStr "[1, 2]"); ("title", VStr "");
        ("score", VFloat 4602678819172646912); ("extra", VStr "{'lang': 'en'}")].
Proof. reflexivity. Qed.

Example sanitize_rejects_non_mapping :
  raised_class (_sanitize_metadata (VList [])) = Some AttributeError.
Proof. reflexivity. Qed.

Lemma demo_metadata_keys_distinct : NoDup (dict_keys (demo_metadata "a.pdf")).
Proof. repeat constructor; simpl; intuition discriminate. Defined.

Lemma sanitize_metadata_rule_witness :
  NoDup (dict_keys (demo_metadata "a.pdf")) /\
  exists sanitized,
    _sanitize_metadata (VDict (demo_metadata "a.pdf")) = Ok sanitized /\
    dict_keys sanitized = dict_keys (demo_metadata "a.pdf").
Proof.
  split; [exact demo_metadata_keys_distinct |].
  destruct (sanitize_metadata_rule (B := HeapDb) (demo_metadata "a.pdf")
              demo_metadata_keys_distinct) as (sanitized & Hrun & Hkeys & _).
  exists sanitized. split; [exact Hrun | exact Hkeys].
Defined.

Example init_with_wallet :
  connects (calls (__init__ "embeddings" VNone wallet_db))
  = [[("user", VStr "RAG"); ("password", VStr "secret"); ("dsn", VStr "localhost/FREEPDB1");
      ("config_dir", VStr "/opt/wallet"); ("wallet_location", VStr "/opt/wallet");
      ("wallet_password", VStr "walletpw")]].
Proof. reflexivity. Qed.

Lemma init_connects_with_or_without_wallet_witness :
  connects (calls (__init__ "embeddings" VNone demo_db))
  = [[("user", VStr "RAG"); ("password", VStr "secret"); ("dsn", VStr "localhost/FREEPDB1")]].
Proof.
  exact (proj1 (init_connects_with_or_without_wallet
                  "embeddings" VNone demo_credentials demo_db demo_db demo_db
                  eq_refl eq_refl eq_refl eq_refl) eq_refl).
Defined.


Lemma delete_documents_two_ways_witness :
  delete_documents demo_self "pdf_documents" (Some ["2"]) true demo_loaded
    = delete_documents demo_self "pdf_documents" None true demo_loaded /\
  database_calls (calls (delete_documents demo_self "pdf_documents" (Some ["2"]) false demo_loaded))
    = [EDelete demo_pdf_store ["2"]].
Proof.
  pose proof (delete_documents_two_ways
                demo_self "pdf_documents" demo_pdf_store "PDFCollection" (Some ["2"])
                demo_loaded eq_refl eq_refl) as (Hall & _ & _ & Hids & _).
  split; [exact Hall | exact (proj1 (Hids "2" []))].
Defined.

Example truncate_empties_the_table :
  dict_get "PDFCollection"
    (tables (final (delete_documents demo_self "pdf_documents" (Some ["2"]) true demo_loaded)))
  = Some [].
Proof. reflexivity. Qed.

Example delete_by_id_keeps_the_rest :
  map row_text
    (dict_get_or [] "PDFCollection"
       (tables (final (delete_documents demo_self "pdf_documents" (Some ["2"]) false demo_loaded))))
  = [VStr "second"].
Proof. reflexivity. Qed.

Lemma query_returns_content_metadata_pairs_witness :
  exists results,
    outcome (query_pdf_collection demo_self "what is new" 3 demo_loaded) = Ok results /\
    Forall (fun result => dict_keys result = ["content"; "metadata"]) results.
Proof.
  assert (Hsearch : similarity_search demo_pdf_store "what is new" 3 demo_loaded
                    = (Ok [mkDocument "first" (map sanitize_item (demo_metadata "a.pdf"));
                           mkDocument "second" (map sanitize_item (demo_metadata "b.pdf"))],
                       demo_loaded))
    by (vm_compute; reflexivity).
  destruct (query_returns_content_metadata_pairs
              Pdf demo_self "what is new" 3 demo_pdf_store _ demo_loaded demo_loaded
              eq_refl Hsearch)
    as (results & Hrun & _ & _ & Hkeys & _).
  exists results. split; [exact Hrun | exact Hkeys].
Defined.

Lemma unknown_collection_asymmetry_witness :
  _query_collection demo_self "notes" "what is new" 3 demo_loaded
    = (Ok [], demo_loaded, [EPrint "🔍 [OracleVS] Querying notes"]) /\
  _add_chunks_to_collection demo_self [demo_chunk "third" "c.pdf"] "notes" demo_loaded
    = (Raised (mkExn ValueError "Collection notes not found"), demo_loaded, []).
Proof.
  pose proof (unknown_collection_asymmetry
                demo_self "notes" "what is new" 3 (demo_chunk "third" "c.pdf") [] None false
                demo_loaded eq_refl eq_refl) as (Hquery & _ & _ & _ & Hadd & _).
  split; [exact Hquery | exact Hadd].
Defined.


Example init_without_config_file :
  outcome (__init__ "embeddings" VNone (mkHeapDb None [] [] 1)) = Raised credentials_missing.
Proof. reflexivity. Qed.

(** The claim as stated fails for a [config.yaml] that holds a list: it
    yields no password and no DSN, and the constructor raises, before any
    connection, an [AttributeError] and not the [ValueError]. *)
Lemma init_on_a_list_config_raises_attribute_error :
  _load_config list_config_db
  = (Ok (VList [VStr "ORACLE_DB_USERNAME: RAG"]), list_config_db,
     [EPathExists "config.yaml"; EYamlSafeLoad "config.yaml"]) /\
  raised_class (outcome (__init__ "embeddings" VNone list_config_db)) = Some AttributeError /\
  connects (calls (__init__ "embeddings" VNone list_config_db)) = [].
Proof. repeat split. Qed.

(** The claim as stated fails in its last part: the constructor sends no
    statement of its own, and yet the tables of the four collections,
    absent before, exist once it has built the handles; the client
    creates them. *)
Lemma init_builds_handles_that_create_the_tables :
  tables demo_db = [] /\
  existsb is_statement (calls demo_start) = false /\
  dict_keys (tables (final demo_start))
  = ["PDFCollection"; "WebCollection"; "RepoCollection"; "GeneralCollection"].
Proof. repeat split. Qed.

End OraDBSpec.

(** * The operator menu: properties *)

(** Settle, one after the other, whether the console accepts each text
    a run prints. *)
Ltac next_print H step :=
  match type of H with
  | context [match AgentCli.markup_error ?text with _ => _ end] =>
      let Hread := fresh "Hread" in
      destruct (AgentCli.markup_error text) eqn:Hread; step H
  end.

Ltac each_print H step := repeat next_print H step.

(** A rejected print in a trace that was accepted. *)
Ltac rejected Hok :=
  exfalso; cbn [AgentCli.printed_ok forallb calls snd andb app] in Hok;
  unfold AgentCli.shown in Hok; cbn [AgentCli.markup_of] in Hok;
  repeat match goal with
         | Hread : AgentCli.markup_error _ = _ |- _ =>
             cbn [AgentCli.markup_of] in Hread; rewrite Hread in Hok
         end;
  cbn [andb] in Hok; discriminate Hok.

Module AgentCliSpec.
Import AgentCli.



Section PathChecks.
Context `{Console}.



End PathChecks.

(** The session of [demo_world] at a console that reads markup as rich
    does, with a missing PDF whose name closes the message's own tag. *)
Definition closing_tag_path : string := "notes[/red].pdf".

Definition closing_tag_session : World :=
  demo_world ["1"; "chunks.json"; closing_tag_path; ""].


(** The claim as stated fails for a missing path that holds a closing
    tag: the path does not exist, and the menu neither gets its message
    printed nor returns; it raises [MarkupError] with Enter unread. *)
Lemma missing_path_with_a_closing_tag_raises :
  path_exists closing_tag_session closing_tag_path = false /\
  outcome (menu_process_pdfs (H := rich_console) closing_tag_session)
  = Raised (MarkupError "closing tag '[/red]' at position 36 doesn't match any open tag") /\
  printed_ok (H := rich_console)
    (calls (menu_process_pdfs (H := rich_console) closing_tag_session)) = false /\
  answers (final (menu_process_pdfs (H := rich_console) closing_tag_session)) = [""].
Proof. repeat split. Qed.

Example existing_urls_file_is_processed :
  launches (calls (menu_process_websites (H := rich_console)
                     (demo_world ["2"; "out.json"; "urls.txt"; ""])))
  = [["python"; "-m"; "src.web_processor"; "--input"; "urls.txt"; "--output"; "out.json"]].
Proof. reflexivity. Qed.

End AgentCliSpec.

(** * The vector-store adapter: further properties *)


Module OraDBProps.
Import OraDB OraDBMore.

Section Loading.
Context {B : Type} `{External B}.

(** X1. [_load_config] never raises, whatever the file system and the
    YAML parser do: it returns either the empty dict or a true document
    that [yaml.safe_load] produced for [config.yaml], and it does nothing
    but look for that file, load it and print. *)
Theorem load_config_never_raises (b : B) :
  exists doc,
    outcome (_load_config b) = Ok doc /\
    (doc = VDict [] \/
     (truthy doc = true /\
      exists b0 b1, yaml_safe_load "config.yaml" b0 = (Ok doc, b1))) /\
    Forall (fun ev => match ev with
                      | EPrint _ => True
                      | EPathExists path | EYamlSafeLoad path => path = "config.yaml"
                      | _ => False
                      end)
           (calls (_load_config b)).
Proof.
  unfold _load_config, try_except, bind, call, print, outcome, calls.
  destruct (path_exists "config.yaml" b) as [[[|] | e] b1]; simpl.
  - destruct (yaml_safe_load "config.yaml" b1) as [[doc | e] b2] eqn:Hload; simpl.
    + destruct (truthy doc) eqn:Htruth.
      * exists doc. repeat split; [| repeat constructor].
        right. split; [exact Htruth | now exists b1, b2].
      * exists (VDict []). repeat split; [now left | repeat constructor].
    + exists (VDict []). repeat split; [now left | repeat constructor].
  - exists (VDict []). repeat split; [now left | repeat constructor].
  - exists (VDict []). repeat split; [now left | repeat constructor].
Qed.

(** X2. Without a [config.yaml] the constructor warns, does not try to
    parse anything, and fails with the credentials [ValueError] before any
    call to the database driver. *)
Theorem init_without_config_file_fails (persist_directory : string)
    (embedding_function : PyVal) (b b1 : B) :
  path_exists "config.yaml" b = (Ok false, b1) ->
  _load_config b
    = (Ok (VDict []), b1,
       [EPathExists "config.yaml";
        EPrint "Warning: config.yaml not found. Using empty configuration."]) /\
  __init__ persist_directory embedding_function b
    = (Raised credentials_missing, b1,
       [EPathExists "config.yaml";
        EPrint "Warning: config.yaml not found. Using empty configuration."]).
Proof.
  intros Hmissing.
  assert (Hload : _load_config b
                  = (Ok (VDict []), b1,
                     [EPathExists "config.yaml";
                      EPrint "Warning: config.yaml not found. Using empty configuration."])).
  { unfold _load_config, try_except, bind, call, print. now rewrite Hmissing. }
  split; [exact Hload |].
  now rewrite (OraDBSpec.init_run _ _ _ _ _ _ Hload).
Qed.

(** X3. When [oracledb.connect] raises, the constructor prints the failure
    with the exception's text and raises that same exception; it builds no
    embeddings and no store. *)
Theorem init_reraises_connection_failure (persist_directory : string)
    (embedding_function : PyVal) (config : Dict PyVal) (b b1 b2 : B) (t0 : list Event)
    (e : Exn) :
  _load_config b = (Ok (VDict config), b1, t0) ->
  missing_or_empty "ORACLE_DB_PASSWORD" config = false ->
  missing_or_empty "ORACLE_DB_DSN" config = false ->
  (forall kwargs, oracledb_connect kwargs b1 = (Raised e, b2)) ->
  outcome (__init__ persist_directory embedding_function b) = Raised e /\
  final (__init__ persist_directory embedding_function b) = b2 /\
  (exists announcement kwargs,
     calls (__init__ persist_directory embedding_function b)
     = (t0 ++ [EPrint announcement; EConnect kwargs;
               EPrint ("Oracle DB Connection failed! " ++ exn_str e)])%list).
Proof.
  intros Hload Hpassword Hdsn Hconnect.
  rewrite (OraDBSpec.init_run _ _ _ _ _ _ Hload).
  rewrite !OraDBSpec.missing_or_empty_default by reflexivity.
  rewrite Hpassword, Hdsn. simpl orb. cbv iota.
  unfold connect_to_database, try_except, bind, call, print, outcome, final, calls.
  destruct (truthy (dict_get_or VNone "ORACLE_DB_WALLET_LOCATION" config));
    simpl; rewrite Hconnect; simpl; repeat split; eexists; eexists; reflexivity.
Qed.
End Loading.

Section Validation.
Context {B : Type} `{External B}.

Lemma sanitize_value_scalar (value : PyVal) : is_scalar (sanitize_value value) = true.
Proof. destruct value; reflexivity. Qed.

Lemma sanitize_value_stable (value : PyVal) :
  is_scalar value = true -> sanitize_value value = value.
Proof. unfold sanitize_value. now intros ->. Qed.

(** X4. Sanitized metadata holds only strings, ints, floats and bools,
    and sanitizing it again changes nothing. *)
Theorem sanitized_metadata_is_scalar_and_stable (items : Dict PyVal) :
  NoDup (dict_keys items) ->
  exists sanitized,
    _sanitize_metadata (VDict items) = Ok sanitized /\
    Forall (fun item => is_scalar (snd item) = true) sanitized /\
    _sanitize_metadata (VDict sanitized) = Ok sanitized.
Proof.
  intros Hnd. exists (map sanitize_item items).
  split; [now apply OraDBSpec.sanitize_metadata_map |].
  split.
  - apply Forall_map. apply Forall_forall. intros [k v] _. apply sanitize_value_scalar.
  - rewrite OraDBSpec.sanitize_metadata_map by now rewrite OraDBSpec.sanitize_keys.
    rewrite map_map. apply f_equal. apply map_ext. intros [k v]. unfold sanitize_item. simpl.
    now rewrite sanitize_value_stable by apply sanitize_value_scalar.
Qed.

Lemma chunk_not_ok_raises (chunk : PyVal) :
  chunk_ok chunk = false ->
  (exists e, chunk_text chunk = Raised e /\ is_shape_error (exn_class e) = true) \/
  (exists e, chunk_metadata chunk = Raised e /\ is_shape_error (exn_class e) = true).
Proof.
  unfold chunk_ok, chunk_text, chunk_metadata, py_getitem.
  destruct chunk; try (intros _; left; eexists; split; reflexivity).
  destruct (dict_get "text" items); [| intros _; left; eexists; split; reflexivity].
  destruct (dict_get "metadata" items) as [m |];
    [| intros _; right; eexists; split; reflexivity].
  destruct m; try discriminate; intros _; right; eexists; split; reflexivity.
Qed.

Lemma traverse_some_raised {A C : Type} (g : A -> Result C) (P : Exn -> Prop) (xs : list A) :
  (forall x e, g x = Raised e -> P e) ->
  (exists x e, In x xs /\ g x = Raised e) ->
  exists e, traverse g xs = Raised e /\ P e.
Proof.
  intros HP (x & e & Hin & Hx).
  destruct (traverse g xs) as [ys | e'] eqn:Hrun.
  - apply traverse_ok in Hrun.
    exfalso. clear HP. induction Hrun as [| x' y rest ys' Hx' _ IH]; [destruct Hin |].
    destruct Hin as [-> | Hin]; [congruence | auto].
  - exists e'. split; [reflexivity |].
    apply traverse_raised in Hrun. destruct Hrun as (x' & _ & Hx'). eauto.
Qed.

Lemma chunk_text_errors (chunk : PyVal) (e : Exn) :
  chunk_text chunk = Raised e -> is_shape_error (exn_class e) = true.
Proof.
  unfold chunk_text, py_getitem.
  destruct chunk; try (intros Heq; injection Heq as <-; reflexivity).
  destruct (dict_get "text" items); [discriminate |].
  intros Heq. injection Heq as <-. reflexivity.
Qed.

Lemma chunk_metadata_errors (chunk : PyVal) (e : Exn) :
  chunk_metadata chunk = Raised e -> is_shape_error (exn_class e) = true.
Proof.
  unfold chunk_metadata, py_getitem.
  destruct chunk; try (intros Heq; injection Heq as <-; reflexivity).
  destruct (dict_get "metadata" items) as [m |];
    [| intros Heq; injection Heq as <-; reflexivity].
  destruct m; simpl; try discriminate; intros Heq; injection Heq as <-; reflexivity.
Qed.

Lemma some_chunk_not_ok (chunks : list PyVal) :
  forallb chunk_ok chunks = false -> exists chunk, In chunk chunks /\ chunk_ok chunk = false.
Proof.
  induction chunks as [| chunk rest IH]; simpl; [discriminate |].
  destruct (chunk_ok chunk) eqn:Hok; simpl.
  - intros Hrest. destruct (IH Hrest) as (c & Hin & Hc). exists c. auto.
  - intros _. exists chunk. auto.
Qed.

(** X5. Chunks are checked before anything is stored: if any chunk of
    the list is not a dict with a [text] entry and a dict under
    [metadata], [_add_chunks_to_collection] raises a [KeyError],
    [TypeError] or [AttributeError] and no call reaches the store, not
    even for the well-formed chunks before it. *)
Theorem malformed_chunk_stops_add_before_the_store (self : OraDBVectorStore)
    (chunks : list PyVal) (collection_name : string) (store : OracleVS) (b : B) :
  dict_get collection_name (vector_stores self) = Some store ->
  forallb chunk_ok chunks = false ->
  exists e,
    _add_chunks_to_collection self chunks collection_name b = (Raised e, b, []) /\
    is_shape_error (exn_class e) = true.
Proof.
  intros Hstore Hbad.
  destruct (some_chunk_not_ok chunks Hbad) as (bad & Hin & Hnot).
  destruct chunks as [| chunk more]; [destruct Hin |].
  rewrite (OraDBSpec.add_chunks_run _ _ _ _ _ _ Hstore).
  destruct (traverse chunk_text (chunk :: more)) as [texts | e] eqn:Htexts.
  - destruct (traverse_some_raised chunk_metadata
                (fun e => is_shape_error (exn_class e) = true) (chunk :: more)
                chunk_metadata_errors) as (e & -> & He).
    + destruct (chunk_not_ok_raises bad Hnot) as [(e & Ht & _) | (e & Hm & _)].
      * apply traverse_ok in Htexts. exfalso.
        clear -Htexts Hin Ht. induction Htexts as [| c y rest ys Hc _ IH]; [destruct Hin |].
        destruct Hin as [-> | Hin]; [congruence | auto].
      * now exists bad, e.
    + now exists e.
  - exists e. split; [reflexivity |].
    apply traverse_raised in Htexts. destruct Htexts as (c & _ & Hc).
    now apply chunk_text_errors with (chunk := c).
Qed.

(** X6. Well-formed chunks of a registered collection go to the store in
    one [add_texts] call: the texts and the sanitized metadata of all the
    chunks, in the order of the chunks and of equal number.  The result of
    that call is the result of the method. *)
Theorem well_formed_chunks_are_stored_in_one_call (self : OraDBVectorStore)
    (chunk : PyVal) (more : list PyVal) (collection_name : string) (store : OracleVS)
    (b : B) :
  dict_get collection_name (vector_stores self) = Some store ->
  forallb chunk_ok (chunk :: more) = true ->
  exists texts metadatas,
    Forall2 (fun c text => py_getitem c "text" = Ok text) (chunk :: more) texts /\
    Forall2 (fun c m => exists raw, py_getitem c "metadata" = Ok (VDict raw) /\
                                    _sanitize_metadata (VDict raw) = Ok m)
            (chunk :: more) metadatas /\
    database_calls (calls (_add_chunks_to_collection self (chunk :: more) collection_name b))
      = [EAddTexts store texts metadatas] /\
    outcome (_add_chunks_to_collection self (chunk :: more) collection_name b)
      = fst (add_texts store texts metadatas b) /\
    final (_add_chunks_to_collection self (chunk :: more) collection_name b)
      = snd (add_texts store texts metadatas b).
Proof.
  intros Hstore Hok.
  assert (Hall : Forall (fun c => chunk_ok c = true) (chunk :: more))
    by (apply Forall_forall; apply forallb_forall; exact Hok).
  destruct (OraDBSpec.traverse_all_ok chunk_text (chunk :: more)) as [texts Htexts].
  { eapply Forall_impl; [| exact Hall]. intros c Hc.
    destruct (OraDBSpec.chunk_ok_runs c Hc) as (text & _ & Ht & _). now exists text. }
  destruct (OraDBSpec.traverse_all_ok chunk_metadata (chunk :: more)) as [metadatas Hmetas].
  { eapply Forall_impl; [| exact Hall]. intros c Hc.
    destruct (OraDBSpec.chunk_ok_runs c Hc) as (_ & m & _ & Hm). now exists m. }
  exists texts, metadatas.
  rewrite (OraDBSpec.add_chunks_run _ _ _ _ _ _ Hstore), Htexts, Hmetas.
  split; [exact (traverse_ok _ _ _ Htexts) |].
  split.
  - apply traverse_ok in Hmetas.
    clear -Hmetas Hall. induction Hmetas as [| c m rest ms Hc _ IH]; constructor.
    + inversion Hall as [| ? ? Hcok _]; subst.
      unfold chunk_ok in Hcok. unfold chunk_metadata in Hc.
      destruct (py_getitem c "text"); [| discriminate].
      destruct (py_getitem c "metadata") as [[] | e]; try discriminate.
      now exists items.
    + apply IH. now inversion Hall.
  - cbv zeta.
    destruct (add_texts store texts metadatas b) as [[[] | e] b']; repeat split.
Qed.
End Validation.

Section Reach.
Context {B : Type} `{External B}.

(** What each method can send, given what its own calls satisfy. *)
Lemma add_chunks_emits (P : Event -> Prop) (self : OraDBVectorStore) chunks collection_name :
  (forall msg, P (EPrint msg)) ->
  (forall store texts metadatas,
     dict_get collection_name (vector_stores self) = Some store ->
     P (EAddTexts store texts metadatas)) ->
  emits P (_add_chunks_to_collection (B := B) self chunks collection_name).
Proof.
  intros Hprint Hadd. unfold _add_chunks_to_collection.
  destruct chunks as [| chunk more]; [apply emits_ret |].
  destruct (dict_get collection_name (vector_stores self)) as [store |] eqn:Hstore;
    [| apply emits_raise].
  apply emits_bind; [apply emits_mapM; intros; apply emits_lift |]. intros texts.
  apply emits_bind.
  { apply emits_mapM. intros c. apply emits_bind; [apply emits_lift |].
    intros m. apply emits_lift. }
  intros metadatas.
  apply emits_bind; [apply emits_call, Hprint |]. intros _.
  apply emits_bind; [apply emits_call; now apply Hadd |]. intros _.
  apply emits_call, Hprint.
Qed.

Lemma query_collection_emits (P : Event -> Prop) (self : OraDBVectorStore)
    collection_name query k :
  (forall msg, P (EPrint msg)) ->
  (forall store, dict_get collection_name (vector_stores self) = Some store ->
                 P (ESimilaritySearch store query k)) ->
  emits P (_query_collection (B := B) self collection_name query k).
Proof.
  intros Hprint Hsearch. unfold _query_collection.
  apply emits_bind; [apply emits_call, Hprint |]. intros _.
  destruct (dict_get collection_name (vector_stores self)) as [store |] eqn:Hstore;
    [| apply emits_ret].
  apply emits_bind; [apply emits_call; now apply Hsearch |]. intros docs.
  apply emits_bind; [apply emits_call, Hprint |]. intros _. apply emits_ret.
Qed.

Lemma delete_documents_emits (P : Event -> Prop) (self : OraDBVectorStore)
    collection_name ids delete_all :
  (forall msg, P (EPrint msg)) ->
  (forall conn, P (ECursor conn)) ->
  (forall conn, P (ECommit conn)) ->
  (forall cur table, bound_table self collection_name = Some table ->
                     P (EExecute cur (truncate_sql table) [])) ->
  (forall store given, dict_get collection_name (vector_stores self) = Some store ->
                       P (EDelete store given)) ->
  emits P (delete_documents (B := B) self collection_name ids delete_all).
Proof.
  intros Hprint Hcursor Hcommit Hexec Hdelete. unfold delete_documents.
  destruct (dict_get collection_name (vector_stores self)) as [store |] eqn:Hstore;
    [| apply emits_raise].
  destruct delete_all.
  - destruct (bound_table self collection_name) as [table |] eqn:Htable; [| apply emits_ret].
    apply emits_bind; [apply emits_call, Hcursor |]. intros cur.
    apply emits_bind; [apply emits_call; now apply Hexec |]. intros _.
    apply emits_bind; [apply emits_call, Hcommit |]. intros _.
    apply emits_call, Hprint.
  - destruct ids as [[| id more] |]; try apply emits_ret.
    apply emits_bind; [apply emits_call; now apply Hdelete |]. intros _.
    apply emits_call, Hprint.
Qed.

Lemma select_emits (P : Event -> Prop) {A : Type} (self : OraDBVectorStore)
    (sql : string) (binds : list PyVal)
    (k : option (list PyVal) -> M B Event A) (h : Exn -> M B Event A) :
  (forall conn, P (ECursor conn)) ->
  (forall cur, P (EExecute cur sql binds)) ->
  (forall cur, P (EFetchone cur)) ->
  (forall cur, P (ECursorClose cur)) ->
  (forall row, emits P (k row)) ->
  (forall e, emits P (h e)) ->
  emits P (try_except
             (cursor <- call (ECursor (connection self)) (connection_cursor (connection self)) ;;
              call (EExecute cursor sql binds) (cursor_execute cursor sql binds) ;;;
              row <- call (EFetchone cursor) (cursor_fetchone cursor) ;;
              call (ECursorClose cursor) (cursor_close cursor) ;;;
              k row)
             h).
Proof.
  intros Hcursor Hexec Hfetch Hclose Hk Hh.
  apply emits_try_except; [| exact Hh].
  apply emits_bind; [apply emits_call, Hcursor |]. intros cur.
  apply emits_bind; [apply emits_call, Hexec |]. intros _.
  apply emits_bind; [apply emits_call, Hfetch |]. intros row.
  apply emits_bind; [apply emits_call, Hclose |]. intros _. apply Hk.
Qed.

Lemma collection_count_emits (P : Event -> Prop) (self : OraDBVectorStore) collection_name :
  (forall conn, P (ECursor conn)) ->
  (forall cur, P (EFetchone cur)) ->
  (forall cur, P (ECursorClose cur)) ->
  (forall cur table, bound_table self collection_name = Some table ->
                     P (EExecute cur (count_sql table) [])) ->
  emits P (get_collection_count (B := B) self collection_name).
Proof.
  intros Hcursor Hfetch Hclose Hexec. unfold get_collection_count.
  destruct (bound_table self collection_name) as [table |] eqn:Htable; [| apply emits_ret].
  apply select_emits; auto.
  - intros [[| v more] |]; first [apply emits_ret | apply emits_lift].
  - intros e. apply emits_ret.
Qed.

Lemma latest_chunk_emits (P : Event -> Prop) (self : OraDBVectorStore) collection_name :
  (forall msg, P (EPrint msg)) ->
  (forall conn, P (ECursor conn)) ->
  (forall cur, P (EFetchone cur)) ->
  (forall cur, P (ECursorClose cur)) ->
  (forall cur table, bound_table self collection_name = Some table ->
                     P (EExecute cur (latest_sql table) [])) ->
  emits P (get_latest_chunk (B := B) self collection_name).
Proof.
  intros Hprint Hcursor Hfetch Hclose Hexec. unfold get_latest_chunk.
  destruct (bound_table self collection_name) as [table |] eqn:Htable; [| apply emits_ret].
  apply select_emits; auto.
  - intros [[| v more] |]; try apply emits_ret.
    apply emits_bind; [apply emits_lift |]. intros text.
    apply emits_bind; [apply emits_lift |]. intros m. apply emits_ret.
  - intros e. apply emits_bind; [apply emits_call, Hprint |]. intros _. apply emits_ret.
Qed.

Lemma check_model_emits (P : Event -> Prop) (self : OraDBVectorStore) model_name :
  (forall msg, P (EPrint msg)) ->
  (forall conn, P (ECursor conn)) ->
  (forall cur, P (EFetchone cur)) ->
  (forall cur, P (ECursorClose cur)) ->
  (forall cur, P (EExecute cur model_sql [VStr model_name])) ->
  emits P (check_embedding_model_exists (B := B) self model_name).
Proof.
  intros Hprint Hcursor Hfetch Hclose Hexec. unfold check_embedding_model_exists.
  apply select_emits; auto.
  - intros [[| v more] |]; try apply emits_ret.
    apply emits_bind; [apply emits_lift |]. intros count.
    apply emits_bind; [apply emits_lift |]. intros positive. apply emits_ret.
  - intros e. apply emits_bind; [apply emits_call, Hprint |]. intros _. apply emits_ret.
Qed.

Lemma drop_result_emits (P : Event -> Prop) {A : Type} (m : M B Event A) :
  emits P m -> emits P (m ;;; ret tt).
Proof. intros Hm. apply emits_bind; [exact Hm |]. intros _. apply emits_ret. Qed.

(** X7. The reading methods only read: a query, a count, a look at the
    latest chunk or a model check sends nothing to the database but
    similarity searches and [SELECT] statements; in particular no
    [add_texts], no [delete], no [TRUNCATE] and no commit. *)
Theorem reading_operations_only_read (self : OraDBVectorStore) (op : Operation) (b : B) :
  reads_only op = true ->
  Forall (fun ev => is_read ev = true) (calls (perform self op b)).
Proof.
  intros Hreads. revert b.
  change (emits (fun ev => is_read ev = true) (perform (B := B) self op)).
  destruct op as [c chunks ident | chunks name | c query k | name query k
                 | name ids delete_all | name | name | model];
    try discriminate Hreads; simpl; apply drop_result_emits.
  - rewrite OraDBSpec.query_of_name. apply query_collection_emits; reflexivity.
  - apply query_collection_emits; reflexivity.
  - apply collection_count_emits; reflexivity.
  - apply latest_chunk_emits; reflexivity.
  - apply check_model_emits; reflexivity.
Qed.

(** What a successful constructor leaves in [self]. *)
Lemma init_ok_shape (persist_directory : string) (embedding_function : PyVal)
    (b b' : B) (self : OraDBVectorStore) (t : list Event) :
  __init__ persist_directory embedding_function b = (Ok self, b', t) ->
  collections self = the_collections /\
  vector_stores self
    = map (fun item => (fst item, new_store (connection self) (embeddings self) (snd item)))
          the_collections.
Proof.
  intros Hrun. unfold __init__ in Hrun.
  apply bind_inv_ok in Hrun. destruct Hrun as (credentials & ? & ? & ? & _ & Hrun & _).
  apply bind_inv_ok in Hrun. destruct Hrun as (username & ? & ? & ? & _ & Hrun & _).
  apply bind_inv_ok in Hrun. destruct Hrun as (password & ? & ? & ? & _ & Hrun & _).
  apply bind_inv_ok in Hrun. destruct Hrun as (dsn & ? & ? & ? & _ & Hrun & _).
  apply bind_inv_ok in Hrun. destruct Hrun as (wallet_path & ? & ? & ? & _ & Hrun & _).
  apply bind_inv_ok in Hrun. destruct Hrun as (wallet_password & ? & ? & ? & _ & Hrun & _).
  destruct (negb (truthy password) || negb (truthy dsn)); [discriminate Hrun |].
  apply bind_inv_ok in Hrun. destruct Hrun as (conn & ? & ? & ? & _ & Hrun & _).
  apply bind_inv_ok in Hrun. destruct Hrun as (emb & ? & ? & ? & _ & Hrun & _).
  apply bind_inv_ok in Hrun. destruct Hrun as (stores & ? & ? & ? & Hreg & Hrun & _).
  unfold ret in Hrun. injection Hrun as <- _ _.
  apply OraDBSpec.register_stores_ok in Hreg. destruct Hreg as [-> _].
  split; reflexivity.
Qed.

Lemma dict_get_map_values {V W : Type} (f : V -> W) (key : string) (d : Dict V) :
  dict_get key (map (fun item => (fst item, f (snd item))) d) = option_map f (dict_get key d).
Proof.
  induction d as [| [k v] rest IH]; [reflexivity |].
  simpl. now destruct (k =? key).
Qed.

Lemma declared_table_is_named (collection_name table : string) :
  dict_get collection_name the_collections = Some table -> (table =? "") = false.
Proof.
  unfold the_collections. simpl.
  repeat match goal with
         | |- context [if ?c then _ else _] => destruct c
         end;
    intros Heq; try discriminate; injection Heq as <-; reflexivity.
Qed.

(** X8. Collections are kept apart.  On a constructed instance, whatever
    a method aimed at one of the four collections sends to the database
    concerns that collection's table alone: store calls go to the store
    built on it, and the only statements are the truncate, count and
    latest-row statements for it. *)
Theorem operations_stay_in_their_collection (persist_directory : string)
    (embedding_function : PyVal) (b0 b1 : B) (t : list Event) (self : OraDBVectorStore)
    (op : Operation) (collection_name table : string) (b : B) :
  __init__ persist_directory embedding_function b0 = (Ok self, b1, t) ->
  op_target op = Some collection_name ->
  dict_get collection_name the_collections = Some table ->
  Forall (stays_in table) (calls (perform self op b)).
Proof.
  intros Hinit Htarget Htable.
  destruct (init_ok_shape _ _ _ _ _ _ Hinit) as [Hcollections Hstores].
  assert (Hstore : forall store,
             dict_get collection_name (vector_stores self) = Some store ->
             table_name store = table).
  { intros store. rewrite Hstores, dict_get_map_values, Htable. simpl.
    intros Heq. injection Heq as <-. reflexivity. }
  assert (Hbound : forall table', bound_table self collection_name = Some table' ->
                                  table' = table).
  { intros table'. unfold bound_table. rewrite Hcollections, Htable.
    rewrite (declared_table_is_named _ _ Htable). congruence. }
  revert b. change (emits (stays_in table) (perform (B := B) self op)).
  destruct op as [c chunks ident | chunks name | c query k | name query k
                 | name ids delete_all | name | name | model];
    simpl in Htarget; try discriminate Htarget; injection Htarget as <-; simpl.
  - rewrite OraDBSpec.adder_of_name. apply add_chunks_emits; simpl; auto.
  - apply add_chunks_emits; simpl; auto.
  - rewrite OraDBSpec.query_of_name.
    apply drop_result_emits, query_collection_emits; simpl; auto.
  - apply drop_result_emits, query_collection_emits; simpl; auto.
  - apply delete_documents_emits; simpl; auto.
    intros cur table' Hb. left. now rewrite (Hbound _ Hb).
  - apply drop_result_emits, collection_count_emits; simpl; auto.
    intros cur table' Hb. right. left. now rewrite (Hbound _ Hb).
  - apply drop_result_emits, latest_chunk_emits; simpl; auto.
    intros cur table' Hb. right. right. now rewrite (Hbound _ Hb).
Qed.

Ltac fallback value := exists value; split; [reflexivity | now left].

(** X9. [get_collection_count] never raises.  When the collection is
    known and the count statement for its table goes through and yields a
    row, the result is the first column of that row; in every other case
    (a collection it does not know, a failing database call, for the
    table may not exist yet, or no row) the result is 0. *)
Theorem get_collection_count_never_raises (self : OraDBVectorStore)
    (collection_name : string) (b : B) :
  exists count,
    outcome (get_collection_count self collection_name b) = Ok count /\
    ((exists table more,
        bound_table self collection_name = Some table /\
        count_fetched self table b (count :: more)) \/
     (count = VInt 0 /\
      forall table first more,
        bound_table self collection_name = Some table ->
        count_fetched self table b (first :: more) -> False)).
Proof.
  unfold get_collection_count.
  destruct (bound_table self collection_name) as [table |] eqn:Hbound.
  2: { exists (VInt 0). split; [reflexivity | right]. split; [reflexivity |]. discriminate. }
  assert (Hzero : (forall first more, count_fetched self table b (first :: more) -> False) ->
                  VInt 0 = VInt 0 /\
                  forall table' first more,
                    Some table = Some table' ->
                    count_fetched self table' b (first :: more) -> False).
  { intros Hnone. split; [reflexivity |].
    intros table' first more Heq. injection Heq as <-. apply Hnone. }
  unfold try_except, bind, call, outcome.
  destruct (connection_cursor (connection self) b) as [[cursor | e] b1] eqn:Hcursor; simpl.
  2: { exists (VInt 0). split; [reflexivity | right]. apply Hzero.
       intros first more (c & ? & ? & ? & ? & Hc & _). congruence. }
  destruct (cursor_execute cursor (count_sql table) [] b1) as [[[] | e] b2] eqn:Hexecute;
    simpl.
  2: { exists (VInt 0). split; [reflexivity | right]. apply Hzero.
       intros first more (c & ? & ? & ? & ? & Hc & He & _).
       rewrite Hcursor in Hc. injection Hc as <- <-. congruence. }
  destruct (cursor_fetchone cursor b2) as [[row | e] b3] eqn:Hfetch; simpl.
  2: { exists (VInt 0). split; [reflexivity | right]. apply Hzero.
       intros first more (c & ? & ? & ? & ? & Hc & He & Hf & _).
       rewrite Hcursor in Hc. injection Hc as <- <-.
       rewrite Hexecute in He. injection He as <-. congruence. }
  destruct (cursor_close cursor b3) as [[[] | e] b4] eqn:Hclose; simpl.
  2: { exists (VInt 0). split; [reflexivity | right]. apply Hzero.
       intros first more (c & ? & ? & ? & ? & Hc & He & Hf & Hcl).
       rewrite Hcursor in Hc. injection Hc as <- <-.
       rewrite Hexecute in He. injection He as <-.
       rewrite Hfetch in Hf. injection Hf as _ <-. congruence. }
  destruct row as [[| count more] |]; simpl.
  - exists (VInt 0). split; [reflexivity | right]. apply Hzero.
    intros first more (c & ? & ? & ? & ? & Hc & He & Hf & _).
    rewrite Hcursor in Hc. injection Hc as <- <-.
    rewrite Hexecute in He. injection He as <-. congruence.
  - exists count. split; [reflexivity | left].
    exists table, more. split; [reflexivity |].
    now exists cursor, b1, b2, b3, b4.
  - exists (VInt 0). split; [reflexivity | right]. apply Hzero.
    intros first more (c & ? & ? & ? & ? & Hc & He & Hf & _).
    rewrite Hcursor in Hc. injection Hc as <- <-.
    rewrite Hexecute in He. injection He as <-. congruence.
Qed.

(** X10. [get_latest_chunk] never raises.  It returns the empty dict, or
    the first two columns of a fetched row as [content] and [metadata],
    the metadata read out when the driver hands it over as a LOB. *)
Theorem get_latest_chunk_never_raises (self : OraDBVectorStore)
    (collection_name : string) (b : B) :
  exists chunk,
    outcome (get_latest_chunk self collection_name b) = Ok chunk /\
    (chunk = [] \/
     exists cursor b0 b1 text m more,
       cursor_fetchone cursor b0 = (Ok (Some (text :: m :: more)), b1) /\
       chunk = [("content", text); ("metadata", read_if_lob m)]).
Proof.
  unfold get_latest_chunk.
  destruct (bound_table self collection_name) as [table |]; [| fallback (@nil (string * PyVal))].
  unfold try_except, bind, call, print, outcome.
  destruct (connection_cursor (connection self) b) as [[cursor | e] b1]; simpl;
    [| fallback (@nil (string * PyVal))].
  destruct (cursor_execute cursor (latest_sql table) [] b1) as [[[] | e] b2]; simpl;
    [| fallback (@nil (string * PyVal))].
  destruct (cursor_fetchone cursor b2) as [[row | e] b3] eqn:Hfetch; simpl;
    [| fallback (@nil (string * PyVal))].
  destruct (cursor_close cursor b3) as [[[] | e] b4]; simpl;
    [| fallback (@nil (string * PyVal))].
  destruct row as [[| text [| m more]] |]; simpl; try fallback (@nil (string * PyVal)).
  eexists. split; [reflexivity |]. right. now exists cursor, b2, b3, text, m, more.
Qed.

(** X11. [check_embedding_model_exists] never raises and answers [True]
    only for a fetched count above zero.  The model name travels as a bind
    value of one fixed statement; it is never spliced into the SQL text. *)
Theorem check_embedding_model_binds_the_name (self : OraDBVectorStore)
    (model_name : string) (b : B) :
  (exists found,
     outcome (check_embedding_model_exists self model_name b) = Ok found /\
     (found = true ->
      exists cursor b0 b1 count more,
        cursor_fetchone cursor b0 = (Ok (Some (count :: more)), b1) /\
        py_gt_zero count = Ok true)) /\
  Forall (fun ev => match ev with
                    | EExecute _ sql binds =>
                        sql = "SELECT COUNT(*) FROM user_mining_models WHERE model_name = :1" /\
                        binds = [VStr model_name]
                    | _ => is_read ev = true
                    end)
         (calls (check_embedding_model_exists self model_name b)).
Proof.
  split.
  - unfold check_embedding_model_exists, try_except, bind, call, print, outcome.
    destruct (connection_cursor (connection self) b) as [[cursor | e] b1]; simpl;
      [| exists false; split; [reflexivity | discriminate]].
    destruct (cursor_execute cursor model_sql [VStr model_name] b1) as [[[] | e] b2]; simpl;
      [| exists false; split; [reflexivity | discriminate]].
    destruct (cursor_fetchone cursor b2) as [[row | e] b3] eqn:Hfetch; simpl;
      [| exists false; split; [reflexivity | discriminate]].
    destruct (cursor_close cursor b3) as [[[] | e] b4]; simpl;
      [| exists false; split; [reflexivity | discriminate]].
    destruct row as [[| count more] |]; simpl;
      try (exists false; split; [reflexivity | discriminate]).
    destruct (py_gt_zero count) as [positive | e] eqn:Hpositive; simpl;
      [| exists false; split; [reflexivity | discriminate]].
    exists positive. split; [reflexivity |]. intros ->.
    now exists cursor, b2, b3, count, more.
  - revert b. apply check_model_emits; intros; simpl; auto.
Qed.
Lemma init_with_function_emits (P : Event -> Prop) (persist_directory : string)
    (ef : PyVal) :
  truthy ef = true ->
  (forall msg, P (EPrint msg)) ->
  (forall path, P (EPathExists path)) ->
  (forall path, P (EYamlSafeLoad path)) ->
  (forall kwargs, P (EConnect kwargs)) ->
  (forall store, P (ENewOracleVS store)) ->
  emits P (__init__ (B := B) persist_directory ef).
Proof.
  intros Hgiven Hprint Hexists Hyaml Hconnect Hstore. unfold __init__.
  apply emits_bind; [now apply OraDBSpec.load_config_emits |].
  intros credentials.
  apply emits_bind; [apply emits_lift |]; intros username.
  apply emits_bind; [apply emits_lift |]; intros password.
  apply emits_bind; [apply emits_lift |]; intros dsn.
  apply emits_bind; [apply emits_lift |]; intros wallet_path.
  apply emits_bind; [apply emits_lift |]; intros wallet_password.
  destruct (negb (truthy password) || negb (truthy dsn)); [apply emits_raise |].
  apply emits_bind; [now apply OraDBSpec.connect_to_database_emits |].
  intros conn. unfold choose_embeddings. rewrite Hgiven.
  apply emits_bind.
  { apply emits_bind; [apply emits_call, Hprint |]. intros _. apply emits_ret. }
  intros emb.
  apply emits_bind; [now apply OraDBSpec.register_stores_emits |].
  intros stores. apply emits_ret.
Qed.

(** The [embeddings] attribute of a constructed instance is what lines
    45-60 chose. *)
Lemma init_ok_embeddings (persist_directory : string) (ef : PyVal)
    (b b' : B) (self : OraDBVectorStore) (t : list Event) :
  __init__ persist_directory ef b = (Ok self, b', t) ->
  exists credentials conn s s' te,
    choose_embeddings credentials conn ef s = (Ok (embeddings self), s', te).
Proof.
  intros Hrun. unfold __init__ in Hrun.
  apply bind_inv_ok in Hrun. destruct Hrun as (credentials & ? & ? & ? & _ & Hrun & _).
  apply bind_inv_ok in Hrun. destruct Hrun as (username & ? & ? & ? & _ & Hrun & _).
  apply bind_inv_ok in Hrun. destruct Hrun as (password & ? & ? & ? & _ & Hrun & _).
  apply bind_inv_ok in Hrun. destruct Hrun as (dsn & ? & ? & ? & _ & Hrun & _).
  apply bind_inv_ok in Hrun. destruct Hrun as (wallet_path & ? & ? & ? & _ & Hrun & _).
  apply bind_inv_ok in Hrun. destruct Hrun as (wallet_password & ? & ? & ? & _ & Hrun & _).
  destruct (negb (truthy password) || negb (truthy dsn)); [discriminate Hrun |].
  apply bind_inv_ok in Hrun. destruct Hrun as (conn & s & ? & ? & _ & Hrun & _).
  apply bind_inv_ok in Hrun. destruct Hrun as (emb & s' & te & ? & Hemb & Hrun & _).
  apply bind_inv_ok in Hrun. destruct Hrun as (stores & ? & ? & ? & _ & Hrun & _).
  unfold ret in Hrun. injection Hrun as <- _ _.
  exists credentials, conn, s, s', te. exact Hemb.
Qed.

(** X12. A caller's embedding function is the one in use.  When the
    constructor is given a true [embedding_function] and completes, the
    instance keeps that function as [embeddings], each of its vector
    stores embeds with it, and no database-side embedder was built. *)
Theorem a_provided_embedding_function_is_used (persist_directory : string)
    (ef : PyVal) (b b' : B) (self : OraDBVectorStore) (t : list Event) :
  truthy ef = true ->
  __init__ persist_directory ef b = (Ok self, b', t) ->
  embeddings self = ProvidedEmbedding ef /\
  Forall (fun item => embedding_function (snd item) = ProvidedEmbedding ef)
         (vector_stores self) /\
  Forall (fun ev => builds_embeddings ev = false) t.
Proof.
  intros Hgiven Hrun.
  assert (Hemb : embeddings self = ProvidedEmbedding ef).
  { destruct (init_ok_embeddings _ _ _ _ _ _ Hrun)
      as (credentials & conn & s & s' & te & Hchoose).
    unfold choose_embeddings in Hchoose. rewrite Hgiven in Hchoose.
    cbv [bind print call ret] in Hchoose.
    destruct (Ok tt, s) eqn:Hpair in Hchoose.
    now injection Hchoose as <- _ _. }
  split; [exact Hemb |]. split.
  - destruct (init_ok_shape _ _ _ _ _ _ Hrun) as [_ ->].
    rewrite Hemb. apply Forall_forall. intros item Hin.
    apply in_map_iff in Hin. destruct Hin as (source & <- & _). reflexivity.
  - pose proof (init_with_function_emits (fun ev => builds_embeddings ev = false)
                  persist_directory ef Hgiven) as Hemits.
    specialize (Hemits (fun _ => eq_refl) (fun _ => eq_refl) (fun _ => eq_refl)
                       (fun _ => eq_refl) (fun _ => eq_refl) b).
    now rewrite Hrun in Hemits.
Qed.

End Reach.

(** ** The further properties on the reference environment *)

Lemma init_without_config_file_fails_witness :
  __init__ "embeddings" VNone no_config_db
  = (Raised credentials_missing, no_config_db,
     [EPathExists "config.yaml";
      EPrint "Warning: config.yaml not found. Using empty configuration."]).
Proof.
  exact (proj2 (init_without_config_file_fails
                  "embeddings" VNone no_config_db no_config_db eq_refl)).
Defined.

Lemma init_reraises_connection_failure_witness :
  outcome (__init__ (H := offline_external) "embeddings" VNone demo_db)
    = Raised unreachable /\
  final (__init__ (H := offline_external) "embeddings" VNone demo_db) = demo_db.
Proof.
  pose proof (@init_reraises_connection_failure HeapDb offline_external
                "embeddings" VNone demo_credentials demo_db demo_db demo_db
                [EPathExists "config.yaml"; EYamlSafeLoad "config.yaml"] unreachable
                eq_refl eq_refl eq_refl (fun _ => eq_refl)) as (Hraised & Hstate & _).
  split; [exact Hraised | exact Hstate].
Defined.

Lemma sanitized_metadata_is_scalar_and_stable_witness :
  exists sanitized,
    _sanitize_metadata (VDict (demo_metadata "a.pdf")) = Ok sanitized /\
    _sanitize_metadata (VDict sanitized) = Ok sanitized.
Proof.
  destruct (sanitized_metadata_is_scalar_and_stable (B := HeapDb) (demo_metadata "a.pdf")
              OraDBSpec.demo_metadata_keys_distinct) as (sanitized & Hrun & _ & Hagain).
  exists sanitized. split; [exact Hrun | exact Hagain].
Defined.

Lemma malformed_chunk_stops_add_before_the_store_witness :
  exists e,
    _add_chunks_to_collection demo_self half_good_chunks "pdf_documents" demo_loaded
      = (Raised e, demo_loaded, []) /\
    is_shape_error (exn_class e) = true.
Proof.
  exact (malformed_chunk_stops_add_before_the_store
           demo_self half_good_chunks "pdf_documents" demo_pdf_store demo_loaded
           eq_refl eq_refl).
Defined.

Example missing_metadata_is_a_key_error :
  outcome (add_pdf_chunks demo_self half_good_chunks "c.pdf" demo_loaded)
  = Raised (mkExn KeyError "'metadata'").
Proof. reflexivity. Qed.

Lemma well_formed_chunks_are_stored_in_one_call_witness :
  exists texts metadatas,
    database_calls
      (calls (_add_chunks_to_collection demo_self [demo_chunk "third" "c.pdf"]
                "pdf_documents" demo_loaded))
    = [EAddTexts demo_pdf_store texts metadatas].
Proof.
  destruct (well_formed_chunks_are_stored_in_one_call
              demo_self (demo_chunk "third" "c.pdf") [] "pdf_documents" demo_pdf_store
              demo_loaded eq_refl eq_refl)
    as (texts & metadatas & _ & _ & Hcalls & _).
  exists texts, metadatas. exact Hcalls.
Defined.

Lemma operations_stay_in_their_collection_witness :
  Forall (stays_in "WebCollection")
         (calls (perform demo_self (OpDelete "web_documents" None true) demo_loaded)).
Proof.
  exact (operations_stay_in_their_collection
           "embeddings" VNone demo_db (final demo_start) (calls demo_start) demo_self
           (OpDelete "web_documents" None true) "web_documents" "WebCollection" demo_loaded
           eq_refl eq_refl eq_refl).
Defined.

Lemma reading_operations_only_read_witness :
  Forall (fun ev => is_read ev = true)
         (calls (perform demo_self (OpLatest "pdf_documents") demo_loaded)).
Proof.
  exact (reading_operations_only_read demo_self (OpLatest "pdf_documents") demo_loaded
           eq_refl).
Defined.

Lemma a_provided_embedding_function_is_used_witness :
  embeddings custom_self = ProvidedEmbedding custom_embedder /\
  Forall (fun item => embedding_function (snd item) = ProvidedEmbedding custom_embedder)
         (vector_stores custom_self) /\
  Forall (fun ev => builds_embeddings ev = false) (calls custom_start).
Proof.
  exact (a_provided_embedding_function_is_used
           "embeddings" custom_embedder demo_db (final custom_start) custom_self
           (calls custom_start) eq_refl eq_refl).
Defined.

Example count_of_a_missing_table_is_zero :
  outcome (get_collection_count demo_self "pdf_documents" demo_db) = Ok (VInt 0) /\
  calls (get_collection_count demo_self "pdf_documents" demo_db)
  = [ECursor (Connection 1);
     EExecute (CursorOf (Connection 1) 1) "SELECT COUNT(*) FROM PDFCollection" []].
Proof. split; reflexivity. Qed.

Example count_after_two_adds :
  outcome (get_collection_count demo_self "pdf_documents" demo_loaded) = Ok (VInt 2).
Proof. reflexivity. Qed.

End OraDBProps.

(** * The command line of the vector store: properties *)

Module OraDBMainProps.
Import OraDB OraDBMain.

Section Main.
Context {B : Type} `{External B} `{Runtime B}.

Lemma through_run {A : Type} (m : M B Event A) (b : B) :
  through m b = (outcome (m b), final (m b), map InStore (calls (m b))).
Proof. unfold through. now destruct (m b) as [[r b'] t]. Qed.

Lemma through_emits (P : MainCall -> Prop) {A : Type} (m : M B Event A) :
  emits (fun ev => P (InStore ev)) m -> emits P (through m).
Proof.
  intros Hm b. rewrite through_run. unfold calls at 1. simpl snd.
  apply Forall_map. apply Hm.
Qed.

(** [main] ends normally once the arguments are parsed: the handler of
    its [try] only prints. *)
Lemma main_ends_normally (args : Args) (b : B) :
  outcome (main args b) = Ok tt.
Proof.
  unfold main, try_except, outcome.
  match goal with
  | |- context [bind ?m ?f b] => destruct (bind m f b) as [[[[] | e] b1] t1]
  end; [reflexivity |].
  unfold through, print, call. reflexivity.
Qed.

(** X13. When the store cannot be built, [main] prints the error and
    does nothing else: no file is loaded and nothing is added or
    queried, whatever the arguments ask for. *)
Theorem main_stops_when_the_store_cannot_be_built (args : Args) (b b1 : B)
    (e : Exn) (t : list Event) :
  __init__ "embeddings" VNone b = (Raised e, b1, t) ->
  main args b
    = (Ok tt, b1, (map InStore t ++ [InStore (EPrint ("Error: " ++ exn_str e))])%list).
Proof.
  intros Hinit. unfold main, try_except.
  rewrite (bind_raised _ _ _ e b1 (map InStore t))
    by (rewrite through_run, Hinit; reflexivity).
  reflexivity.
Qed.

(** X14. When the file given to [--add] cannot be loaded, the run ends
    there: the error is printed, nothing is added, and [--add-web] and
    [--query] are not carried out. *)
Theorem a_failed_load_stops_the_run (args : Args) (path : string) (b b1 b2 : B)
    (self : OraDBVectorStore) (t : list Event) (e : Exn) :
  __init__ "embeddings" VNone b = (Ok self, b1, t) ->
  args_add args = Some path ->
  path <> "" ->
  json_load path b1 = (Raised e, b2) ->
  main args b
    = (Ok tt, b2,
       (map InStore t ++ [EJsonLoad path; InStore (EPrint ("Error: " ++ exn_str e))])%list).
Proof.
  intros Hinit Hadd Hpath Hload. unfold main, try_except.
  rewrite (bind_ok _ _ _ self b1 (map InStore t))
    by (rewrite through_run, Hinit; reflexivity).
  rewrite (bind_raised _ _ _ e b2 [EJsonLoad path]).
  - unfold outcome, final, calls, through, print, call. simpl.
    now rewrite <- app_assoc.
  - rewrite Hadd. unfold when.
    apply String.eqb_neq in Hpath. rewrite Hpath. simpl negb. cbv iota.
    unfold add_file. apply bind_raised. unfold call. now rewrite Hload.
Qed.

Lemma when_emits (P : MainCall -> Prop) (value : option string)
    (action : string -> M B MainCall unit) :
  (forall text, value = Some text -> emits P (action text)) ->
  emits P (when value action).
Proof.
  intros Haction. unfold when. destruct value as [text |]; [| apply emits_ret].
  destruct (negb (text =? "")); [now apply Haction | apply emits_ret].
Qed.

Lemma when_not_given_emits (P : MainCall -> Prop) (value : option string)
    (action : string -> M B MainCall unit) :
  given value = false -> emits P (when value action).
Proof.
  unfold given, when. destruct value as [text |]; [| intros _; apply emits_ret].
  intros ->. apply emits_ret.
Qed.

Lemma show_result_emits (P : Event -> Prop) label key default result :
  (forall msg, P (EPrint msg)) ->
  emits P (show_result (B := B) label key default result).
Proof. intros Hprint. unfold show_result. OraDBSpec.emits_auto. Qed.

Lemma init_builds_emits (P : Event -> Prop) (persist_directory : string)
    (embedding_function : PyVal) :
  (forall msg, P (EPrint msg)) ->
  (forall path, P (EPathExists path)) ->
  (forall path, P (EYamlSafeLoad path)) ->
  (forall kwargs, P (EConnect kwargs)) ->
  (forall conn params, P (ENewOracleEmbeddings conn params)) ->
  (forall store, P (ENewOracleVS store)) ->
  emits P (__init__ (B := B) persist_directory embedding_function).
Proof.
  intros Hprint Hexists Hyaml Hconnect Hemb Hstore. unfold __init__.
  apply emits_bind; [now apply OraDBSpec.load_config_emits |].
  intros credentials.
  apply emits_bind; [apply emits_lift |]; intros username.
  apply emits_bind; [apply emits_lift |]; intros password.
  apply emits_bind; [apply emits_lift |]; intros dsn.
  apply emits_bind; [apply emits_lift |]; intros wallet_path.
  apply emits_bind; [apply emits_lift |]; intros wallet_password.
  destruct (negb (truthy password) || negb (truthy dsn)); [apply emits_raise |].
  apply emits_bind; [now apply OraDBSpec.connect_to_database_emits |].
  intros conn.
  now apply (OraDBSpec.finish_init_emits P credentials conn embedding_function).
Qed.

(** X15. A run with [--query] alone only reads: it loads no file, adds
    and deletes nothing and sends no SQL; apart from building the
    instance and printing, all it does is search, for the query given and
    for three results. *)
Theorem a_query_run_only_searches (args : Args) (query : string) (b : B) :
  given (args_add args) = false ->
  given (args_add_web args) = false ->
  args_query args = Some query ->
  Forall (query_run_call query) (calls (main args b)).
Proof.
  intros Hadd Hweb Hquery. revert b.
  change (emits (query_run_call query) (main args)).
  unfold main. apply emits_try_except.
  - apply emits_bind.
    { apply through_emits, init_builds_emits; intros; exact I. }
    intros store.
    apply emits_bind; [now apply when_not_given_emits |]. intros _.
    apply emits_bind; [now apply when_not_given_emits |]. intros _.
    apply when_emits. intros text Htext. rewrite Hquery in Htext. injection Htext as <-.
    apply through_emits. unfold run_query, query_pdf_collection, query_web_collection.
    apply emits_bind.
    { apply OraDBProps.query_collection_emits; simpl; auto. }
    intros pdf_results. apply emits_bind.
    { apply OraDBProps.query_collection_emits; simpl; auto. }
    intros web_results.
    repeat first
      [ apply emits_ret
      | apply emits_call; exact I
      | apply emits_mapM; intros ?; apply show_result_emits; intros; exact I
      | apply emits_bind; [| intros ?] ].
  - intros e. apply through_emits. apply emits_call. exact I.
Qed.
End Main.

(** ** [main] on the reference environment *)

Lemma main_stops_when_the_store_cannot_be_built_witness :
  main (H0 := demo_runtime) (mkArgs (Some "chunks.json") None (Some "what is new"))
       OraDBMore.no_config_db
  = (Ok tt, OraDBMore.no_config_db,
     [InStore (EPathExists "config.yaml");
      InStore (EPrint "Warning: config.yaml not found. Using empty configuration.");
      InStore (EPrint "Error: Oracle DB credentials not found in config.yaml. Please set ORACLE_DB_USERNAME, ORACLE_DB_PASSWORD, and ORACLE_DB_DSN.")]).
Proof.
  exact (main_stops_when_the_store_cannot_be_built (H0 := demo_runtime)
           (mkArgs (Some "chunks.json") None (Some "what is new"))
           OraDBMore.no_config_db OraDBMore.no_config_db credentials_missing
           [EPathExists "config.yaml";
            EPrint "Warning: config.yaml not found. Using empty configuration."]
           eq_refl).
Defined.

Lemma a_failed_load_stops_the_run_witness :
  loads (calls (main (H0 := demo_runtime)
                     (mkArgs (Some "missing.json") (Some "chunks.json") (Some "what is new"))
                     demo_db))
    = ["missing.json"] /\
  database_calls
    (store_calls (calls (main (H0 := demo_runtime)
                              (mkArgs (Some "missing.json") (Some "chunks.json")
                                      (Some "what is new"))
                              demo_db)))
    = database_calls (calls demo_start).
Proof.
  assert (Hpath : "missing.json" <> "") by discriminate.
  assert (Hinit : __init__ "embeddings" VNone demo_db
                  = (Ok demo_self, final demo_start, calls demo_start))
    by reflexivity.
  rewrite (a_failed_load_stops_the_run (H0 := demo_runtime)
             (mkArgs (Some "missing.json") (Some "chunks.json") (Some "what is new"))
             "missing.json" demo_db (final demo_start) (final demo_start) demo_self
             (calls demo_start)
             (mkExn (LibraryError "FileNotFoundError") "missing.json")
             Hinit eq_refl Hpath eq_refl).
  split; reflexivity.
Defined.

Lemma a_query_run_only_searches_witness :
  Forall (query_run_call "what is new")
         (calls (main (H0 := demo_runtime) (mkArgs None None (Some "what is new")) demo_db)).
Proof.
  exact (a_query_run_only_searches (H0 := demo_runtime)
           (mkArgs None None (Some "what is new")) "what is new" demo_db
           eq_refl eq_refl eq_refl).
Defined.

Example a_run_that_adds_and_queries :
  database_calls
    (skipn (length (calls demo_start))
       (store_calls (calls (main (H0 := demo_runtime)
                                 (mkArgs (Some "chunks.json") None (Some "first"))
                                 demo_db))))
  = [EAddTexts demo_pdf_store [VStr "first"] [map sanitize_item (demo_metadata "a.pdf")];
     ESimilaritySearch demo_pdf_store "first" 3;
     ESimilaritySearch
       (mkOracleVS (connection demo_self) (embeddings demo_self) "WebCollection"
                   "EUCLIDEAN_DISTANCE") "first" 3].
Proof. reflexivity. Qed.

End OraDBMainProps.

(** * The operator menu: further properties *)

Module AgentCliProps.
Import AgentCli AgentCliMore.

Section Console.
Context `{Console}.




(** Some print of a trace was rejected. *)
Ltac some_rejected :=
  cbn [printed_ok forallb]; unfold shown; cbn [markup_of];
  repeat match goal with
         | Hread : markup_error _ = _ |- _ => rewrite Hread
         end;
  reflexivity.

Ltac run_it H :=
  cbv [run_command try_except console_print render bind call ret app
       exn_str exn_class MarkupError outcome final calls fst snd] in H.

(** What [run_command] does: it hands the session back as it was; it
    launches the command when the console accepted the line before the
    [try], and nothing otherwise; with every print accepted it returns
    whether the process ran and exited with code 0; and it raises nothing
    but a [MarkupError] that follows a rejected print. *)
Lemma run_command_run (command : list string) (description : string) (w : World) :
  exists r trace,
    run_command command description w = (r, w, trace) /\
    launches trace = (if shown (running_line command) then [command] else []) /\
    (printed_ok trace = true ->
     shown (running_line command) = true /\
     r = Ok (match run w command with
             | Ok result => (returncode result =? 0)%Z
             | Raised _ => false
             end)) /\
    match r with
    | Ok _ => True
    | Raised e => exn_class e = LibraryError "MarkupError" /\ printed_ok trace = false
    end.
Proof.
  remember (run_command command description w) as result eqn:Hrun.
  run_it Hrun. unfold running_line, shown.
  destruct (run w command) as [done | e];
    [destruct (returncode done =? 0)%Z;
     destruct (stdout done =? ""); try destruct (stderr done =? "") |];
    cbv [negb] in Hrun;
    each_print Hrun ltac:(fun H => run_it H);
    subst result; eexists; eexists; (split; [reflexivity |]);
    cbn [markup_of] in *;
    repeat match goal with
           | Hread : markup_error _ = _ |- _ => rewrite Hread
           end;
    (split; [reflexivity |]);
    (split; [intros Hok; try rejected Hok; split; reflexivity |]);
    try exact I;
    (split; [reflexivity | some_rejected]).
Qed.


Section Traces.
Variable P : Event -> Prop.
Hypothesis print_ok : forall what, P (EConsolePrint what).
Hypothesis prompt_ok : forall prompt choices default, P (EPromptAsk prompt choices default).
Hypothesis input_ok : forall prompt, P (EInput prompt).
Hypothesis progress_ok : forall description, P (EProgress description).
Hypothesis clear_ok : forall command, command = "cls" \/ command = "clear" -> P (EOsSystem command).

Lemma console_print_emits (what : Renderable) : emits P (console_print what).
Proof. apply emits_call, print_ok. Qed.

Lemma Prompt_ask_emits prompt choices default : emits P (Prompt_ask prompt choices default).
Proof. apply emits_call, prompt_ok. Qed.

Lemma input_emits prompt : emits P (input prompt).
Proof. apply emits_call, input_ok. Qed.

Lemma read_emits (f : World -> bool) : emits P (read f).
Proof. intros w. constructor. Qed.

Lemma print_header_emits : emits P print_header.
Proof.
  unfold print_header.
  apply emits_bind.
  { intros w. unfold clear_screen, call, calls. simpl. constructor; [| constructor].
    apply clear_ok. destruct (os_name w =? "nt"); auto. }
  intros _. apply emits_bind; [apply console_print_emits |]. intros _.
  intros w. apply console_print_emits.
Qed.

Lemma run_command_emits (command : list string) (description : string) :
  P (ESubprocessRun command) -> emits P (run_command command description).
Proof.
  intros Hrun. unfold run_command.
  apply emits_bind; [apply console_print_emits |]. intros _.
  apply emits_try_except.
  - apply emits_bind; [apply emits_call, progress_ok |]. intros _.
    apply emits_bind; [now apply emits_call |]. intros result.
    destruct (returncode result =? 0)%Z;
      repeat first [ apply emits_ret
                   | apply console_print_emits
                   | apply emits_bind; [| intros ?]
                   | match goal with |- emits _ (if ?c then _ else _) => destruct c end ].
  - intros e. apply emits_bind; [apply console_print_emits |]. intros _. apply emits_ret.
Qed.

Lemma after_branches_emits (flow : Flow) : emits P (after_branches flow).
Proof.
  destruct flow; simpl; [apply emits_ret |].
  apply emits_bind; [apply input_emits |]. intros _. apply emits_ret.
Qed.
End Traces.

Ltac menu_emits Hrun :=
  repeat first
    [ apply emits_ret
    | apply print_header_emits; assumption
    | apply console_print_emits; assumption
    | apply Prompt_ask_emits; assumption
    | apply input_emits; assumption
    | apply read_emits
    | apply after_branches_emits; assumption
    | apply run_command_emits; [assumption .. | apply Hrun; reflexivity]
    | apply emits_bind; [| intros ?]
    | match goal with |- emits _ (if ?c then _ else _) => destruct c end ].

Lemma submenu_emits (P : Event -> Prop) (menu : Menu) :
  (forall what, P (EConsolePrint what)) ->
  (forall prompt choices default, P (EPromptAsk prompt choices default)) ->
  (forall prompt, P (EInput prompt)) ->
  (forall description, P (EProgress description)) ->
  (forall command, command = "cls" \/ command = "clear" -> P (EOsSystem command)) ->
  (forall command, is_project_command command = true -> P (ESubprocessRun command)) ->
  emits P (submenu menu).
Proof.
  intros Hprint Hprompt Hinput Hprogress Hclear Hrun.
  destruct menu; simpl;
    unfold menu_process_pdfs, menu_process_websites, menu_manage_vector_store,
      menu_test_oradb;
    menu_emits Hrun.
Qed.

Lemma rag_agent_turn_emits (P : Event -> Prop) :
  (forall what, P (EConsolePrint what)) ->
  (forall prompt choices default, P (EPromptAsk prompt choices default)) ->
  (forall prompt, P (EInput prompt)) ->
  (forall description, P (EProgress description)) ->
  (forall command, command = "cls" \/ command = "clear" -> P (EOsSystem command)) ->
  (forall command, is_project_command command = true -> P (ESubprocessRun command)) ->
  emits P rag_agent_turn.
Proof.
  intros Hprint Hprompt Hinput Hprogress Hclear Hrun.
  unfold rag_agent_turn, Confirm_ask.
  repeat first
    [ apply emits_ret
    | apply emits_call; solve [auto]
    | progress menu_emits Hrun ].
Qed.

Lemma menu_rag_agent_emits (P : Event -> Prop) (fuel : nat) :
  (forall what, P (EConsolePrint what)) ->
  (forall prompt choices default, P (EPromptAsk prompt choices default)) ->
  (forall prompt, P (EInput prompt)) ->
  (forall description, P (EProgress description)) ->
  (forall command, command = "cls" \/ command = "clear" -> P (EOsSystem command)) ->
  (forall command, is_project_command command = true -> P (ESubprocessRun command)) ->
  emits P (menu_rag_agent fuel).
Proof.
  intros Hprint Hprompt Hinput Hprogress Hclear Hrun.
  induction fuel as [| fuel IH]; simpl; [apply emits_ret |].
  apply emits_bind; [now apply rag_agent_turn_emits |].
  intros [|]; [apply emits_ret | exact IH].
Qed.

(** X17. Whatever the operator types, the menus start nothing but the
    screen clear ([cls] or [clear]) and the Python interpreter on one of
    the project's modules or on its test script; what was typed only ever
    follows as an argument.  This holds for the four menus and for the
    agent chat loop, however long it runs. *)
Theorem menus_start_only_project_commands (menu : Menu) (fuel : nat) (w : World) :
  Forall (fun ev => is_expected_process ev = true) (calls (submenu menu w)) /\
  Forall (fun ev => is_expected_process ev = true) (calls (menu_rag_agent fuel w)).
Proof.
  split.
  - apply (submenu_emits (fun ev => is_expected_process ev = true)); try reflexivity.
    + intros command [-> | ->]; reflexivity.
    + intros command Hcommand. exact Hcommand.
  - apply (menu_rag_agent_emits (fun ev => is_expected_process ev = true)); try reflexivity.
    + intros command [-> | ->]; reflexivity.
    + intros command Hcommand. exact Hcommand.
Qed.

Lemma launches_app (t1 t2 : list Event) :
  launches (t1 ++ t2) = (launches t1 ++ launches t2)%list.
Proof. apply flat_map_app. Qed.

Lemma bound_ret {A : Type} (a : A) (n : nat) : launches_at_most n (ret a).
Proof. intros w. simpl. lia. Qed.

Lemma bound_call {A : Type} (ev : Event) (answer : World -> Result A * World) (n : nat) :
  launches [ev] = [] -> launches_at_most n (call ev answer).
Proof.
  intros Hquiet w. unfold call, calls. destruct (answer w). simpl snd.
  rewrite Hquiet. simpl. lia.
Qed.

Lemma bound_bind {A C : Type} (m : Prog A) (f : A -> Prog C) (n1 n2 : nat) :
  launches_at_most n1 m -> (forall a, launches_at_most n2 (f a)) ->
  launches_at_most (n1 + n2) (bind m f).
Proof.
  intros Hm Hf w. rewrite calls_bind, launches_app, length_app.
  specialize (Hm w). destruct (outcome (m w)) as [a | e].
  - specialize (Hf a (final (m w))). lia.
  - simpl. lia.
Qed.

Lemma bound_bind_quiet {A C : Type} (m : Prog A) (f : A -> Prog C) (n : nat) :
  launches_at_most 0 m -> (forall a, launches_at_most n (f a)) ->
  launches_at_most n (bind m f).
Proof. intros Hm Hf. exact (bound_bind m f 0 n Hm Hf). Qed.

Lemma bound_bind_last {A C : Type} (m : Prog A) (f : A -> Prog C) (n : nat) :
  launches_at_most n m -> (forall a, launches_at_most 0 (f a)) ->
  launches_at_most n (bind m f).
Proof.
  intros Hm Hf w. pose proof (bound_bind m f n 0 Hm Hf w) as Hbound. lia.
Qed.

Lemma bound_print_header (n : nat) : launches_at_most n print_header.
Proof.
  intros w. cbv [print_header clear_screen bind call console_print calls snd].
  repeat match goal with
         | |- context [render ?what] => destruct (render what)
         end; simpl; lia.
Qed.

Lemma bound_read (f : World -> bool) (n : nat) : launches_at_most n (read f).
Proof. intros w. simpl. lia. Qed.

Lemma bound_run_command (command : list string) (description : string) :
  launches_at_most 1 (run_command command description).
Proof.
  intros w.
  destruct (run_command_run command description w) as (r & trace & -> & Hlaunch & _).
  unfold calls. simpl snd. rewrite Hlaunch.
  destruct (shown (running_line command)); simpl; lia.
Qed.

Lemma bound_after_branches (flow : Flow) (n : nat) : launches_at_most n (after_branches flow).
Proof.
  destruct flow; simpl; [apply bound_ret |].
  apply bound_bind_quiet; [now apply bound_call | intros _; apply bound_ret].
Qed.

Ltac quiet :=
  solve [ repeat first
            [ apply bound_ret
            | apply bound_print_header
            | apply bound_read
            | apply bound_after_branches
            | apply bound_call; reflexivity
            | apply bound_bind_quiet; [| intros ?]
            | match goal with
              | |- launches_at_most _ (if ?c then _ else _) => destruct c
              end ] ].

Ltac bounded :=
  idtac;
  first
    [ quiet
    | apply bound_run_command
    | apply bound_bind_quiet; [quiet | intros ?; bounded]
    | apply bound_bind_last; [bounded | intros ?; quiet]
    | match goal with
      | |- launches_at_most _ (if ?c then _ else _) => destruct c; bounded
      end ].

(** X18. One visit to a menu launches at most one subprocess, whatever
    the operator answers and whatever exists on disk; so does one turn of
    the agent chat. *)
Theorem a_menu_visit_launches_at_most_once (menu : Menu) (w : World) :
  length (launches (calls (submenu menu w))) <= 1 /\
  length (launches (calls (rag_agent_turn w))) <= 1.
Proof.
  split.
  - revert w. change (launches_at_most 1 (submenu menu)).
    destruct menu; simpl;
      unfold menu_process_pdfs, menu_process_websites, menu_manage_vector_store,
        menu_test_oradb, console_print, Prompt_ask, input;
      bounded.
  - revert w. change (launches_at_most 1 rag_agent_turn).
    unfold rag_agent_turn, Confirm_ask, console_print, Prompt_ask, input. bounded.
Qed.



Ltac run_cli H :=
  cbv [submenu menu_of menu_process_pdfs menu_process_websites menu_manage_vector_store
       menu_test_oradb print_header clear_screen console_print render Prompt_ask input read
       after_branches bind call ret next_answer keystrokes command_for path_accepted
       app answers files directories cwd os_name run
       outcome final calls fst snd String.eqb Ascii.eqb Bool.eqb negb] in H.

(** X19. Choosing 0 in a menu goes straight back.  Nothing is launched;
    and when the console accepted the header and the menu, the menu has
    asked nothing else and returned, having used up that one answer. *)
Theorem choosing_zero_goes_back (menu : Menu) (w : World) (rest : list string) :
  answers w = "0" :: rest ->
  launches (calls (submenu menu w)) = [] /\
  (printed_ok (calls (submenu menu w)) = true ->
   outcome (submenu menu w) = Ok tt /\
   length (questions (calls (submenu menu w))) = 1 /\
   answers (final (submenu menu w)) = rest).
Proof.
  intros Hanswers. destruct w as [typed fs ds dir osn launch].
  simpl in Hanswers. subst typed.
  remember (submenu menu (mkWorld _ fs ds dir osn launch)) as result eqn:Hrun.
  destruct menu; run_cli Hrun;
    each_print Hrun ltac:(fun H => run_cli H); subst result;
    (split; [reflexivity | intros Hok]); try rejected Hok; repeat split.
Qed.




Ltac step_turn H :=
  cbv [rag_agent_turn Confirm_ask print_header clear_screen console_print render
       Prompt_ask input bind call ret next_answer answers files directories cwd os_name run
       outcome final calls fst snd] in H.




(** X22. An exit word leaves the chat at once: when the query is [exit],
    [quit] or [0], in any mix of upper and lower case, nothing is
    launched; and when the console accepted the header and the three
    lines under it, the loop has ended without asking for
    chain-of-thought and without waiting for Enter. *)
Theorem an_exit_word_leaves_the_chat (fuel : nat) (w : World) (query : string)
    (rest : list string) :
  answers w = query :: rest ->
  member (lower query) ["exit"; "quit"; "0"] = true ->
  launches (calls (menu_rag_agent (S fuel) w)) = [] /\
  (printed_ok (calls (menu_rag_agent (S fuel) w)) = true ->
   outcome (menu_rag_agent (S fuel) w) = Ok Left /\
   answers (final (menu_rag_agent (S fuel) w)) = rest).
Proof.
  intros Hanswers Hexit. destruct w as [typed fs ds dir osn launch].
  simpl in Hanswers. subst typed.
  remember (menu_rag_agent (S fuel) (mkWorld _ fs ds dir osn launch)) as result eqn:Hrun.
  cbn [menu_rag_agent] in Hrun. step_turn Hrun.
  each_print Hrun ltac:(fun H => step_turn H);
    try rewrite Hexit in Hrun; subst result;
    (split; [reflexivity | intros Hok]); try rejected Hok; split; reflexivity.
Qed.



















Ltac step_main_in H :=
  cbv [within print_header clear_screen console_print render Prompt_ask
       bind call ret raise next_answer answers files directories cwd os_name run
       outcome final calls fst snd] in H.




(** X26. Choosing 0 in the main menu launches nothing; and when the
    console accepted what was printed, the menu has said goodbye and
    exited with status 0. *)
Theorem main_menu_exits_on_zero (fuel : nat) (w : World) (rest : list string) :
  answers w = "0" :: rest ->
  main_launches (calls (main_menu (S fuel) w)) = [] /\
  (printed_ok (menu_calls (calls (main_menu (S fuel) w))) = true ->
   outcome (main_menu (S fuel) w) = Raised (SystemExit "0") /\
   In (InMenu (EConsolePrint (Markup "[bold]Goodbye![/bold]")))
      (calls (main_menu (S fuel) w)) /\
   answers (final (main_menu (S fuel) w)) = rest).
Proof.
  intros Hanswers. destruct w as [typed fs ds dir osn launch].
  simpl in Hanswers. subst typed.
  remember (main_menu (S fuel) (mkWorld _ fs ds dir osn launch)) as result eqn:Hrun.
  cbn [main_menu] in Hrun. step_main_in Hrun.
  each_print Hrun
    ltac:(fun H => step_main_in H; cbv [String.eqb Ascii.eqb Bool.eqb map app] in H;
                   step_main_in H);
    subst result; (split; [reflexivity | intros Hok]);
    cbn [menu_calls flat_map app calls snd] in Hok; try rejected Hok;
    (split; [reflexivity | split; [| reflexivity]]);
    cbn [calls snd]; repeat (first [left; reflexivity | right]).
Qed.


End Console.

(** ** The further properties on a sample session *)

Lemma choosing_zero_goes_back_witness :
  launches (calls (menu_test_oradb (H := rich_console) (demo_world ["0"; "1"]))) = [] /\
  outcome (menu_test_oradb (H := rich_console) (demo_world ["0"; "1"])) = Ok tt /\
  answers (final (menu_test_oradb (H := rich_console) (demo_world ["0"; "1"]))) = ["1"].
Proof.
  pose proof (choosing_zero_goes_back (H := rich_console)
                TestOradb (demo_world ["0"; "1"]) ["1"] eq_refl) as (Hnone & Hshown).
  destruct (Hshown eq_refl) as (Hok & _ & Hrest).
  split; [exact Hnone | split; [exact Hok | exact Hrest]].
Defined.



Lemma an_exit_word_leaves_the_chat_witness :
  launches (calls (menu_rag_agent (H := rich_console) 1 (demo_world ["Exit"; "y"]))) = [] /\
  outcome (menu_rag_agent (H := rich_console) 1 (demo_world ["Exit"; "y"])) = Ok Left /\
  answers (final (menu_rag_agent (H := rich_console) 1 (demo_world ["Exit"; "y"]))) = ["y"].
Proof.
  pose proof (an_exit_word_leaves_the_chat (H := rich_console)
                0 (demo_world ["Exit"; "y"]) "Exit" ["y"] eq_refl eq_refl)
    as (Hnone & Hshown).
  split; [exact Hnone | exact (Hshown eq_refl)].
Defined.



Lemma main_menu_exits_on_zero_witness :
  outcome (main_menu (H := rich_console) 1 (demo_world ["0"])) = Raised (SystemExit "0").
Proof.
  exact (proj1 (proj2 (main_menu_exits_on_zero (H := rich_console)
                         0 (demo_world ["0"]) [] eq_refl) eq_refl)).
Defined.

Example a_session_through_the_main_menu :
  raised_class (outcome (main_menu (H := rich_console) 6
                           (demo_world ["4"; "2"; ""; "5"; "exit"; "0"])))
    = Some (LibraryError "SystemExit") /\
  main_launches (calls (main_menu (H := rich_console) 6
                          (demo_world ["4"; "2"; ""; "5"; "exit"; "0"])))
    = [["python"; "tests/test_oradb.py"; "--stats-only"]].
Proof. split; reflexivity. Qed.

(** A query that holds a closing tag ends the session at the "Running
    command" line, before anything is launched. *)
Example a_query_with_a_closing_tag_ends_the_session :
  raised_class (outcome (main_menu (H := rich_console) 6
                           (demo_world ["3"; "3"; "what does [/INST] mean"; ""; "0"])))
    = Some (LibraryError "MarkupError") /\
  main_launches (calls (main_menu (H := rich_console) 6
                          (demo_world ["3"; "3"; "what does [/INST] mean"; ""; "0"])))
    = [].
Proof. split; reflexivity. Qed.

(** Output that does not read as markup turns a run that succeeded into
    a [MarkupError]: the panel raises inside the [try], and the message
    the handler prints quotes the offending tag. *)
Example output_with_a_closing_tag_is_an_error :
  raised_class
    (outcome (run_command (H := rich_console) ["python"; "tests/test_oradb.py"] "Testing"
                (mkWorld [] [] [] "/srv" "posix"
                         (fun _ => Ok (mkCompleted 0 "done [/ok]" "")))))
  = Some (LibraryError "MarkupError") /\
  launches
    (calls (run_command (H := rich_console) ["python"; "tests/test_oradb.py"] "Testing"
              (mkWorld [] [] [] "/srv" "posix"
                       (fun _ => Ok (mkCompleted 0 "done [/ok]" "")))))
  = [["python"; "tests/test_oradb.py"]].
Proof. split; reflexivity. Qed.

End AgentCliProps.
